(** * SIYI gimbal SDK: message codec, reassembly scan and rotation controller

    A shallow embedding of [siyi_sdk/utils.py], [siyi_sdk/siyi_message.py]
    and [siyi_sdk/siyi_sdk.py].  Python [str] values are lists of
    characters and Python [int] values are [Z].  A telemetry field that
    holds a [float] is kept as the rational the parser divides out
    ([v / 10.0] is [v # 10]); the arithmetic of the rotation controller
    is done on IEEE 754 binary64 values, Rocq's primitive floats.  An
    uncaught Python exception is an explicit [Raised] outcome. *)

From Stdlib Require Import Floats.
From Stdlib Require Import Ascii String.
From Stdlib.Strings Require Import Byte.
From Stdlib Require Import ZArith List Bool Lia QArith.
Import ListNotations.
Open Scope Z_scope.

(** ** Python strings *)

Definition str := list ascii.

Definition lit (s : string) : str := list_ascii_of_string s.

(** [s[a:b]] for non-negative [a <= b]. *)
Definition slice (a b : nat) (s : str) : str := firstn (b - a) (skipn a s).

(** [s[-k:]] *)
Definition last_chars (k : nat) (s : str) : str := skipn (length s - k) s.

(** [s[:-k]] for [k > 0]. *)
Definition drop_last (k : nat) (s : str) : str := firstn (length s - k) s.

Fixpoint str_eqb (a b : str) : bool :=
  match a, b with
  | [], [] => true
  | x :: a', y :: b' => Ascii.eqb x y && str_eqb a' b'
  | _, _ => false
  end.

(** ** Hexadecimal text *)

Definition hex_digit (d : Z) : ascii :=
  match d with
  | 0 => "0" | 1 => "1" | 2 => "2" | 3 => "3"
  | 4 => "4" | 5 => "5" | 6 => "6" | 7 => "7"
  | 8 => "8" | 9 => "9" | 10 => "a" | 11 => "b"
  | 12 => "c" | 13 => "d" | 14 => "e" | _ => "f"
  end%char.

(** The value of a digit in base 16, by character code: ['0'..'9'],
    ['a'..'f'] and ['A'..'F']. *)
Definition hex_val (c : ascii) : option Z :=
  let code := Z.of_N (N_of_ascii c) in
  if (48 <=? code) && (code <=? 57) then Some (code - 48)
  else if (97 <=? code) && (code <=? 102) then Some (code - 87)
  else if (65 <=? code) && (code <=? 70) then Some (code - 55)
  else None.

Definition is_hex_char (c : ascii) : bool :=
  match hex_val c with Some _ => true | None => false end.

(** Every character is a hexadecimal digit. *)
Definition is_hex (s : str) : bool := forallb is_hex_char s.

Fixpoint format_x_aux (fuel : nat) (n : Z) (acc : str) : str :=
  match fuel with
  | O => acc
  | S fuel' =>
      let acc' := hex_digit (n mod 16) :: acc in
      if n / 16 =? 0 then acc' else format_x_aux fuel' (n / 16) acc'
  end.

(** [format(n, 'x')] for [n >= 0]: lower-case digits, no prefix, ["0"] for
    zero. *)
Definition format_x (n : Z) : str :=
  format_x_aux (S (Z.to_nat (Z.log2 n))) n [].

(** [hex(n)] for [n >= 0]. *)
Definition hex (n : Z) : str := lit "0x" ++ format_x n.

Fixpoint int_from (acc : Z) (s : str) : option Z :=
  match s with
  | [] => Some acc
  | c :: t =>
      match hex_val c with
      | Some d => int_from (acc * 16 + d) t
      | None => None
      end
  end.

(** [int(s, 16)] and [int("0x" + s, base=16)] on text made of hexadecimal
    digits; [None] stands for [ValueError].  The empty text is an invalid
    literal in both forms.  The receive path only ever passes slices of
    [bytes.hex()] output, and the encoders only pass [toHex] output, so no
    sign, blank, underscore or nested prefix reaches these calls; on such
    text the model answers [None]. *)
Definition int_hex (s : str) : option Z :=
  match s with
  | [] => None
  | _ => int_from 0 s
  end.

(** ** utils.py *)

Definition toHex (intval nbits : Z) : str :=
  let h := format_x ((intval + Z.shiftl 1 nbits) mod (Z.shiftl 1 nbits)) in
  if (length h =? 1)%nat && (nbits =? 8) then lit "0" ++ h
  else if (length h =? 1)%nat && (nbits =? 16) then lit "000" ++ h
  else if (length h =? 2)%nat && (nbits =? 16) then lit "00" ++ h
  else if (length h =? 3)%nat && (nbits =? 16) then lit "0" ++ h
  else h.

Definition toInt (hexval : str) : option Z :=
  let bits := 16 in
  match int_hex hexval with
  | None => None
  | Some val =>
      if negb (Z.land val (Z.shiftl 1 (bits - 1)) =? 0)
      then Some (val - Z.shiftl 1 bits)
      else Some val
  end.

(** ** Exceptions

    A Python call either returns or raises; only the exception classes
    that the modelled code can raise are listed. *)

Inductive exn : Type :=
| ValueError      (* invalid literal for int(), bytes.fromhex(), int(nan) *)
| TypeError       (* [raise NotImplemented]: not a BaseException *)
| OverflowError.  (* int() of an infinite float *)

Inductive result (A : Type) : Type :=
| Ok (a : A)
| Raised (e : exn).

Arguments Ok {A} a.
Arguments Raised {A} e.

Definition bind {A B : Type} (r : result A) (k : A -> result B) : result B :=
  match r with
  | Ok a => k a
  | Raised e => Raised e
  end.

Notation "x <- c ;; k" := (bind c (fun x => k))
  (at level 61, c at next level, right associativity).

Definition opt_str_eqb (a b : option str) : bool :=
  match a, b with
  | Some x, Some y => str_eqb x y
  | None, None => true
  | _, _ => false
  end.

(** [bytes.fromhex(s)] on text without blanks: one byte per two digits. *)
Fixpoint fromhex (s : str) : option (list byte) :=
  match s with
  | [] => Some []
  | a :: b :: t =>
      match hex_val a, hex_val b, fromhex t with
      | Some x, Some y, Some r =>
          match Byte.of_N (Z.to_N (x * 16 + y)) with
          | Some c => Some (c :: r)
          | None => None
          end
      | _, _, _ => None
      end
  | _ :: [] => None
  end.

Definition byte_val (c : byte) : Z := Z.of_N (Byte.to_N c).

(** [bytes.hex()]: two lower-case digits per byte. *)
Definition hex_of_bytes (b : list byte) : str :=
  flat_map
    (fun c => [hex_digit (byte_val c / 16); hex_digit (byte_val c mod 16)])
    b.

(** ** A checksum instance

    The module [crc16_python] is not among the sources, and the codec
    below takes its function [crc16_str_swap] as a parameter.  The
    instance defined here fills that parameter in the closed examples. *)

(** Modelled from the spec: [crc16_python] is missing; the spec asks for a
    deterministic, order-sensitive two-byte checksum.  One byte of CRC-16
    with polynomial 0x1021, bit by bit. *)
Fixpoint crc16_bits (n : nat) (crc : Z) : Z :=
  match n with
  | O => crc
  | S n' =>
      let crc' :=
        if Z.land crc 32768 =? 0 then Z.shiftl crc 1
        else Z.lxor (Z.shiftl crc 1) 4129 in
      crc16_bits n' (Z.land crc' 65535)
  end.

(** Modelled from the spec: [crc16_python] is missing; the checksum of a
    byte sequence, starting from zero. *)
Definition crc16_cal (ptr : list byte) : Z :=
  fold_left
    (fun crc b => crc16_bits 8 (Z.lxor crc (Z.shiftl (byte_val b) 8)))
    ptr 0.

Definition hex4 (v : Z) : str :=
  [hex_digit (v / 4096 mod 16); hex_digit (v / 256 mod 16);
   hex_digit (v / 16 mod 16); hex_digit (v mod 16)].

(** Modelled from the spec: [crc16_python.crc16_str_swap] is missing; the
    checksum of the bytes written in [val], as four hexadecimal
    characters with the low byte first, which is the order the frame
    layout of the spec puts them in. *)
Definition crc16_xmodem (val : str) : option str :=
  match fromhex val with
  | None => None
  | Some b =>
      let h := hex4 (crc16_cal b) in
      Some (slice 2 4 h ++ slice 0 2 h)
  end.

(** ** siyi_message.py: telemetry records

    One module per message class; [init] holds the class-level defaults
    that a freshly constructed instance shows. *)

(** A sequence field normally holds an [int]; the attitude record can also
    receive a command id, which is a [str]. *)
Inductive pyseq : Type :=
| SeqInt (z : Z)
| SeqStr (s : str).

Definition pyseq_eqb (a b : pyseq) : bool :=
  match a, b with
  | SeqInt x, SeqInt y => x =? y
  | SeqStr x, SeqStr y => str_eqb x y
  | _, _ => false
  end.

Module FirmwareMsg.
Record t := mk { seq : Z; code_board_ver : str;
                   gimbal_firmware_ver : str; zoom_firmware_ver : str }.
Definition init : t := mk 0 [] [] [].
End FirmwareMsg.

Module HardwareIDMsg.
Record t := mk { seq : Z; id : str }.
Definition init : t := mk 0 [].
End HardwareIDMsg.

Module AutoFocusMsg.
Record t := mk { seq : Z; success : bool }.
Definition init : t := mk 0 false.
End AutoFocusMsg.

Module ManualZoomMsg.
Record t := mk { seq : Z; level : Q }.
Definition init : t := mk 0 (-1 # 1).
End ManualZoomMsg.

Module CurrentZoomValueMsg.
Record t := mk { seq : Z; zoom_int : Z; zoom_float : Q }.
Definition init : t := mk 0 (-1) (-1 # 1).
End CurrentZoomValueMsg.

(** [success] starts as the integer [-1] and later holds a [bool], kept
    here as [1] or [0]. *)
Module AbsoluteZoomMsg.
Record t := mk { seq : Z; success : Z }.
Definition init : t := mk 0 (-1).
End AbsoluteZoomMsg.

Module ManualFocusMsg.
Record t := mk { seq : Z; success : bool }.
Definition init : t := mk 0 false.
End ManualFocusMsg.

Module GimbalSpeedMsg.
Record t := mk { seq : Z; success : bool }.
Definition init : t := mk 0 false.
End GimbalSpeedMsg.

Module CenterMsg.
Record t := mk { seq : Z; success : bool }.
Definition init : t := mk 0 false.
End CenterMsg.

Module RecordingMsg.
Record t := mk { seq : Z; state : Z }.
Definition init : t := mk 0 (-1).
End RecordingMsg.

Module MountDirMsg.
Record t := mk { seq : Z; dir : Z }.
Definition init : t := mk 0 (-1).
End MountDirMsg.

Module MotionModeMsg.
Record t := mk { seq : Z; mode : Z }.
Definition init : t := mk 0 (-1).
End MotionModeMsg.

Module FuncFeedbackInfoMsg.
Record t := mk { seq : Z; info_type : option Z }.
Definition init : t := mk 0 None.
End FuncFeedbackInfoMsg.

Module AttitdueMsg.
Record t := mk { seq : pyseq; stamp : Z; yaw : Q; pitch : Q; roll : Q;
                   yaw_speed : Q; pitch_speed : Q; roll_speed : Q }.
Definition init : t := mk (SeqInt 0) 0 0 0 0 0 0 0.
End AttitdueMsg.

Module MaxZoomValueMsg.
Record t := mk { seq : Z; zoom_max_int : Z; zoom_max_float : Q }.
Definition init : t := mk 0 0 0.
End MaxZoomValueMsg.

Module SendControlAngleToGimbalMsg.
Record t := mk { seq : Z; yaw : Q; pitch : Q; current_yaw : Q;
                   current_pitch : Q; current_roll : Q }.
Definition init : t := mk 0 0 0 0 0 0.
End SendControlAngleToGimbalMsg.

Module COMMAND.
Definition ABSOLUTE_ZOOM_AUTO_FOCUS := lit "0f".
Definition AUTO_FOCUS := lit "04".
Definition CENTER := lit "08".
Definition FUNCTION_FEEDBACK_INFO := lit "0b".
Definition GIMBAL_ROTATION_SPEED := lit "07".
Definition MANUAL_FOCUS := lit "06".
Definition MANUAL_ZOOM_AUTO_FOCUS := lit "05".
Definition PHOTO_AND_RECORD := lit "0c".
Definition REQUEST_GIMBAL_ATTITUDE := lit "0d".
Definition REQUEST_GIMBAL_CAMERA_FIRMWARE := lit "01".
Definition REQUEST_GIMBAL_CAMERA_HARDWARE_ID := lit "02".
Definition REQUEST_GIMBAL_CAMERA_PRESENT_WORKING_MODE := lit "19".
Definition REQUEST_GIMBAL_CONFIGURATION_INFO := lit "0a".
Definition REQUEST_MAX_ZOOM_VALUE_IN_PRESENT := lit "16".
Definition REQUEST_ZOOM_VALUE_IN_PRESENT := lit "18".
Definition SEND_CONTROL_ANGLE_TO_GIMBAL := lit "0e".
End COMMAND.

(** ** siyi_message.py: class SIYIMESSAGE

    [HEADER] and [_ctr] are set once by the constructor and never
    reassigned; the mutable attributes form the record. *)

Definition HEADER : str := lit "5566".
Definition _ctr : str := lit "01".

Record SIYIMESSAGE := mkMESSAGE {
  _seq : Z;
  _cmd_id : str;
  _data_len : Z;
  _data : str;
  _crc16 : str
}.

Definition SIYIMESSAGE_init : SIYIMESSAGE :=
  mkMESSAGE 0 (lit "00") 0 [] (lit "0000").

Definition set_seq (m : SIYIMESSAGE) (v : Z) : SIYIMESSAGE :=
  mkMESSAGE v (_cmd_id m) (_data_len m) (_data m) (_crc16 m).

(** The argument is always an [int] here, so the [isinstance] guard never
    fires.  Of the four length cases only the first two reassign
    [seq_hex]: the third assigns [seq_str], the last assigns [seq]. *)
Definition incrementSEQ (m : SIYIMESSAGE) (val : Z) : SIYIMESSAGE * str :=
  if val >? 65535 then (set_seq m 0, lit "0000")
  else if val <? 0 then (m, lit "0000")
  else
    let seq := val + 1 in
    let m' := set_seq m seq in
    let seq_hex := skipn 2 (hex seq) in
    let seq_hex :=
      if (length seq_hex =? 3)%nat then lit "0" ++ seq_hex
      else if (length seq_hex =? 1)%nat then lit "000" ++ seq_hex
      else seq_hex in
    let low_b := last_chars 2 seq_hex in
    let high_b := slice 0 2 seq_hex in
    let seq_str := low_b ++ high_b in
    (m', seq_str).

(** [int(len(data) / 2)] is exact for every length a frame can have. *)
Definition computeDataLen (data : str) : str :=
  let data := if (length data mod 2 =? 0)%nat then data
              else lit "0" ++ data in
  let L := Z.of_nat (length data / 2) in
  let len_hex := skipn 2 (hex L) in
  let len_hex :=
    if (length len_hex =? 3)%nat then lit "0" ++ len_hex
    else if (length len_hex =? 1)%nat then lit "000" ++ len_hex
    else if (length len_hex =? 2)%nat then lit "00" ++ len_hex
    else lit "0000" in
  let low_b := last_chars 2 len_hex in
  let high_b := slice 0 2 len_hex in
  let len_str := low_b ++ high_b in
  len_str.

(** What [decodeMsg] returns on success: data, data_len, cmd_id, seq. *)
Definition decoded : Type := str * Z * str * Z.

(** [int("0x" + s, base=16)], raising on an invalid literal. *)
Definition int0x (s : str) : result Z :=
  match int_hex s with
  | Some v => Ok v
  | None => Raised ValueError
  end.

(** Both [decodeMsg] and [bufferCallback] compute [10 * 2]. *)
Definition MINIMUM_DATA_LENGTH : nat := 10 * 2.

Section Driver.

(** The checksum collaborator [crc16_python.crc16_str_swap]: hexadecimal
    text in, four hexadecimal characters (low byte first) or [None] out. *)
Variable crc16_str_swap : str -> option str.

Definition decodeMsg (m : SIYIMESSAGE) (msg : str)
  : result (SIYIMESSAGE * option decoded) :=
  if (length msg <? MINIMUM_DATA_LENGTH)%nat then Ok (m, None)
  else
    let low_b := slice 6 8 msg in
    let high_b := slice 8 10 msg in
    data_len <- int0x (high_b ++ low_b) ;;
    let char_len := Z.to_nat (data_len * 2) in
    let msg_crc := last_chars 4 msg in
    let payload := drop_last 4 msg in
    let expected_crc := crc16_str_swap payload in
    if negb (opt_str_eqb expected_crc (Some msg_crc)) then Ok (m, None)
    else
      let low_b := slice 10 12 msg in
      let high_b := slice 12 14 msg in
      seq <- int0x (high_b ++ low_b) ;;
      let cmd_id := slice 14 16 msg in
      let data :=
        if data_len >? 0 then slice 16 (16 + char_len) msg else [] in
      Ok (mkMESSAGE (_seq m) cmd_id data_len data (_crc16 m),
          Some (data, data_len, cmd_id, seq)).

(** [msg_front] is assigned twice; the second assignment, with the
    sequence field fixed to ["0000"], is the one that is used. *)
Definition encodeMsg (m : SIYIMESSAGE) (data cmd_id : str)
  : SIYIMESSAGE * str :=
  let '(m, seq) := incrementSEQ m (_seq m) in
  let data_len := computeDataLen data in
  let msg_front := HEADER ++ _ctr ++ data_len ++ seq ++ cmd_id ++ data in
  let msg_front :=
    HEADER ++ _ctr ++ data_len ++ lit "0000" ++ cmd_id ++ data in
  match crc16_str_swap msg_front with
  | Some crc => (m, msg_front ++ crc)
  | None => (m, [])
  end.

(** *** Message definitions *)

(** The payload [data] that [absoluteZoomMsg] builds.  The two guards on
    [frac_zoom_level] assign [zoom_level]. *)
Definition absoluteZoomMsg_data (zoom_level frac_zoom_level : Z) : str :=
  let zoom_level := if zoom_level >? 30 then 30 else zoom_level in
  let zoom_level := if zoom_level <? 1 then 1 else zoom_level in
  let zoom_level := if frac_zoom_level >? 9 then 9 else zoom_level in
  let zoom_level := if frac_zoom_level <? 0 then 0 else zoom_level in
  let data1 := toHex zoom_level 8 in
  let data2 := toHex frac_zoom_level 8 in
  data1 ++ data2.


Definition gimbalAttitudeMsg (m : SIYIMESSAGE) : SIYIMESSAGE * str :=
  encodeMsg m [] COMMAND.REQUEST_GIMBAL_ATTITUDE.

Definition firmwareVersionMsg (m : SIYIMESSAGE) : SIYIMESSAGE * str :=
  encodeMsg m [] COMMAND.REQUEST_GIMBAL_CAMERA_FIRMWARE.

Definition centerGimbalMsg (m : SIYIMESSAGE) : SIYIMESSAGE * str :=
  encodeMsg m (lit "01") COMMAND.CENTER.

(** The payload [data] that [gimbalSpeedMsg] builds. *)
Definition gimbalSpeedMsg_data (yaw_speed pitch_speed : Z) : str :=
  let yaw_speed := if yaw_speed >? 100 then 100 else yaw_speed in
  let yaw_speed := if yaw_speed <? -100 then -100 else yaw_speed in
  let pitch_speed := if pitch_speed >? 100 then 100 else pitch_speed in
  let pitch_speed := if pitch_speed <? -100 then -100 else pitch_speed in
  let data1 := toHex yaw_speed 8 in
  let data2 := toHex pitch_speed 8 in
  data1 ++ data2.

Definition gimbalSpeedMsg (m : SIYIMESSAGE) (yaw_speed pitch_speed : Z)
  : SIYIMESSAGE * str :=
  encodeMsg m (gimbalSpeedMsg_data yaw_speed pitch_speed)
    COMMAND.GIMBAL_ROTATION_SPEED.

(** [encodeMsg] runs twice: once for the [print], once for the result. *)
Definition sendControlAngleToGimbalMsg (m : SIYIMESSAGE) (yaw pitch : Z)
  : SIYIMESSAGE * str :=
  let data1 := toHex yaw 16 in
  let data2 := toHex pitch 16 in
  let data := data1 ++ data2 in
  let cmd_id := COMMAND.SEND_CONTROL_ANGLE_TO_GIMBAL in
  let '(m, _) := encodeMsg m data cmd_id in
  encodeMsg m data cmd_id.

(** ** siyi_sdk.py: the session object

    The socket is the part of the outside world the session writes to:
    the datagrams handed to [sendto] so far, and whether [sendto] raises.
    Address, port, buffer size, timeouts, thread handles and loop rates
    are constants of the constructor and are left out. *)

Record Socket := mkSocket {
  sendto_fails : bool;
  sent : list (list byte)
}.

Record SIYISDK := mkSDK {
  _out_msg : SIYIMESSAGE;
  _in_msg : SIYIMESSAGE;
  _socket : Socket;
  _connected : bool;
  _absoluteZoom_msg : AbsoluteZoomMsg.t;
  _att_msg : AttitdueMsg.t;
  _center_msg : CenterMsg.t;
  _currentZoomValue_msg : CurrentZoomValueMsg.t;
  _autoFocus_msg : AutoFocusMsg.t;
  _gimbalSpeed_msg : GimbalSpeedMsg.t;
  _fw_msg : FirmwareMsg.t;
  _funcFeedback_msg : FuncFeedbackInfoMsg.t;
  _hw_msg : HardwareIDMsg.t;
  _manualFocus_msg : ManualFocusMsg.t;
  _manualZoom_msg : ManualZoomMsg.t;
  _maxZoomValue_msg : MaxZoomValueMsg.t;
  _motionMode_msg : MotionModeMsg.t;
  _mountDir_msg : MountDirMsg.t;
  _record_msg : RecordingMsg.t;
  _sendControlAngleToGimbal_msg : SendControlAngleToGimbalMsg.t;
  _last_att_seq : pyseq;
  _stop : bool;
  _last_fw_seq : Z
}.

Definition set_out_msg (s : SIYISDK) (v : SIYIMESSAGE) : SIYISDK :=
  mkSDK v (_in_msg s) (_socket s) (_connected s) (_absoluteZoom_msg s)
    (_att_msg s) (_center_msg s) (_currentZoomValue_msg s)
    (_autoFocus_msg s) (_gimbalSpeed_msg s) (_fw_msg s)
    (_funcFeedback_msg s) (_hw_msg s) (_manualFocus_msg s)
    (_manualZoom_msg s) (_maxZoomValue_msg s) (_motionMode_msg s)
    (_mountDir_msg s) (_record_msg s) (_sendControlAngleToGimbal_msg s)
    (_last_att_seq s) (_stop s) (_last_fw_seq s).

Definition set_in_msg (s : SIYISDK) (v : SIYIMESSAGE) : SIYISDK :=
  mkSDK (_out_msg s) v (_socket s) (_connected s) (_absoluteZoom_msg s)
    (_att_msg s) (_center_msg s) (_currentZoomValue_msg s)
    (_autoFocus_msg s) (_gimbalSpeed_msg s) (_fw_msg s)
    (_funcFeedback_msg s) (_hw_msg s) (_manualFocus_msg s)
    (_manualZoom_msg s) (_maxZoomValue_msg s) (_motionMode_msg s)
    (_mountDir_msg s) (_record_msg s) (_sendControlAngleToGimbal_msg s)
    (_last_att_seq s) (_stop s) (_last_fw_seq s).

Definition set_socket (s : SIYISDK) (v : Socket) : SIYISDK :=
  mkSDK (_out_msg s) (_in_msg s) v (_connected s) (_absoluteZoom_msg s)
    (_att_msg s) (_center_msg s) (_currentZoomValue_msg s)
    (_autoFocus_msg s) (_gimbalSpeed_msg s) (_fw_msg s)
    (_funcFeedback_msg s) (_hw_msg s) (_manualFocus_msg s)
    (_manualZoom_msg s) (_maxZoomValue_msg s) (_motionMode_msg s)
    (_mountDir_msg s) (_record_msg s) (_sendControlAngleToGimbal_msg s)
    (_last_att_seq s) (_stop s) (_last_fw_seq s).

Definition set_absoluteZoom_msg (s : SIYISDK) (v : AbsoluteZoomMsg.t) : SIYISDK :=
  mkSDK (_out_msg s) (_in_msg s) (_socket s) (_connected s) v (_att_msg s)
    (_center_msg s) (_currentZoomValue_msg s) (_autoFocus_msg s)
    (_gimbalSpeed_msg s) (_fw_msg s) (_funcFeedback_msg s) (_hw_msg s)
    (_manualFocus_msg s) (_manualZoom_msg s) (_maxZoomValue_msg s)
    (_motionMode_msg s) (_mountDir_msg s) (_record_msg s)
    (_sendControlAngleToGimbal_msg s) (_last_att_seq s) (_stop s)
    (_last_fw_seq s).

Definition set_att_msg (s : SIYISDK) (v : AttitdueMsg.t) : SIYISDK :=
  mkSDK (_out_msg s) (_in_msg s) (_socket s) (_connected s)
    (_absoluteZoom_msg s) v (_center_msg s) (_currentZoomValue_msg s)
    (_autoFocus_msg s) (_gimbalSpeed_msg s) (_fw_msg s)
    (_funcFeedback_msg s) (_hw_msg s) (_manualFocus_msg s)
    (_manualZoom_msg s) (_maxZoomValue_msg s) (_motionMode_msg s)
    (_mountDir_msg s) (_record_msg s) (_sendControlAngleToGimbal_msg s)
    (_last_att_seq s) (_stop s) (_last_fw_seq s).

Definition set_center_msg (s : SIYISDK) (v : CenterMsg.t) : SIYISDK :=
  mkSDK (_out_msg s) (_in_msg s) (_socket s) (_connected s)
    (_absoluteZoom_msg s) (_att_msg s) v (_currentZoomValue_msg s)
    (_autoFocus_msg s) (_gimbalSpeed_msg s) (_fw_msg s)
    (_funcFeedback_msg s) (_hw_msg s) (_manualFocus_msg s)
    (_manualZoom_msg s) (_maxZoomValue_msg s) (_motionMode_msg s)
    (_mountDir_msg s) (_record_msg s) (_sendControlAngleToGimbal_msg s)
    (_last_att_seq s) (_stop s) (_last_fw_seq s).

Definition set_currentZoomValue_msg (s : SIYISDK) (v : CurrentZoomValueMsg.t) : SIYISDK :=
  mkSDK (_out_msg s) (_in_msg s) (_socket s) (_connected s)
    (_absoluteZoom_msg s) (_att_msg s) (_center_msg s) v (_autoFocus_msg s)
    (_gimbalSpeed_msg s) (_fw_msg s) (_funcFeedback_msg s) (_hw_msg s)
    (_manualFocus_msg s) (_manualZoom_msg s) (_maxZoomValue_msg s)
    (_motionMode_msg s) (_mountDir_msg s) (_record_msg s)
    (_sendControlAngleToGimbal_msg s) (_last_att_seq s) (_stop s)
    (_last_fw_seq s).

Definition set_autoFocus_msg (s : SIYISDK) (v : AutoFocusMsg.t) : SIYISDK :=
  mkSDK (_out_msg s) (_in_msg s) (_socket s) (_connected s)
    (_absoluteZoom_msg s) (_att_msg s) (_center_msg s)
    (_currentZoomValue_msg s) v (_gimbalSpeed_msg s) (_fw_msg s)
    (_funcFeedback_msg s) (_hw_msg s) (_manualFocus_msg s)
    (_manualZoom_msg s) (_maxZoomValue_msg s) (_motionMode_msg s)
    (_mountDir_msg s) (_record_msg s) (_sendControlAngleToGimbal_msg s)
    (_last_att_seq s) (_stop s) (_last_fw_seq s).

Definition set_gimbalSpeed_msg (s : SIYISDK) (v : GimbalSpeedMsg.t) : SIYISDK :=
  mkSDK (_out_msg s) (_in_msg s) (_socket s) (_connected s)
    (_absoluteZoom_msg s) (_att_msg s) (_center_msg s)
    (_currentZoomValue_msg s) (_autoFocus_msg s) v (_fw_msg s)
    (_funcFeedback_msg s) (_hw_msg s) (_manualFocus_msg s)
    (_manualZoom_msg s) (_maxZoomValue_msg s) (_motionMode_msg s)
    (_mountDir_msg s) (_record_msg s) (_sendControlAngleToGimbal_msg s)
    (_last_att_seq s) (_stop s) (_last_fw_seq s).

Definition set_fw_msg (s : SIYISDK) (v : FirmwareMsg.t) : SIYISDK :=
  mkSDK (_out_msg s) (_in_msg s) (_socket s) (_connected s)
    (_absoluteZoom_msg s) (_att_msg s) (_center_msg s)
    (_currentZoomValue_msg s) (_autoFocus_msg s) (_gimbalSpeed_msg s) v
    (_funcFeedback_msg s) (_hw_msg s) (_manualFocus_msg s)
    (_manualZoom_msg s) (_maxZoomValue_msg s) (_motionMode_msg s)
    (_mountDir_msg s) (_record_msg s) (_sendControlAngleToGimbal_msg s)
    (_last_att_seq s) (_stop s) (_last_fw_seq s).

Definition set_funcFeedback_msg (s : SIYISDK) (v : FuncFeedbackInfoMsg.t) : SIYISDK :=
  mkSDK (_out_msg s) (_in_msg s) (_socket s) (_connected s)
    (_absoluteZoom_msg s) (_att_msg s) (_center_msg s)
    (_currentZoomValue_msg s) (_autoFocus_msg s) (_gimbalSpeed_msg s)
    (_fw_msg s) v (_hw_msg s) (_manualFocus_msg s) (_manualZoom_msg s)
    (_maxZoomValue_msg s) (_motionMode_msg s) (_mountDir_msg s)
    (_record_msg s) (_sendControlAngleToGimbal_msg s) (_last_att_seq s)
    (_stop s) (_last_fw_seq s).

Definition set_hw_msg (s : SIYISDK) (v : HardwareIDMsg.t) : SIYISDK :=
  mkSDK (_out_msg s) (_in_msg s) (_socket s) (_connected s)
    (_absoluteZoom_msg s) (_att_msg s) (_center_msg s)
    (_currentZoomValue_msg s) (_autoFocus_msg s) (_gimbalSpeed_msg s)
    (_fw_msg s) (_funcFeedback_msg s) v (_manualFocus_msg s)
    (_manualZoom_msg s) (_maxZoomValue_msg s) (_motionMode_msg s)
    (_mountDir_msg s) (_record_msg s) (_sendControlAngleToGimbal_msg s)
    (_last_att_seq s) (_stop s) (_last_fw_seq s).

Definition set_manualFocus_msg (s : SIYISDK) (v : ManualFocusMsg.t) : SIYISDK :=
  mkSDK (_out_msg s) (_in_msg s) (_socket s) (_connected s)
    (_absoluteZoom_msg s) (_att_msg s) (_center_msg s)
    (_currentZoomValue_msg s) (_autoFocus_msg s) (_gimbalSpeed_msg s)
    (_fw_msg s) (_funcFeedback_msg s) (_hw_msg s) v (_manualZoom_msg s)
    (_maxZoomValue_msg s) (_motionMode_msg s) (_mountDir_msg s)
    (_record_msg s) (_sendControlAngleToGimbal_msg s) (_last_att_seq s)
    (_stop s) (_last_fw_seq s).

Definition set_manualZoom_msg (s : SIYISDK) (v : ManualZoomMsg.t) : SIYISDK :=
  mkSDK (_out_msg s) (_in_msg s) (_socket s) (_connected s)
    (_absoluteZoom_msg s) (_att_msg s) (_center_msg s)
    (_currentZoomValue_msg s) (_autoFocus_msg s) (_gimbalSpeed_msg s)
    (_fw_msg s) (_funcFeedback_msg s) (_hw_msg s) (_manualFocus_msg s) v
    (_maxZoomValue_msg s) (_motionMode_msg s) (_mountDir_msg s)
    (_record_msg s) (_sendControlAngleToGimbal_msg s) (_last_att_seq s)
    (_stop s) (_last_fw_seq s).

Definition set_maxZoomValue_msg (s : SIYISDK) (v : MaxZoomValueMsg.t) : SIYISDK :=
  mkSDK (_out_msg s) (_in_msg s) (_socket s) (_connected s)
    (_absoluteZoom_msg s) (_att_msg s) (_center_msg s)
    (_currentZoomValue_msg s) (_autoFocus_msg s) (_gimbalSpeed_msg s)
    (_fw_msg s) (_funcFeedback_msg s) (_hw_msg s) (_manualFocus_msg s)
    (_manualZoom_msg s) v (_motionMode_msg s) (_mountDir_msg s)
    (_record_msg s) (_sendControlAngleToGimbal_msg s) (_last_att_seq s)
    (_stop s) (_last_fw_seq s).

Definition set_motionMode_msg (s : SIYISDK) (v : MotionModeMsg.t) : SIYISDK :=
  mkSDK (_out_msg s) (_in_msg s) (_socket s) (_connected s)
    (_absoluteZoom_msg s) (_att_msg s) (_center_msg s)
    (_currentZoomValue_msg s) (_autoFocus_msg s) (_gimbalSpeed_msg s)
    (_fw_msg s) (_funcFeedback_msg s) (_hw_msg s) (_manualFocus_msg s)
    (_manualZoom_msg s) (_maxZoomValue_msg s) v (_mountDir_msg s)
    (_record_msg s) (_sendControlAngleToGimbal_msg s) (_last_att_seq s)
    (_stop s) (_last_fw_seq s).

Definition set_mountDir_msg (s : SIYISDK) (v : MountDirMsg.t) : SIYISDK :=
  mkSDK (_out_msg s) (_in_msg s) (_socket s) (_connected s)
    (_absoluteZoom_msg s) (_att_msg s) (_center_msg s)
    (_currentZoomValue_msg s) (_autoFocus_msg s) (_gimbalSpeed_msg s)
    (_fw_msg s) (_funcFeedback_msg s) (_hw_msg s) (_manualFocus_msg s)
    (_manualZoom_msg s) (_maxZoomValue_msg s) (_motionMode_msg s) v
    (_record_msg s) (_sendControlAngleToGimbal_msg s) (_last_att_seq s)
    (_stop s) (_last_fw_seq s).

Definition set_record_msg (s : SIYISDK) (v : RecordingMsg.t) : SIYISDK :=
  mkSDK (_out_msg s) (_in_msg s) (_socket s) (_connected s)
    (_absoluteZoom_msg s) (_att_msg s) (_center_msg s)
    (_currentZoomValue_msg s) (_autoFocus_msg s) (_gimbalSpeed_msg s)
    (_fw_msg s) (_funcFeedback_msg s) (_hw_msg s) (_manualFocus_msg s)
    (_manualZoom_msg s) (_maxZoomValue_msg s) (_motionMode_msg s)
    (_mountDir_msg s) v (_sendControlAngleToGimbal_msg s) (_last_att_seq s)
    (_stop s) (_last_fw_seq s).

Definition set_last_att_seq (s : SIYISDK) (v : pyseq) : SIYISDK :=
  mkSDK (_out_msg s) (_in_msg s) (_socket s) (_connected s)
    (_absoluteZoom_msg s) (_att_msg s) (_center_msg s)
    (_currentZoomValue_msg s) (_autoFocus_msg s) (_gimbalSpeed_msg s)
    (_fw_msg s) (_funcFeedback_msg s) (_hw_msg s) (_manualFocus_msg s)
    (_manualZoom_msg s) (_maxZoomValue_msg s) (_motionMode_msg s)
    (_mountDir_msg s) (_record_msg s) (_sendControlAngleToGimbal_msg s) v
    (_stop s) (_last_fw_seq s).

Definition SIYISDK_init (sock : Socket) : SIYISDK :=
  mkSDK SIYIMESSAGE_init SIYIMESSAGE_init sock false
    AbsoluteZoomMsg.init AttitdueMsg.init CenterMsg.init
    CurrentZoomValueMsg.init AutoFocusMsg.init GimbalSpeedMsg.init
    FirmwareMsg.init FuncFeedbackInfoMsg.init HardwareIDMsg.init
    ManualFocusMsg.init ManualZoomMsg.init MaxZoomValueMsg.init
    MotionModeMsg.init MountDirMsg.init RecordingMsg.init
    SendControlAngleToGimbalMsg.init (SeqInt (-1)) false 0.

Definition resetVars (s : SIYISDK) : SIYISDK * bool :=
  (mkSDK (_out_msg s) (_in_msg s) (_socket s) false
     AbsoluteZoomMsg.init AttitdueMsg.init CenterMsg.init
     CurrentZoomValueMsg.init AutoFocusMsg.init GimbalSpeedMsg.init
     FirmwareMsg.init FuncFeedbackInfoMsg.init HardwareIDMsg.init
     ManualFocusMsg.init ManualZoomMsg.init MaxZoomValueMsg.init
     MotionModeMsg.init MountDirMsg.init RecordingMsg.init
     (_sendControlAngleToGimbal_msg s) (_last_att_seq s) (_stop s)
     (_last_fw_seq s),
   true).

Definition disconnect (s : SIYISDK) : SIYISDK :=
  let s :=
    mkSDK (_out_msg s) (_in_msg s) (_socket s) (_connected s)
      (_absoluteZoom_msg s) (_att_msg s) (_center_msg s)
      (_currentZoomValue_msg s) (_autoFocus_msg s) (_gimbalSpeed_msg s)
      (_fw_msg s) (_funcFeedback_msg s) (_hw_msg s) (_manualFocus_msg s)
      (_manualZoom_msg s) (_maxZoomValue_msg s) (_motionMode_msg s)
      (_mountDir_msg s) (_record_msg s) (_sendControlAngleToGimbal_msg s)
      (_last_att_seq s) true (_last_fw_seq s) in
  fst (resetVars s).

(** The records the decode path writes, in the order [resetVars] lists
    them. *)
Definition cached_records (s : SIYISDK) :=
  (_absoluteZoom_msg s, _att_msg s, _center_msg s, _currentZoomValue_msg s,
   _autoFocus_msg s, _gimbalSpeed_msg s, _fw_msg s, _funcFeedback_msg s,
   _hw_msg s, _manualFocus_msg s, _manualZoom_msg s, _maxZoomValue_msg s,
   _motionMode_msg s, _mountDir_msg s, _record_msg s).

Definition sentinel_records :=
  (AbsoluteZoomMsg.init, AttitdueMsg.init, CenterMsg.init,
   CurrentZoomValueMsg.init, AutoFocusMsg.init, GimbalSpeedMsg.init,
   FirmwareMsg.init, FuncFeedbackInfoMsg.init, HardwareIDMsg.init,
   ManualFocusMsg.init, ManualZoomMsg.init, MaxZoomValueMsg.init,
   MotionModeMsg.init, MountDirMsg.init, RecordingMsg.init).

(** [bytes.fromhex] runs before the [try]; a socket error inside it is
    caught and reported as [False]. *)
Definition sendMsg (s : SIYISDK) (msg : str) : result (SIYISDK * bool) :=
  match fromhex msg with
  | None => Raised ValueError
  | Some b =>
      if sendto_fails (_socket s) then Ok (s, false)
      else
        Ok (set_socket s (mkSocket false (sent (_socket s) ++ [b])), true)
  end.

(** *** Parsing functions

    Each body runs inside [try ... except Exception: return False], so an
    invalid literal ends the parse with the assignments made so far kept.
    A parse in progress is the record pair built so far together with a
    flag that is [false] once an exception was caught. *)

Definition attempt {R : Type} (x : R * bool) (v : option Z)
  (upd : Z -> R -> R) : R * bool :=
  match x with
  | (r, true) =>
      match v with
      | Some z => (upd z r, true)
      | None => (r, false)
      end
  | (r, false) => (r, false)
  end.

Definition truthy (z : Z) : bool := negb (z =? 0).

Definition parseRequestFirmwareMsg (s : SIYISDK) (msg : str) (seq : Z)
  : SIYISDK * bool :=
  let r := _fw_msg s in
  let r := FirmwareMsg.mk (FirmwareMsg.seq r) (FirmwareMsg.code_board_ver r)
             (slice 8 16 msg) (FirmwareMsg.zoom_firmware_ver r) in
  let r := FirmwareMsg.mk seq (FirmwareMsg.code_board_ver r)
             (FirmwareMsg.gimbal_firmware_ver r)
             (FirmwareMsg.zoom_firmware_ver r) in
  (set_fw_msg s r, true).

Definition parseRequestHardwareIDMsg (s : SIYISDK) (msg : str) (seq : Z)
  : SIYISDK * bool :=
  (set_hw_msg s (HardwareIDMsg.mk seq msg), true).

Definition att_set_seq (v : pyseq) (r : AttitdueMsg.t) : AttitdueMsg.t :=
  AttitdueMsg.mk v (AttitdueMsg.stamp r) (AttitdueMsg.yaw r)
    (AttitdueMsg.pitch r) (AttitdueMsg.roll r) (AttitdueMsg.yaw_speed r)
    (AttitdueMsg.pitch_speed r) (AttitdueMsg.roll_speed r).

Definition att_set_yaw (z : Z) (r : AttitdueMsg.t) : AttitdueMsg.t :=
  AttitdueMsg.mk (AttitdueMsg.seq r) (AttitdueMsg.stamp r) (z # 10)
    (AttitdueMsg.pitch r) (AttitdueMsg.roll r) (AttitdueMsg.yaw_speed r)
    (AttitdueMsg.pitch_speed r) (AttitdueMsg.roll_speed r).

Definition att_set_pitch (z : Z) (r : AttitdueMsg.t) : AttitdueMsg.t :=
  AttitdueMsg.mk (AttitdueMsg.seq r) (AttitdueMsg.stamp r)
    (AttitdueMsg.yaw r) (z # 10) (AttitdueMsg.roll r)
    (AttitdueMsg.yaw_speed r) (AttitdueMsg.pitch_speed r)
    (AttitdueMsg.roll_speed r).

Definition att_set_roll (z : Z) (r : AttitdueMsg.t) : AttitdueMsg.t :=
  AttitdueMsg.mk (AttitdueMsg.seq r) (AttitdueMsg.stamp r)
    (AttitdueMsg.yaw r) (AttitdueMsg.pitch r) (z # 10)
    (AttitdueMsg.yaw_speed r) (AttitdueMsg.pitch_speed r)
    (AttitdueMsg.roll_speed r).

Definition att_set_yaw_speed (z : Z) (r : AttitdueMsg.t) : AttitdueMsg.t :=
  AttitdueMsg.mk (AttitdueMsg.seq r) (AttitdueMsg.stamp r)
    (AttitdueMsg.yaw r) (AttitdueMsg.pitch r) (AttitdueMsg.roll r)
    (z # 10) (AttitdueMsg.pitch_speed r) (AttitdueMsg.roll_speed r).

Definition att_set_pitch_speed (z : Z) (r : AttitdueMsg.t)
  : AttitdueMsg.t :=
  AttitdueMsg.mk (AttitdueMsg.seq r) (AttitdueMsg.stamp r)
    (AttitdueMsg.yaw r) (AttitdueMsg.pitch r) (AttitdueMsg.roll r)
    (AttitdueMsg.yaw_speed r) (z # 10) (AttitdueMsg.roll_speed r).

Definition att_set_roll_speed (z : Z) (r : AttitdueMsg.t)
  : AttitdueMsg.t :=
  AttitdueMsg.mk (AttitdueMsg.seq r) (AttitdueMsg.stamp r)
    (AttitdueMsg.yaw r) (AttitdueMsg.pitch r) (AttitdueMsg.roll r)
    (AttitdueMsg.yaw_speed r) (AttitdueMsg.pitch_speed r) (z # 10).

(** The byte pair at [msg[i:i+4]], low byte first, read by [toInt]. *)
Definition le16 (i : nat) (msg : str) : str :=
  slice (i + 2) (i + 4) msg ++ slice i (i + 2) msg.

Definition parseRequestGimbalAttitudeMsg (s : SIYISDK) (msg : str) (seq : Z)
  : SIYISDK * bool :=
  let x := (att_set_seq (SeqInt seq) (_att_msg s), true) in
  let x := attempt x (toInt (le16 0 msg)) att_set_yaw in
  let x := attempt x (toInt (le16 4 msg)) att_set_pitch in
  let x := attempt x (toInt (le16 8 msg)) att_set_roll in
  let x := attempt x (toInt (le16 12 msg)) att_set_yaw_speed in
  let x := attempt x (toInt (le16 16 msg)) att_set_pitch_speed in
  let x := attempt x (toInt (le16 20 msg)) att_set_roll_speed in
  (set_att_msg s (fst x), snd x).

Definition parseGimbalConfigurationInfoMsg (s : SIYISDK) (msg : str)
  (seq : Z) : SIYISDK * bool :=
  let x := ((RecordingMsg.mk seq (RecordingMsg.state (_record_msg s)),
             MotionModeMsg.mk seq (MotionModeMsg.mode (_motionMode_msg s)),
             MountDirMsg.mk seq (MountDirMsg.dir (_mountDir_msg s))),
            true) in
  let x := attempt x (int_hex (slice 6 8 msg))
             (fun z '(r, m, d) => (RecordingMsg.mk (RecordingMsg.seq r) z,
                                   m, d)) in
  let x := attempt x (int_hex (slice 8 10 msg))
             (fun z '(r, m, d) => (r, MotionModeMsg.mk (MotionModeMsg.seq m) z,
                                   d)) in
  let x := attempt x (int_hex (slice 10 12 msg))
             (fun z '(r, m, d) => (r, m,
                                   MountDirMsg.mk (MountDirMsg.seq d) z)) in
  let '(r, m, d, ok) := x in
  (set_mountDir_msg (set_motionMode_msg (set_record_msg s r) m) d, ok).

Definition parseAutoFocusMsg (s : SIYISDK) (msg : str) (seq : Z)
  : SIYISDK * bool :=
  let x := (AutoFocusMsg.mk seq (AutoFocusMsg.success (_autoFocus_msg s)),
            true) in
  let x := attempt x (int_hex msg)
             (fun z r => AutoFocusMsg.mk (AutoFocusMsg.seq r) (truthy z)) in
  (set_autoFocus_msg s (fst x), snd x).

Definition parseZoomMsg (s : SIYISDK) (msg : str) (seq : Z)
  : SIYISDK * bool :=
  let x := (ManualZoomMsg.mk seq (ManualZoomMsg.level (_manualZoom_msg s)),
            true) in
  let x := attempt x (int_hex (le16 0 msg))
             (fun z r => ManualZoomMsg.mk (ManualZoomMsg.seq r) (z # 10)) in
  (set_manualZoom_msg s (fst x), snd x).

Definition parseAbsoluteZoomMsg (s : SIYISDK) (msg : str) (seq : Z)
  : SIYISDK * bool :=
  let x := (AbsoluteZoomMsg.mk seq
              (AbsoluteZoomMsg.success (_absoluteZoom_msg s)), true) in
  let x := attempt x (int_hex msg)
             (fun z r => AbsoluteZoomMsg.mk (AbsoluteZoomMsg.seq r)
                           (if truthy z then 1 else 0)) in
  (set_absoluteZoom_msg s (fst x), snd x).

Definition parseRequestMaxZoomvalueMsg (s : SIYISDK) (msg : str) (seq : Z)
  : SIYISDK * bool :=
  let r0 := _maxZoomValue_msg s in
  let x := (MaxZoomValueMsg.mk seq (MaxZoomValueMsg.zoom_max_int r0)
              (MaxZoomValueMsg.zoom_max_float r0), true) in
  let x := attempt x (int_hex (le16 0 msg))
             (fun z r => MaxZoomValueMsg.mk (MaxZoomValueMsg.seq r) z
                           (MaxZoomValueMsg.zoom_max_float r)) in
  let x := attempt x (int_hex (le16 0 msg))
             (fun z r => MaxZoomValueMsg.mk (MaxZoomValueMsg.seq r)
                           (MaxZoomValueMsg.zoom_max_int r) (inject_Z z)) in
  (set_maxZoomValue_msg s (fst x), snd x).

Definition parseManualFocusMsg (s : SIYISDK) (msg : str) (seq : Z)
  : SIYISDK * bool :=
  let x := (ManualFocusMsg.mk seq
              (ManualFocusMsg.success (_manualFocus_msg s)), true) in
  let x := attempt x (int_hex msg)
             (fun z r => ManualFocusMsg.mk (ManualFocusMsg.seq r)
                           (truthy z)) in
  (set_manualFocus_msg s (fst x), snd x).

Definition parseGimbalSpeedMsg (s : SIYISDK) (msg : str) (seq : Z)
  : SIYISDK * bool :=
  let x := (GimbalSpeedMsg.mk seq
              (GimbalSpeedMsg.success (_gimbalSpeed_msg s)), true) in
  let x := attempt x (int_hex msg)
             (fun z r => GimbalSpeedMsg.mk (GimbalSpeedMsg.seq r)
                           (truthy z)) in
  (set_gimbalSpeed_msg s (fst x), snd x).

Definition parseGimbalCenterMsg (s : SIYISDK) (msg : str) (seq : Z)
  : SIYISDK * bool :=
  let x := (CenterMsg.mk seq (CenterMsg.success (_center_msg s)), true) in
  let x := attempt x (int_hex msg)
             (fun z r => CenterMsg.mk (CenterMsg.seq r) (truthy z)) in
  (set_center_msg s (fst x), snd x).

Definition parseFunctionFeedbackMsg (s : SIYISDK) (msg : str) (seq : Z)
  : SIYISDK * bool :=
  let x := (FuncFeedbackInfoMsg.mk seq
              (FuncFeedbackInfoMsg.info_type (_funcFeedback_msg s)),
            true) in
  let x := attempt x (int_hex msg)
             (fun z r => FuncFeedbackInfoMsg.mk (FuncFeedbackInfoMsg.seq r)
                           (Some z)) in
  (set_funcFeedback_msg s (fst x), snd x).

(** [raise NotImplemented] is itself a [TypeError]: [NotImplemented] is
    not an exception class.  There is no [try] around it. *)
Definition parsePhotoAndRecordMsg (s : SIYISDK) (msg : str) (seq : Z)
  : result (SIYISDK * bool) :=
  Raised TypeError.

Definition parseRequestPresentWorkingModeMsg (s : SIYISDK) (msg : str)
  (seq : Z) : result (SIYISDK * bool) :=
  Raised TypeError.

Definition parseRequestCurrentZoomValueMsg (s : SIYISDK) (msg : str)
  (seq : Z) : SIYISDK * bool :=
  let r0 := _currentZoomValue_msg s in
  let x := (CurrentZoomValueMsg.mk seq (CurrentZoomValueMsg.zoom_int r0)
              (CurrentZoomValueMsg.zoom_float r0), true) in
  let x := attempt x (int_hex (slice 0 2 msg))
             (fun z r => CurrentZoomValueMsg.mk (CurrentZoomValueMsg.seq r)
                           z (CurrentZoomValueMsg.zoom_float r)) in
  let x := attempt x (int_hex (slice 2 4 msg))
             (fun z r => CurrentZoomValueMsg.mk (CurrentZoomValueMsg.seq r)
                           (CurrentZoomValueMsg.zoom_int r) (z # 10)) in
  (set_currentZoomValue_msg s (fst x), snd x).

(** Writes the attitude record; [seq] is whatever the caller passes. *)
Definition parseSendControlAngleToGimbalMsg (s : SIYISDK) (msg : str)
  (seq : pyseq) : SIYISDK * bool :=
  let x := (att_set_seq seq (_att_msg s), true) in
  let x := attempt x (toInt (le16 0 msg)) att_set_yaw in
  let x := attempt x (toInt (le16 4 msg)) att_set_pitch in
  (set_att_msg s (fst x), snd x).

(** The [if]/[elif] chain of [bufferCallback]; the parsers' return values
    are dropped.  The last parser is called with [cmd_id] in the place of
    [seq]. *)
Definition dispatch (s : SIYISDK) (val : decoded) : result SIYISDK :=
  let '(data, data_len, cmd_id, seq) := val in
  if str_eqb cmd_id COMMAND.ABSOLUTE_ZOOM_AUTO_FOCUS then
    Ok (fst (parseAbsoluteZoomMsg s data seq))
  else if str_eqb cmd_id COMMAND.AUTO_FOCUS then
    Ok (fst (parseAutoFocusMsg s data seq))
  else if str_eqb cmd_id COMMAND.CENTER then
    Ok (fst (parseGimbalCenterMsg s data seq))
  else if str_eqb cmd_id COMMAND.FUNCTION_FEEDBACK_INFO then
    Ok (fst (parseFunctionFeedbackMsg s data seq))
  else if str_eqb cmd_id COMMAND.GIMBAL_ROTATION_SPEED then
    Ok (fst (parseGimbalSpeedMsg s data seq))
  else if str_eqb cmd_id COMMAND.MANUAL_FOCUS then
    Ok (fst (parseManualFocusMsg s data seq))
  else if str_eqb cmd_id COMMAND.MANUAL_ZOOM_AUTO_FOCUS then
    Ok (fst (parseZoomMsg s data seq))
  else if str_eqb cmd_id COMMAND.PHOTO_AND_RECORD then
    r <- parsePhotoAndRecordMsg s data seq ;; Ok (fst r)
  else if str_eqb cmd_id COMMAND.REQUEST_GIMBAL_ATTITUDE then
    Ok (fst (parseRequestGimbalAttitudeMsg s data seq))
  else if str_eqb cmd_id COMMAND.REQUEST_GIMBAL_CAMERA_FIRMWARE then
    Ok (fst (parseRequestFirmwareMsg s data seq))
  else if str_eqb cmd_id COMMAND.REQUEST_GIMBAL_CAMERA_HARDWARE_ID then
    Ok (fst (parseRequestHardwareIDMsg s data seq))
  else if str_eqb cmd_id
            COMMAND.REQUEST_GIMBAL_CAMERA_PRESENT_WORKING_MODE then
    r <- parseRequestPresentWorkingModeMsg s data seq ;; Ok (fst r)
  else if str_eqb cmd_id COMMAND.REQUEST_GIMBAL_CONFIGURATION_INFO then
    Ok (fst (parseGimbalConfigurationInfoMsg s data seq))
  else if str_eqb cmd_id COMMAND.REQUEST_MAX_ZOOM_VALUE_IN_PRESENT then
    Ok (fst (parseRequestMaxZoomvalueMsg s data seq))
  else if str_eqb cmd_id COMMAND.REQUEST_ZOOM_VALUE_IN_PRESENT then
    Ok (fst (parseRequestCurrentZoomValueMsg s data seq))
  else if str_eqb cmd_id COMMAND.SEND_CONTROL_ANGLE_TO_GIMBAL then
    Ok (fst (parseSendControlAngleToGimbalMsg s data (SeqStr cmd_id)))
  else Ok s.

(** *** Request functions *)


Definition requestGimbalAttitude (s : SIYISDK) : result (SIYISDK * bool) :=
  let '(m, msg) := gimbalAttitudeMsg (_out_msg s) in
  sendMsg (set_out_msg s m) msg.

Definition requestCenterGimbal (s : SIYISDK) : result (SIYISDK * bool) :=
  let '(m, msg) := centerGimbalMsg (_out_msg s) in
  sendMsg (set_out_msg s m) msg.

Definition requestGimbalSpeed (s : SIYISDK) (yaw_speed pitch_speed : Z)
  : result (SIYISDK * bool) :=
  let '(m, msg) := gimbalSpeedMsg (_out_msg s) yaw_speed pitch_speed in
  sendMsg (set_out_msg s m) msg.

(** *** bufferCallback

    What one call leaves behind: how it ended, the session, the local
    [buff_str] at that point, and the frames [decodeMsg] accepted, in
    order. *)

Inductive outcome : Type :=
| Returned
| Uncaught (e : exn)
| OutOfFuel.

Record callback_run := mkRun {
  run_status : outcome;
  run_st : SIYISDK;
  run_buff : str;
  run_frames : list decoded
}.

(** The [while] loop; one unit of fuel per iteration. *)
Fixpoint bufferCallback_loop (fuel : nat) (s : SIYISDK) (buff_str : str)
  (frames : list decoded) : callback_run :=
  match fuel with
  | O => mkRun OutOfFuel s buff_str frames
  | S fuel' =>
      if (length buff_str <? MINIMUM_DATA_LENGTH)%nat
      then mkRun Returned s buff_str frames
      else if negb (str_eqb (slice 0 4 buff_str) HEADER)
      then bufferCallback_loop fuel' s (skipn 1 buff_str) frames
      else
        let low_b := slice 6 8 buff_str in
        let high_b := slice 8 10 buff_str in
        match int0x (high_b ++ low_b) with
        | Raised e => mkRun (Uncaught e) s buff_str frames
        | Ok data_len =>
            let char_len := Z.to_nat (data_len * 2) in
            if (length buff_str <? MINIMUM_DATA_LENGTH + char_len)%nat
            then mkRun Returned s [] frames
            else
              let packet :=
                slice 0 (MINIMUM_DATA_LENGTH + char_len) buff_str in
              let buff_str :=
                skipn (MINIMUM_DATA_LENGTH + char_len) buff_str in
              match decodeMsg (_in_msg s) packet with
              | Raised e => mkRun (Uncaught e) s buff_str frames
              | Ok (m, None) =>
                  bufferCallback_loop fuel' (set_in_msg s m) buff_str
                    frames
              | Ok (m, Some val) =>
                  let s := set_in_msg s m in
                  let frames := frames ++ [val] in
                  match dispatch s val with
                  | Raised e => mkRun (Uncaught e) s buff_str frames
                  | Ok s' => bufferCallback_loop fuel' s' buff_str frames
                  end
              end
        end
  end.

(** The body of [bufferCallback] once [recvfrom] has returned the datagram
    [buff].  Every iteration shortens [buff_str], so its length bounds the
    number of iterations. *)
Definition bufferCallback (s : SIYISDK) (buff : list byte) : callback_run :=
  let buff_str := hex_of_bytes buff in
  bufferCallback_loop (S (length buff_str)) s buff_str [].

(** *** setGimbalRotation *)

(** [float(z)] for a Python [int]: the nearest binary64 value, ties to
    even. *)
Definition float_of_Z (z : Z) : float :=
  SF2Prim (binary_normalize prec emax z 0 false).

(** The binary64 value a telemetry field holds.  The parsers store
    [toInt(...) / 10.0], kept in the record as [v # 10]: the [float] is
    the quotient of the two integers, rounded once. *)
Definition float_of_Q (q : Q) : float :=
  (float_of_Z (Qnum q) / float_of_Z (Z.pos (Qden q)))%float.

(** [int(x)] on a float: truncation towards zero; [OverflowError] on an
    infinity, [ValueError] on a NaN. *)
Definition int_of_float (x : float) : result Z :=
  match Prim2SF x with
  | S754_zero _ => Ok 0
  | S754_infinity _ => Raised OverflowError
  | S754_nan => Raised ValueError
  | S754_finite sign m e =>
      let a := if 0 <=? e then Z.pos m * 2 ^ e else Z.pos m / 2 ^ (- e) in
      Ok (if sign then - a else a)
  end.

(** How one pass through the body of [while True] ends. *)
Inductive loop_ctl : Type :=
| Continue    (* [continue]: no new attitude message *)
| Break       (* [break]: goal reached *)
| Sleep.      (* end of the body: [sleep(0.1)], then the next pass *)

(** The targets, the threshold and the gain are Python floats, as the
    docstring has them. *)
Definition setGimbalRotation_body (yaw pitch th gain : float) (s : SIYISDK)
  : result (SIYISDK * loop_ctl) :=
  r <- requestGimbalAttitude s ;;
  let s := fst r in
  if pyseq_eqb (AttitdueMsg.seq (_att_msg s)) (_last_att_seq s) then
    r <- requestGimbalSpeed s 0 0 ;;
    Ok (fst r, Continue)
  else
    let s := set_last_att_seq s (AttitdueMsg.seq (_att_msg s)) in
    let yaw_err :=
      (- yaw + float_of_Q (AttitdueMsg.yaw (_att_msg s)))%float in
    let pitch_err :=
      (pitch - float_of_Q (AttitdueMsg.pitch (_att_msg s)))%float in
    if ((abs yaw_err <=? th) && (abs pitch_err <=? th))%float then
      r <- requestGimbalSpeed s 0 0 ;;
      Ok (fst r, Break)
    else
      y <- int_of_float (gain * yaw_err)%float ;;
      let y_speed_sp := Z.max (Z.min 100 y) (-100) in
      p <- int_of_float (gain * pitch_err)%float ;;
      let p_speed_sp := Z.max (Z.min 100 p) (-100) in
      r <- requestGimbalSpeed s y_speed_sp p_speed_sp ;;
      Ok (fst r, Sleep).

(** Which [return] (or loop exit) ended the call. *)
Inductive rotation_exit : Type :=
| RejectedPitch
| RejectedYaw
| Centered
| GoalReached
| StillLooping.   (* the passes allowed by the fuel were all used *)

(** The loop has no bound of its own.  [world n] stands for what the
    receive thread did to the session before pass [n]. *)
Fixpoint setGimbalRotation_loop (fuel : nat) (n : nat)
  (world : nat -> SIYISDK -> SIYISDK) (yaw pitch th gain : float)
  (s : SIYISDK) : result (SIYISDK * rotation_exit) :=
  match fuel with
  | O => Ok (s, StillLooping)
  | S fuel' =>
      r <- setGimbalRotation_body yaw pitch th gain (world n s) ;;
      match snd r with
      | Break => Ok (fst r, GoalReached)
      | Continue | Sleep =>
          setGimbalRotation_loop fuel' (S n) world yaw pitch th gain (fst r)
      end
  end.

Definition setGimbalRotation (fuel : nat)
  (world : nat -> SIYISDK -> SIYISDK) (s : SIYISDK)
  (yaw pitch err_thresh kp : float) : result (SIYISDK * rotation_exit) :=
  if ((25 <? pitch) || (pitch <? -90))%float then Ok (s, RejectedPitch)
  else if ((270 <? yaw) || (yaw <? -270))%float then Ok (s, RejectedYaw)
  else if ((yaw =? 0) && (pitch =? 0))%float then
    r <- requestCenterGimbal s ;;
    Ok (fst r, Centered)
  else
    let th := err_thresh in
    let gain := kp in
    setGimbalRotation_loop fuel O world yaw pitch th gain s.


(** Does the marker ["5566"] occur in [s], at any character offset? *)
Fixpoint has_header (s : str) : bool :=
  match s with
  | [] => false
  | _ :: t => str_eqb (slice 0 4 s) HEADER || has_header t
  end.

Definition clamp (lo hi v : Z) : Z := Z.max lo (Z.min hi v).

(** The text [encodeMsg] hands to the checksum function. *)
Definition msg_front (data cmd_id : str) : str :=
  HEADER ++ _ctr ++ computeDataLen data ++ lit "0000" ++ cmd_id ++ data.

(** The contract of a checksum function: on hexadecimal text of even
    length it returns four hexadecimal characters. *)
Definition crc_contract (crc : str -> option str) : Prop :=
  forall s, is_hex s = true -> Nat.even (length s) = true ->
    exists c, crc s = Some c /\ is_hex c = true /\ length c = 4%nat.
(** The session after an encoded request was handed to [sendMsg]: the outbound counter
    has moved on, and the datagram [b] went out unless the socket fails. *)
Definition after_send (s : SIYISDK) (b : list byte) : SIYISDK * bool :=
  let s1 :=
    set_out_msg s (fst (incrementSEQ (_out_msg s) (_seq (_out_msg s)))) in
  if sendto_fails (_socket s) then (s1, false)
  else (set_socket s1 (mkSocket false (sent (_socket s) ++ [b])), true).


(** ** The rest of the two classes

    *** siyi_message.py: the commands with a fixed payload *)

Definition autoFocusMsg (m : SIYIMESSAGE) : SIYIMESSAGE * str :=
  encodeMsg m (lit "01") COMMAND.AUTO_FOCUS.

Definition hardwareIdMsg (m : SIYIMESSAGE) : SIYIMESSAGE * str :=
  encodeMsg m [] COMMAND.REQUEST_GIMBAL_CAMERA_HARDWARE_ID.

Definition gimbalCameraWorkingModeMsg (m : SIYIMESSAGE) : SIYIMESSAGE * str :=
  encodeMsg m [] COMMAND.REQUEST_GIMBAL_CAMERA_PRESENT_WORKING_MODE.

Definition closeFocusMsg (m : SIYIMESSAGE) : SIYIMESSAGE * str :=
  encodeMsg m (lit "ff") COMMAND.MANUAL_FOCUS.

Definition currentZoomValueMsg (m : SIYIMESSAGE) : SIYIMESSAGE * str :=
  encodeMsg m [] COMMAND.REQUEST_ZOOM_VALUE_IN_PRESENT.

Definition gimbalConfigurationInfo (m : SIYIMESSAGE) : SIYIMESSAGE * str :=
  encodeMsg m [] COMMAND.REQUEST_GIMBAL_CONFIGURATION_INFO.

Definition stopFocusMsg (m : SIYIMESSAGE) : SIYIMESSAGE * str :=
  encodeMsg m (lit "00") COMMAND.MANUAL_FOCUS.

Definition followModeMsg (m : SIYIMESSAGE) : SIYIMESSAGE * str :=
  encodeMsg m (lit "04") COMMAND.PHOTO_AND_RECORD.

Definition fpvModeMsg (m : SIYIMESSAGE) : SIYIMESSAGE * str :=
  encodeMsg m (lit "05") COMMAND.PHOTO_AND_RECORD.

Definition functionFeedbackMsg (m : SIYIMESSAGE) : SIYIMESSAGE * str :=
  encodeMsg m [] COMMAND.FUNCTION_FEEDBACK_INFO.

Definition lockModeMsg (m : SIYIMESSAGE) : SIYIMESSAGE * str :=
  encodeMsg m (lit "03") COMMAND.PHOTO_AND_RECORD.

Definition longFocusMsg (m : SIYIMESSAGE) : SIYIMESSAGE * str :=
  encodeMsg m (lit "01") COMMAND.MANUAL_FOCUS.

Definition maxZoomValueMsg (m : SIYIMESSAGE) : SIYIMESSAGE * str :=
  encodeMsg m [] COMMAND.REQUEST_MAX_ZOOM_VALUE_IN_PRESENT.

Definition startStopRecordingMsg (m : SIYIMESSAGE) : SIYIMESSAGE * str :=
  encodeMsg m (lit "02") COMMAND.PHOTO_AND_RECORD.

Definition takePhotoMsg (m : SIYIMESSAGE) : SIYIMESSAGE * str :=
  encodeMsg m (lit "00") COMMAND.PHOTO_AND_RECORD.

Definition stopZoomMsg (m : SIYIMESSAGE) : SIYIMESSAGE * str :=
  encodeMsg m (lit "00") COMMAND.MANUAL_ZOOM_AUTO_FOCUS.

Definition zoomInMsg (m : SIYIMESSAGE) : SIYIMESSAGE * str :=
  encodeMsg m (lit "01") COMMAND.MANUAL_ZOOM_AUTO_FOCUS.

Definition zoomOutMsg (m : SIYIMESSAGE) : SIYIMESSAGE * str :=
  encodeMsg m (lit "ff") COMMAND.MANUAL_ZOOM_AUTO_FOCUS.

(** The builders that take no parameter, each with the payload and the
    command id its body names. *)
Definition fixed_builders
  : list ((SIYIMESSAGE -> SIYIMESSAGE * str) * (str * str)) :=
  [(autoFocusMsg, (lit "01", COMMAND.AUTO_FOCUS));
   (gimbalAttitudeMsg, ([], COMMAND.REQUEST_GIMBAL_ATTITUDE));
   (firmwareVersionMsg, ([], COMMAND.REQUEST_GIMBAL_CAMERA_FIRMWARE));
   (hardwareIdMsg, ([], COMMAND.REQUEST_GIMBAL_CAMERA_HARDWARE_ID));
   (gimbalCameraWorkingModeMsg,
    ([], COMMAND.REQUEST_GIMBAL_CAMERA_PRESENT_WORKING_MODE));
   (centerGimbalMsg, (lit "01", COMMAND.CENTER));
   (closeFocusMsg, (lit "ff", COMMAND.MANUAL_FOCUS));
   (currentZoomValueMsg, ([], COMMAND.REQUEST_ZOOM_VALUE_IN_PRESENT));
   (gimbalConfigurationInfo,
    ([], COMMAND.REQUEST_GIMBAL_CONFIGURATION_INFO));
   (stopFocusMsg, (lit "00", COMMAND.MANUAL_FOCUS));
   (followModeMsg, (lit "04", COMMAND.PHOTO_AND_RECORD));
   (fpvModeMsg, (lit "05", COMMAND.PHOTO_AND_RECORD));
   (functionFeedbackMsg, ([], COMMAND.FUNCTION_FEEDBACK_INFO));
   (lockModeMsg, (lit "03", COMMAND.PHOTO_AND_RECORD));
   (longFocusMsg, (lit "01", COMMAND.MANUAL_FOCUS));
   (maxZoomValueMsg, ([], COMMAND.REQUEST_MAX_ZOOM_VALUE_IN_PRESENT));
   (startStopRecordingMsg, (lit "02", COMMAND.PHOTO_AND_RECORD));
   (takePhotoMsg, (lit "00", COMMAND.PHOTO_AND_RECORD));
   (stopZoomMsg, (lit "00", COMMAND.MANUAL_ZOOM_AUTO_FOCUS));
   (zoomInMsg, (lit "01", COMMAND.MANUAL_ZOOM_AUTO_FOCUS));
   (zoomOutMsg, (lit "ff", COMMAND.MANUAL_ZOOM_AUTO_FOCUS))].

(** *** siyi_sdk.py: the other request functions *)

Definition requestAutoFocus (s : SIYISDK) : result (SIYISDK * bool) :=
  let '(m, msg) := autoFocusMsg (_out_msg s) in
  sendMsg (set_out_msg s m) msg.

Definition requestGimbalCameraFirmwareVersion (s : SIYISDK) : result (SIYISDK * bool) :=
  let '(m, msg) := firmwareVersionMsg (_out_msg s) in
  sendMsg (set_out_msg s m) msg.

Definition requestGimbalCameraHardwareID (s : SIYISDK) : result (SIYISDK * bool) :=
  let '(m, msg) := hardwareIdMsg (_out_msg s) in
  sendMsg (set_out_msg s m) msg.

Definition requestGimbalCameraPresentWorkingMode (s : SIYISDK) : result (SIYISDK * bool) :=
  let '(m, msg) := gimbalCameraWorkingModeMsg (_out_msg s) in
  sendMsg (set_out_msg s m) msg.

Definition requestCloseFocus (s : SIYISDK) : result (SIYISDK * bool) :=
  let '(m, msg) := closeFocusMsg (_out_msg s) in
  sendMsg (set_out_msg s m) msg.

Definition requestCurrentZoomValue (s : SIYISDK) : result (SIYISDK * bool) :=
  let '(m, msg) := currentZoomValueMsg (_out_msg s) in
  sendMsg (set_out_msg s m) msg.

Definition requestGimbalConfigurationInfo (s : SIYISDK) : result (SIYISDK * bool) :=
  let '(m, msg) := gimbalConfigurationInfo (_out_msg s) in
  sendMsg (set_out_msg s m) msg.

Definition requestFocusHold (s : SIYISDK) : result (SIYISDK * bool) :=
  let '(m, msg) := stopFocusMsg (_out_msg s) in
  sendMsg (set_out_msg s m) msg.

Definition requestFollowMode (s : SIYISDK) : result (SIYISDK * bool) :=
  let '(m, msg) := followModeMsg (_out_msg s) in
  sendMsg (set_out_msg s m) msg.

Definition requestFPVMode (s : SIYISDK) : result (SIYISDK * bool) :=
  let '(m, msg) := fpvModeMsg (_out_msg s) in
  sendMsg (set_out_msg s m) msg.

Definition requestFunctionFeedback (s : SIYISDK) : result (SIYISDK * bool) :=
  let '(m, msg) := functionFeedbackMsg (_out_msg s) in
  sendMsg (set_out_msg s m) msg.

Definition requestLockMode (s : SIYISDK) : result (SIYISDK * bool) :=
  let '(m, msg) := lockModeMsg (_out_msg s) in
  sendMsg (set_out_msg s m) msg.

Definition requestLongFocus (s : SIYISDK) : result (SIYISDK * bool) :=
  let '(m, msg) := longFocusMsg (_out_msg s) in
  sendMsg (set_out_msg s m) msg.

Definition requestMaxZoomValue (s : SIYISDK) : result (SIYISDK * bool) :=
  let '(m, msg) := maxZoomValueMsg (_out_msg s) in
  sendMsg (set_out_msg s m) msg.

Definition requestStartStopRecording (s : SIYISDK) : result (SIYISDK * bool) :=
  let '(m, msg) := startStopRecordingMsg (_out_msg s) in
  sendMsg (set_out_msg s m) msg.

Definition requestTakePhoto (s : SIYISDK) : result (SIYISDK * bool) :=
  let '(m, msg) := takePhotoMsg (_out_msg s) in
  sendMsg (set_out_msg s m) msg.

Definition requestZoomHold (s : SIYISDK) : result (SIYISDK * bool) :=
  let '(m, msg) := stopZoomMsg (_out_msg s) in
  sendMsg (set_out_msg s m) msg.

Definition requestZoomIn (s : SIYISDK) : result (SIYISDK * bool) :=
  let '(m, msg) := zoomInMsg (_out_msg s) in
  sendMsg (set_out_msg s m) msg.

Definition requestZoomOut (s : SIYISDK) : result (SIYISDK * bool) :=
  let '(m, msg) := zoomOutMsg (_out_msg s) in
  sendMsg (set_out_msg s m) msg.

Definition sendControlAngleToGimbal (s : SIYISDK) (yaw_angle pitch_angle : Z)
  : result (SIYISDK * bool) :=
  let '(m, msg) :=
    sendControlAngleToGimbalMsg (_out_msg s) yaw_angle pitch_angle in
  sendMsg (set_out_msg s m) msg.

(** *** siyi_sdk.py: liveness and the pollers *)

Definition set_connected (s : SIYISDK) (v : bool) : SIYISDK :=
  mkSDK (_out_msg s) (_in_msg s) (_socket s) v (_absoluteZoom_msg s)
    (_att_msg s) (_center_msg s) (_currentZoomValue_msg s)
    (_autoFocus_msg s) (_gimbalSpeed_msg s) (_fw_msg s)
    (_funcFeedback_msg s) (_hw_msg s) (_manualFocus_msg s)
    (_manualZoom_msg s) (_maxZoomValue_msg s) (_motionMode_msg s)
    (_mountDir_msg s) (_record_msg s) (_sendControlAngleToGimbal_msg s)
    (_last_att_seq s) (_stop s) (_last_fw_seq s).

Definition set_last_fw_seq (s : SIYISDK) (v : Z) : SIYISDK :=
  mkSDK (_out_msg s) (_in_msg s) (_socket s) (_connected s)
    (_absoluteZoom_msg s) (_att_msg s) (_center_msg s)
    (_currentZoomValue_msg s) (_autoFocus_msg s) (_gimbalSpeed_msg s)
    (_fw_msg s) (_funcFeedback_msg s) (_hw_msg s) (_manualFocus_msg s)
    (_manualZoom_msg s) (_maxZoomValue_msg s) (_motionMode_msg s)
    (_mountDir_msg s) (_record_msg s) (_sendControlAngleToGimbal_msg s)
    (_last_att_seq s) (_stop s) v.

(** While a thread sleeps the receive thread may run.  A function
    [SIYISDK -> SIYISDK] stands for what it did to the session in that
    time. *)
Definition checkConnection (during : SIYISDK -> SIYISDK) (s : SIYISDK)
  : result SIYISDK :=
  r <- requestGimbalCameraFirmwareVersion s ;;
  let s := during (fst r) in
  if negb (FirmwareMsg.seq (_fw_msg s) =? _last_fw_seq s)
     && (0 <? length (FirmwareMsg.gimbal_firmware_ver (_fw_msg s)))%nat
  then
    let s := set_connected s true in
    Ok (set_last_fw_seq s (FirmwareMsg.seq (_fw_msg s)))
  else Ok (set_connected s false).

(** How a [while True] loop run with fuel ends. *)
Inductive loop_end : Type :=
| Exited     (* the [break] was reached *)
| Running.   (* the passes allowed by the fuel were all used *)

(** Pass [n] sleeps twice: inside [checkConnection] ([world (2 * n)]) and
    at the end of the pass ([world (2 * n + 1)]). *)
Fixpoint connectionLoop (fuel n : nat) (world : nat -> SIYISDK -> SIYISDK)
  (s : SIYISDK) : result (SIYISDK * loop_end) :=
  match fuel with
  | O => Ok (s, Running)
  | S fuel' =>
      if _stop s then
        let s := set_connected s false in
        Ok (fst (resetVars s), Exited)
      else
        s <- checkConnection (world (2 * n)%nat) s ;;
        connectionLoop fuel' (S n) world (world (2 * n + 1)%nat s)
  end.

Definition isConnected (s : SIYISDK) : bool := _connected s.

Fixpoint gimbalInfoLoop (fuel n : nat) (world : nat -> SIYISDK -> SIYISDK)
  (s : SIYISDK) : result (SIYISDK * loop_end) :=
  match fuel with
  | O => Ok (s, Running)
  | S fuel' =>
      if negb (_connected s) then Ok (s, Exited)
      else
        r <- requestGimbalConfigurationInfo s ;;
        gimbalInfoLoop fuel' (S n) world (world n (fst r))
  end.

Fixpoint gimbalAttLoop (fuel n : nat) (world : nat -> SIYISDK -> SIYISDK)
  (s : SIYISDK) : result (SIYISDK * loop_end) :=
  match fuel with
  | O => Ok (s, Running)
  | S fuel' =>
      if negb (_connected s) then Ok (s, Exited)
      else
        r <- requestGimbalAttitude s ;;
        gimbalAttLoop fuel' (S n) world (world n (fst r))
  end.

Fixpoint gimbalZoomLoop (fuel n : nat) (world : nat -> SIYISDK -> SIYISDK)
  (s : SIYISDK) : result (SIYISDK * loop_end) :=
  match fuel with
  | O => Ok (s, Running)
  | S fuel' =>
      if negb (_connected s) then Ok (s, Exited)
      else
        r <- requestCurrentZoomValue s ;;
        gimbalZoomLoop fuel' (S n) world (world n (fst r))
  end.

(** *** siyi_sdk.py: get functions *)

Definition getAttitude (s : SIYISDK) : Q * Q * Q :=
  (AttitdueMsg.yaw (_att_msg s), AttitdueMsg.pitch (_att_msg s),
   AttitdueMsg.roll (_att_msg s)).

Definition getAttitudeSpeed (s : SIYISDK) : Q * Q * Q :=
  (AttitdueMsg.yaw_speed (_att_msg s), AttitdueMsg.pitch_speed (_att_msg s),
   AttitdueMsg.roll_speed (_att_msg s)).

Definition getFirmwareVersion (s : SIYISDK) : str :=
  FirmwareMsg.gimbal_firmware_ver (_fw_msg s).

Definition getHardwareID (s : SIYISDK) : str := HardwareIDMsg.id (_hw_msg s).

Definition getRecordingState (s : SIYISDK) : Z :=
  RecordingMsg.state (_record_msg s).

Definition getMotionMode (s : SIYISDK) : Z :=
  MotionModeMsg.mode (_motionMode_msg s).

Definition getMountingDirection (s : SIYISDK) : Z :=
  MountDirMsg.dir (_mountDir_msg s).

Definition getFunctionFeedback (s : SIYISDK) : option Z :=
  FuncFeedbackInfoMsg.info_type (_funcFeedback_msg s).

(** [during] is the [sleep(.05)] between the request and the read. *)
Definition getZoomLevel (during : SIYISDK -> SIYISDK) (s : SIYISDK)
  : result (SIYISDK * Q) :=
  r <- requestZoomHold s ;;
  let s := during (fst r) in
  Ok (s, (inject_Z (CurrentZoomValueMsg.zoom_int (_currentZoomValue_msg s))
          + CurrentZoomValueMsg.zoom_float (_currentZoomValue_msg s))%Q).

(** The command ids that [bufferCallback] has a branch for. *)
Definition known_commands : list str :=
  [COMMAND.ABSOLUTE_ZOOM_AUTO_FOCUS; COMMAND.AUTO_FOCUS; COMMAND.CENTER;
   COMMAND.FUNCTION_FEEDBACK_INFO; COMMAND.GIMBAL_ROTATION_SPEED;
   COMMAND.MANUAL_FOCUS; COMMAND.MANUAL_ZOOM_AUTO_FOCUS;
   COMMAND.PHOTO_AND_RECORD; COMMAND.REQUEST_GIMBAL_ATTITUDE;
   COMMAND.REQUEST_GIMBAL_CAMERA_FIRMWARE;
   COMMAND.REQUEST_GIMBAL_CAMERA_HARDWARE_ID;
   COMMAND.REQUEST_GIMBAL_CAMERA_PRESENT_WORKING_MODE;
   COMMAND.REQUEST_GIMBAL_CONFIGURATION_INFO;
   COMMAND.REQUEST_MAX_ZOOM_VALUE_IN_PRESENT;
   COMMAND.REQUEST_ZOOM_VALUE_IN_PRESENT;
   COMMAND.SEND_CONTROL_ANGLE_TO_GIMBAL].

(** The two command ids whose parser is a stub. *)
Definition stub_commands : list str :=
  [COMMAND.PHOTO_AND_RECORD;
   COMMAND.REQUEST_GIMBAL_CAMERA_PRESENT_WORKING_MODE].

(** A datagram part that is one frame: it starts with the marker, it is
    as long as its length field says, and [decodeMsg] accepts it and
    returns [val]. *)
Definition well_formed (frame : list byte) (val : decoded) : Prop :=
  slice 0 4 (hex_of_bytes frame) = HEADER
  /\ Z.of_nat (length frame) = 10 + snd (fst (fst val))
  /\ exists m', decodeMsg SIYIMESSAGE_init (hex_of_bytes frame)
                = Ok (m', Some val).

(** What holds of every frame the scan hands to a parser. *)
Definition frame_ok (val : decoded) : Prop :=
  let '(data, data_len, cmd_id, seq) := val in
  Z.of_nat (length data) = 2 * data_len
  /\ is_hex data = true
  /\ 0 <= data_len < 65536
  /\ 0 <= seq < 65536
  /\ length cmd_id = 2%nat.


(** *** Sample data for the closed instances *)

(** A session fresh from the constructor, with a working socket. *)
Definition fresh_session : SIYISDK := SIYISDK_init (mkSocket false []).

(** The acknowledgement of a center command, sequence number 5. *)
Definition center_ack : list byte :=
  [x55; x66; x02; x01; x00; x05; x00; x08; x01; x16; x76].

(** The answer to a present-working-mode request: command id 0x19, one
    payload byte. *)
Definition working_mode_ack : list byte :=
  [x55; x66; x02; x01; x00; x05; x00; x19; x01; x54; x46].

(** A well-formed frame with command id PHOTO_AND_RECORD. *)
Definition photo_ack : list byte :=
  [x55; x66; x02; x01; x00; x05; x00; x0c; x01; xd2; xba].

(** ** Facts about hexadecimal text *)

Lemma str_eqb_eq (a b : str) : str_eqb a b = true <-> a = b.
Proof.
  revert b; induction a as [|x a IH]; intros [|y b]; simpl; split;
    try congruence; try reflexivity.
  - intros H. apply andb_true_iff in H as [Hx Hab].
    apply Ascii.eqb_eq in Hx. apply IH in Hab. congruence.
  - intros H. injection H as -> ->. apply andb_true_iff. split.
    + apply Ascii.eqb_refl.
    + now apply IH.
Qed.

Lemma str_eqb_refl (a : str) : str_eqb a a = true.
Proof. now apply str_eqb_eq. Qed.

Lemma hex_val_digit (d : Z) : 0 <= d < 16 -> hex_val (hex_digit d) = Some d.
Proof.
  intros H.
  assert (Hc : d = 0 \/ d = 1 \/ d = 2 \/ d = 3 \/ d = 4 \/ d = 5 \/ d = 6
               \/ d = 7 \/ d = 8 \/ d = 9 \/ d = 10 \/ d = 11 \/ d = 12
               \/ d = 13 \/ d = 14 \/ d = 15) by lia.
  repeat (destruct Hc as [-> | Hc]; [reflexivity|]). subst d; reflexivity.
Qed.

Lemma int_from_format_x_aux (fuel : nat) :
  forall n rest, 0 <= n < 2 ^ Z.of_nat fuel ->
    int_from 0 (format_x_aux fuel n rest) = int_from n rest.
Proof.
  induction fuel as [|fuel IH]; intros n rest Hn.
  - simpl in *. assert (n = 0) by lia. now subst.
  - cbn [format_x_aux].
    assert (Hd : 0 <= n mod 16 < 16) by (apply Z.mod_pos_bound; lia).
    assert (Hn16 : n = (n / 16) * 16 + n mod 16)
      by (rewrite Z.mul_comm; apply Z.div_mod; lia).
    destruct (Z.eqb_spec (n / 16) 0) as [Hz | Hz].
    + cbn [int_from]. rewrite hex_val_digit by exact Hd.
      f_equal. lia.
    + rewrite IH.
      * cbn [int_from]. rewrite hex_val_digit by exact Hd.
        f_equal. lia.
      * rewrite Nat2Z.inj_succ, Z.pow_succ_r in Hn by lia.
        split; [apply Z.div_pos; lia|].
        apply Z.div_lt_upper_bound; lia.
Qed.

Lemma int_from_format_x (n : Z) : 0 <= n -> int_from 0 (format_x n) = Some n.
Proof.
  intros Hn. unfold format_x.
  rewrite int_from_format_x_aux; [reflexivity|].
  split; [exact Hn|].
  destruct (Z.eq_dec n 0) as [-> | Hnz]; [reflexivity|].
  rewrite Nat2Z.inj_succ, Z2Nat.id by apply Z.log2_nonneg.
  apply Z.log2_spec; lia.
Qed.

Lemma format_x_aux_nonempty (fuel : nat) (n : Z) (acc : str) :
  acc <> [] \/ fuel <> O -> format_x_aux fuel n acc <> [].
Proof.
  revert n acc; induction fuel as [|fuel IH]; intros n acc H; simpl.
  - destruct H; congruence.
  - destruct (n / 16 =? 0); [discriminate|].
    apply IH. left; discriminate.
Qed.

Lemma format_x_nonempty (n : Z) : format_x n <> [].
Proof. apply format_x_aux_nonempty. right; discriminate. Qed.

Lemma int_hex_format_x (n : Z) : 0 <= n -> int_hex (format_x n) = Some n.
Proof.
  intros Hn. unfold int_hex.
  pose proof (format_x_nonempty n) as Hne.
  destruct (format_x n) eqn:E; [congruence|].
  rewrite <- E. now apply int_from_format_x.
Qed.

(** Leading zeros do not change the value read. *)
Lemma int_hex_zero_pad (z h : str) :
  Forall (fun c => c = "0"%char) z -> h <> [] -> int_hex (z ++ h) = int_hex h.
Proof.
  intros Hz Hh. unfold int_hex.
  assert (Hfrom : int_from 0 (z ++ h) = int_from 0 h).
  { induction Hz as [|c z Hc _ IH]; [reflexivity|]. subst c. exact IH. }
  destruct h as [|c h]; [congruence|].
  destruct (z ++ c :: h) eqn:E.
  - destruct z; discriminate.
  - exact Hfrom.
Qed.

Lemma int_hex_toHex (v nbits : Z) :
  0 <= nbits ->
  int_hex (toHex v nbits) = Some ((v + 2 ^ nbits) mod 2 ^ nbits).
Proof.
  intros Hb. unfold toHex. rewrite Z.shiftl_1_l.
  set (u := (v + 2 ^ nbits) mod 2 ^ nbits).
  assert (Hu : 0 <= u).
  { apply Z.mod_pos_bound. apply Z.pow_pos_nonneg; lia. }
  pose proof (format_x_nonempty u) as Hne.
  pose proof (int_hex_format_x u Hu) as Hfx.
  repeat match goal with
  | |- context [if ?c then _ else _] => destruct c
  end; try exact Hfx;
  (rewrite int_hex_zero_pad; [exact Hfx | repeat constructor | exact Hne]).
Qed.

Lemma is_hex_char_digit (d : Z) : is_hex_char (hex_digit d) = true.
Proof.
  destruct d as [|p|p]; try reflexivity.
  do 5 (try (destruct p as [p|p|]); try reflexivity).
Qed.

Lemma hex_val_range (c : ascii) (x : Z) :
  hex_val c = Some x -> 0 <= x < 16.
Proof.
  unfold hex_val. set (code := Z.of_N (N_of_ascii c)).
  assert (Hin : forall lo hi, (lo <=? code) && (code <=? hi) = true ->
                  lo <= code <= hi).
  { intros lo hi H. apply andb_true_iff in H as [H1 H2].
    apply Z.leb_le in H1, H2. lia. }
  destruct ((48 <=? code) && (code <=? 57)) eqn:E1;
    [apply Hin in E1; intros H; injection H as <-; lia|].
  destruct ((97 <=? code) && (code <=? 102)) eqn:E2;
    [apply Hin in E2; intros H; injection H as <-; lia|].
  destruct ((65 <=? code) && (code <=? 70)) eqn:E3;
    [apply Hin in E3; intros H; injection H as <-; lia | discriminate].
Qed.

Lemma is_hex_app (a b : str) : is_hex (a ++ b) = is_hex a && is_hex b.
Proof. apply forallb_app. Qed.

Lemma is_hex_format_x_aux (fuel : nat) :
  forall n acc, is_hex acc = true -> is_hex (format_x_aux fuel n acc) = true.
Proof.
  induction fuel as [|fuel IH]; intros n acc Hacc; [exact Hacc|].
  cbn [format_x_aux].
  assert (Hacc' : is_hex (hex_digit (n mod 16) :: acc) = true).
  { cbn [is_hex forallb]. rewrite is_hex_char_digit. exact Hacc. }
  destruct (n / 16 =? 0); [exact Hacc' | now apply IH].
Qed.

Lemma is_hex_format_x (n : Z) : is_hex (format_x n) = true.
Proof. now apply is_hex_format_x_aux. Qed.

Lemma format_x_aux_length (fuel : nat) :
  forall k n acc, (1 <= k)%nat -> 0 <= n < 16 ^ Z.of_nat k ->
    (length (format_x_aux fuel n acc) <= k + length acc)%nat.
Proof.
  induction fuel as [|fuel IH]; intros k n acc Hk Hn; [cbn; lia|].
  cbn [format_x_aux].
  destruct (Z.eqb_spec (n / 16) 0) as [Hz | Hnz]; [cbn [length]; lia|].
  destruct k as [|[|k]]; [lia | |].
  - exfalso. apply Hnz. apply Z.div_small.
    change (16 ^ Z.of_nat 1) with 16 in Hn. lia.
  - specialize (IH (S k) (n / 16) (hex_digit (n mod 16) :: acc)).
    cbn [length] in IH.
    assert (Hq : 0 <= n / 16 < 16 ^ Z.of_nat (S k)).
    { rewrite (Nat2Z.inj_succ (S k)), Z.pow_succ_r in Hn by lia.
      split; [apply Z.div_pos; lia | apply Z.div_lt_upper_bound; lia]. }
    specialize (IH ltac:(lia) Hq). lia.
Qed.

Lemma format_x_length (k : nat) (n : Z) :
  (1 <= k)%nat -> 0 <= n < 16 ^ Z.of_nat k ->
  (1 <= length (format_x n) <= k)%nat.
Proof.
  intros Hk Hn. split.
  - pose proof (format_x_nonempty n).
    destruct (format_x n); [congruence | cbn; lia].
  - pose proof (format_x_aux_length (S (Z.to_nat (Z.log2 n))) k n [] Hk Hn)
      as H.
    cbn [length] in H. unfold format_x. lia.
Qed.

Lemma fromhex_total_aux (n : nat) :
  forall s, (length s <= n)%nat -> is_hex s = true ->
    Nat.even (length s) = true -> exists b, fromhex s = Some b.
Proof.
  induction n as [|n IH]; intros s Hlen Hhex Hev.
  - destruct s; [now exists [] | cbn in Hlen; lia].
  - destruct s as [|a [|b t]]; [now exists [] | discriminate |].
    cbn [is_hex forallb] in Hhex.
    apply andb_true_iff in Hhex as [Ha Hhex].
    apply andb_true_iff in Hhex as [Hb Ht].
    unfold is_hex_char in Ha, Hb.
    destruct (hex_val a) as [x|] eqn:Ex; [|discriminate].
    destruct (hex_val b) as [y|] eqn:Ey; [|discriminate].
    destruct (IH t) as [r Hr]; [cbn in Hlen; lia | exact Ht | exact Hev |].
    cbn [fromhex]. rewrite Ex, Ey, Hr.
    apply hex_val_range in Ex, Ey.
    destruct (Byte.of_N (Z.to_N (x * 16 + y))) as [c|] eqn:Ec.
    + now exists (c :: r).
    + apply Byte.of_N_None_iff in Ec. lia.
Qed.

Lemma fromhex_total (s : str) :
  is_hex s = true -> Nat.even (length s) = true ->
  exists b, fromhex s = Some b.
Proof. now apply (fromhex_total_aux (length s)). Qed.

(** ** Bytes and their hexadecimal text *)

Lemma byte_val_range (c : byte) : 0 <= byte_val c < 256.
Proof.
  unfold byte_val. pose proof (Byte.to_N_bounded c) as H.
  split; [apply N2Z.is_nonneg|].
  apply N2Z.inj_le in H. change (Z.of_N 255) with 255 in H. lia.
Qed.

Lemma hex_of_bytes_cons (c : byte) (b : list byte) :
  hex_of_bytes (c :: b) =
  hex_digit (byte_val c / 16) :: hex_digit (byte_val c mod 16)
  :: hex_of_bytes b.
Proof. reflexivity. Qed.

Lemma hex_of_bytes_app (a b : list byte) :
  hex_of_bytes (a ++ b) = hex_of_bytes a ++ hex_of_bytes b.
Proof. apply flat_map_app. Qed.

Lemma hex_of_bytes_length (b : list byte) :
  length (hex_of_bytes b) = (2 * length b)%nat.
Proof.
  induction b as [|c b IH]; [reflexivity|].
  rewrite hex_of_bytes_cons. cbn [length]. rewrite IH. lia.
Qed.

Lemma int_from_byte (acc v : Z) (t : str) :
  0 <= v < 256 ->
  int_from acc (hex_digit (v / 16) :: hex_digit (v mod 16) :: t) =
  int_from (acc * 256 + v) t.
Proof.
  intros Hv. cbn [int_from].
  assert (Hq : 0 <= v / 16 < 16).
  { split; [apply Z.div_pos; lia | apply Z.div_lt_upper_bound; lia]. }
  assert (Hr : 0 <= v mod 16 < 16) by (apply Z.mod_pos_bound; lia).
  rewrite !hex_val_digit by assumption.
  f_equal. pose proof (Z.div_mod v 16). lia.
Qed.

(** ** utils.py: the round trip *)

Lemma land_bit15 (u : Z) :
  0 <= u < 65536 -> (Z.land u 32768 =? 0) = (u <? 32768).
Proof.
  intros Hu.
  assert (Hbit : Z.testbit u 15 = negb (u <? 32768)).
  { destruct (Z.ltb_spec u 32768) as [Hlt | Hge]; cbn [negb].
    - apply Z.testbit_false; [lia|].
      change (2 ^ 15) with 32768. rewrite Z.div_small by lia. reflexivity.
    - apply Z.testbit_true; [lia|].
      change (2 ^ 15) with 32768.
      assert (Hq : u / 32768 = 1)
        by (symmetry; apply Z.div_unique with (r := u - 32768); lia).
      now rewrite Hq. }
  assert (Hland : Z.land u 32768 = if Z.testbit u 15 then 32768 else 0).
  { apply Z.bits_inj'. intros n Hn.
    rewrite Z.land_spec. change 32768 with (2 ^ 15).
    rewrite Z.pow2_bits_eqb by lia.
    destruct (Z.eqb_spec 15 n) as [<- | Hne].
    - rewrite andb_true_r. destruct (Z.testbit u 15) eqn:E.
      + now rewrite Z.pow2_bits_eqb by lia.
      + now rewrite Z.bits_0.
    - rewrite andb_false_r. destruct (Z.testbit u 15).
      + rewrite Z.pow2_bits_eqb by lia.
        symmetry. now apply Z.eqb_neq.
      + now rewrite Z.bits_0. }
  rewrite Hland, Hbit. now destruct (u <? 32768).
Qed.

(** C10: the 16-bit two's-complement text written by [toHex] is read back
    by [toInt] as the same integer, for every [v] in [-32768, 32767]. *)
Theorem toInt_toHex_roundtrip (v : Z) :
  -32768 <= v <= 32767 -> toInt (toHex v 16) = Some v.
Proof.
  intros Hv. unfold toInt.
  rewrite int_hex_toHex by lia.
  change (2 ^ 16) with 65536. change (Z.shiftl 1 (16 - 1)) with 32768.
  change (Z.shiftl 1 16) with 65536.
  set (u := (v + 65536) mod 65536).
  assert (Hu : 0 <= u < 65536) by (apply Z.mod_pos_bound; lia).
  rewrite land_bit15 by exact Hu.
  destruct (Z.ltb_spec u 32768) as [Hlt | Hge]; simpl; f_equal.
  - destruct (Z_lt_le_dec v 0) as [Hneg | Hpos].
    + assert (u = v + 65536)
        by (symmetry; apply Z.mod_unique with (q := 0); lia).
      lia.
    + symmetry; apply Z.mod_unique with (q := 1); lia.
  - destruct (Z_lt_le_dec v 0) as [Hneg | Hpos].
    + assert (u = v + 65536)
        by (symmetry; apply Z.mod_unique with (q := 0); lia).
      lia.
    + assert (u = v) by (symmetry; apply Z.mod_unique with (q := 1); lia).
      lia.
Qed.

Lemma toInt_toHex_roundtrip_witness :
  -32768 <= -300 <= 32767 /\ toInt (toHex (-300) 16) = Some (-300).
Proof.
  split; [lia | apply (toInt_toHex_roundtrip (-300)); lia].
Defined.

(** ** The sequence counter *)

Lemma incrementSEQ_nonneg (m : SIYIMESSAGE) (val : Z) :
  0 <= _seq m -> 0 <= _seq (fst (incrementSEQ m val)).
Proof.
  intros Hm. unfold incrementSEQ.
  destruct (Z.gtb_spec val 65535) as [Hgt | Hle]; [simpl; lia|].
  destruct (Z.ltb_spec val 0) as [Hlt | Hge]; [exact Hm|].
  simpl. lia.
Qed.

(** C3: at 65535 the counter does not wrap.  [incrementSEQ] stores 65536
    and returns the text ["0010"]; only the call after that resets the
    counter to 0.  (That the counter is never negative is
    [incrementSEQ_nonneg].) *)
Theorem incrementSEQ_at_65535 (m : SIYIMESSAGE) :
  incrementSEQ m 65535 = (set_seq m 65536, lit "0010")
  /\ _seq (fst (incrementSEQ m 65535)) = 65536
  /\ incrementSEQ (set_seq m 65536) 65536 = (set_seq m 0, lit "0000").
Proof. repeat split. Qed.

(** ** Range clamping in the encoders *)

Lemma gimbalSpeedMsg_data_clamps (yaw_speed pitch_speed : Z) :
  gimbalSpeedMsg_data yaw_speed pitch_speed =
  toHex (clamp (-100) 100 yaw_speed) 8
  ++ toHex (clamp (-100) 100 pitch_speed) 8.
Proof.
  unfold gimbalSpeedMsg_data, clamp.
  assert (Hc : forall v,
    (if (if v >? 100 then 100 else v) <? -100 then -100
     else if v >? 100 then 100 else v) = Z.max (-100) (Z.min 100 v)).
  { intros v. destruct (Z.gtb_spec v 100).
    - rewrite Z.min_l, Z.max_r by lia. reflexivity.
    - rewrite Z.min_r by lia.
      destruct (Z.ltb_spec v (-100)); [rewrite Z.max_l | rewrite Z.max_r];
        lia. }
  cbv zeta. now rewrite !Hc.
Qed.

Lemma absoluteZoomMsg_data_in_range (zoom_level frac_zoom_level : Z) :
  0 <= frac_zoom_level <= 9 ->
  absoluteZoomMsg_data zoom_level frac_zoom_level =
  toHex (clamp 1 30 zoom_level) 8 ++ toHex frac_zoom_level 8.
Proof.
  intros Hf. unfold absoluteZoomMsg_data, clamp. cbv zeta.
  destruct (Z.gtb_spec frac_zoom_level 9); [lia|].
  destruct (Z.ltb_spec frac_zoom_level 0); [lia|].
  f_equal. f_equal.
  destruct (Z.gtb_spec zoom_level 30).
  - rewrite Z.min_l, Z.max_r by lia. reflexivity.
  - rewrite Z.min_r by lia.
    destruct (Z.ltb_spec zoom_level 1); [rewrite Z.max_l | rewrite Z.max_r];
      lia.
Qed.

(** C6: [absoluteZoomMsg] does not clamp the fractional part.  A
    fractional part above 9 is encoded as it is, and the integer part is
    replaced by 9 whatever was asked. *)
Theorem absoluteZoomMsg_data_frac_above_9 (zoom_level frac_zoom_level : Z) :
  9 < frac_zoom_level ->
  absoluteZoomMsg_data zoom_level frac_zoom_level =
  toHex 9 8 ++ toHex frac_zoom_level 8.
Proof.
  intros Hf. unfold absoluteZoomMsg_data. cbv zeta.
  destruct (Z.gtb_spec frac_zoom_level 9); [|lia].
  destruct (Z.ltb_spec frac_zoom_level 0); [lia|].
  reflexivity.
Qed.

(** ** Encoding and decoding *)

Lemma last_chars_app (a c : str) : last_chars (length c) (a ++ c) = c.
Proof.
  unfold last_chars. rewrite length_app.
  replace (length a + length c - length c)%nat with (length a) by lia.
  rewrite skipn_app, skipn_all, Nat.sub_diag. reflexivity.
Qed.

Lemma drop_last_app (a c : str) : drop_last (length c) (a ++ c) = a.
Proof.
  unfold drop_last. rewrite length_app.
  replace (length a + length c - length c)%nat with (length a) by lia.
  rewrite firstn_app, firstn_all, Nat.sub_diag. cbn [firstn].
  apply app_nil_r.
Qed.

Lemma encodeMsg_frame (m : SIYIMESSAGE) (data cmd_id c : str) :
  crc16_str_swap (msg_front data cmd_id) = Some c ->
  encodeMsg m data cmd_id =
  (fst (incrementSEQ m (_seq m)), msg_front data cmd_id ++ c).
Proof.
  intros Hc. unfold encodeMsg.
  destruct (incrementSEQ m (_seq m)) as [m1 seq]. cbv zeta.
  fold (msg_front data cmd_id). now rewrite Hc.
Qed.

Lemma incrementSEQ_in_range (m : SIYIMESSAGE) (val : Z) :
  0 <= val <= 65535 -> fst (incrementSEQ m val) = set_seq m (val + 1).
Proof.
  intros Hv. unfold incrementSEQ.
  destruct (Z.gtb_spec val 65535); [lia|].
  destruct (Z.ltb_spec val 0); [lia|]. reflexivity.
Qed.

Lemma computeDataLen_even (data : str) :
  Nat.even (length data) = true -> Z.of_nat (length data) < 8192 ->
  exists a b c d,
    computeDataLen data = [c; d; a; b]
    /\ int_hex [a; b; c; d] = Some (Z.of_nat (length data / 2))
    /\ is_hex [a; b; c; d] = true.
Proof.
  intros Hev Hlen. unfold computeDataLen.
  assert (Hmod : (length data mod 2 =? 0)%nat = true).
  { apply Nat.even_spec in Hev as [k Hk]. rewrite Hk.
    rewrite Nat.mul_comm, Nat.Div0.mod_mul. reflexivity. }
  rewrite Hmod. cbv zeta.
  set (L := Z.of_nat (length data / 2)).
  assert (HL : 0 <= L < 16 ^ Z.of_nat 3).
  { change (16 ^ Z.of_nat 3) with 4096. subst L.
    rewrite Nat2Z.inj_div. change (Z.of_nat 2) with 2.
    split; [apply Z.div_pos; lia | apply Z.div_lt_upper_bound; lia]. }
  change (skipn 2 (hex L)) with (format_x L).
  pose proof (format_x_length 3 L ltac:(lia) HL) as Hfl.
  pose proof (is_hex_format_x L) as Hfh.
  pose proof (int_hex_format_x L (proj1 HL)) as Hfv.
  destruct (format_x L) as [|x [|y [|z [|w t]]]]; cbn [length] in Hfl;
    try lia.
  - exists "0"%char, "0"%char, "0"%char, x. repeat split; assumption.
  - exists "0"%char, "0"%char, x, y. repeat split; assumption.
  - exists "0"%char, x, y, z. repeat split; assumption.
Qed.

Lemma even_half_double (n : nat) :
  Nat.even n = true -> Z.to_nat (Z.of_nat (n / 2) * 2) = n.
Proof.
  intros Hev. apply Nat.even_spec in Hev as [k Hk]. subst n.
  rewrite Nat.mul_comm, Nat.div_mul by lia. lia.
Qed.

Lemma decodeMsg_of_encoded (m0 : SIYIMESSAGE) (a b c d k1 k2 : ascii)
  (data crc : str) :
  let frame :=
    lit "556601" ++ [c; d; a; b] ++ lit "0000" ++ [k1; k2] ++ data ++ crc in
  int_hex [a; b; c; d] = Some (Z.of_nat (length data / 2)) ->
  Nat.even (length data) = true ->
  length crc = 4%nat ->
  crc16_str_swap (drop_last 4 frame) = Some crc ->
  decodeMsg m0 frame =
  Ok (mkMESSAGE (_seq m0) [k1; k2] (Z.of_nat (length data / 2)) data
        (_crc16 m0),
      Some (data, Z.of_nat (length data / 2), [k1; k2], 0)).
Proof.
  intros frame Hval Hev Hcrc4 Hcrc. unfold decodeMsg.
  assert (Hlen : length frame = (20 + length data)%nat).
  { subst frame. cbn [lit list_ascii_of_string app length].
    rewrite length_app. lia. }
  destruct (Nat.ltb_spec (length frame) MINIMUM_DATA_LENGTH) as [Hlt | _];
    [unfold MINIMUM_DATA_LENGTH in Hlt; lia|].
  change (slice 8 10 frame ++ slice 6 8 frame) with [a; b; c; d].
  unfold int0x at 1. rewrite Hval. cbn [bind].
  rewrite Hcrc.
  assert (Hlast : last_chars 4 frame = crc).
  { subst frame. rewrite <- Hcrc4.
    rewrite !app_assoc. apply last_chars_app. }
  rewrite Hlast. cbn [opt_str_eqb]. rewrite str_eqb_refl. cbn [negb].
  change (slice 12 14 frame ++ slice 10 12 frame) with (lit "0000").
  change (int0x (lit "0000")) with (Ok 0). cbn [bind].
  change (slice 14 16 frame) with [k1; k2].
  assert (Hdata :
    (if Z.of_nat (length data / 2) >? 0
     then slice 16 (16 + Z.to_nat (Z.of_nat (length data / 2) * 2)) frame
     else []) = data).
  { rewrite even_half_double by exact Hev.
    destruct (Z.gtb_spec (Z.of_nat (length data / 2)) 0) as [Hpos | Hz].
    - unfold slice.
      replace (16 + length data - 16)%nat with (length data) by lia.
      change (skipn 16 frame) with (data ++ crc).
      rewrite firstn_app, firstn_all, Nat.sub_diag. cbn [firstn].
      apply app_nil_r.
    - pose proof (even_half_double _ Hev) as Hd.
      assert (Z.of_nat (length data / 2) = 0) by lia.
      rewrite H in Hd. cbn in Hd.
      symmetry in Hd. apply length_zero_iff_nil in Hd. now subst data. }
  rewrite Hdata. reflexivity.
Qed.

(** C1: the frame written by [encodeMsg] always carries sequence number 0.
    Decoding it gives back the payload and the command id, and 0 in the
    place of the sequence number, while the counter that [encodeMsg]
    incremented holds a positive value. *)
Theorem encode_decode_sequence_is_zero (m m0 : SIYIMESSAGE)
  (data cmd_id : str) :
  crc_contract crc16_str_swap ->
  is_hex data = true ->
  Nat.even (length data) = true ->
  Z.of_nat (length data) < 8192 ->
  is_hex cmd_id = true ->
  length cmd_id = 2%nat ->
  0 <= _seq m <= 65535 ->
  (exists m',
     decodeMsg m0 (snd (encodeMsg m data cmd_id)) =
     Ok (m', Some (data, Z.of_nat (length data / 2), cmd_id, 0)))
  /\ _seq (fst (encodeMsg m data cmd_id)) = _seq m + 1
  /\ _seq (fst (encodeMsg m data cmd_id)) <> 0.
Proof.
  intros Hcontract Hdata Hev Hlen Hcmd Hcmd2 Hseq.
  destruct cmd_id as [|k1 [|k2 [|? ?]]]; try discriminate.
  destruct (computeDataLen_even data Hev Hlen)
    as (a & b & c & d & Hcdl & Hval & Hhex).
  assert (Hfront : msg_front data [k1; k2] =
                   lit "556601" ++ [c; d; a; b] ++ lit "0000" ++ [k1; k2]
                   ++ data).
  { unfold msg_front. rewrite Hcdl. reflexivity. }
  destruct (Hcontract (msg_front data [k1; k2])) as (crc & Hcrc & _ & Hcrc4).
  { rewrite Hfront. cbn [lit list_ascii_of_string app is_hex forallb].
    cbn [is_hex forallb] in Hhex, Hcmd.
    destruct (is_hex_char a), (is_hex_char b), (is_hex_char c),
      (is_hex_char d), (is_hex_char k1), (is_hex_char k2);
      try discriminate.
    exact Hdata. }
  { rewrite Hfront. cbn [lit list_ascii_of_string app length Nat.even].
    exact Hev. }
  rewrite (encodeMsg_frame m data [k1; k2] crc Hcrc). cbn [fst snd].
  rewrite incrementSEQ_in_range by exact Hseq. cbn [set_seq _seq].
  split; [|lia].
  eexists. rewrite Hfront. rewrite <- !app_assoc.
  apply decodeMsg_of_encoded; try assumption.
  rewrite <- Hcrc4.
  replace (lit "556601" ++ [c; d; a; b] ++ lit "0000" ++ [k1; k2] ++ data
           ++ crc)
    with ((lit "556601" ++ [c; d; a; b] ++ lit "0000" ++ [k1; k2] ++ data)
          ++ crc) by (now rewrite <- !app_assoc).
  rewrite drop_last_app. now rewrite <- Hfront.
Qed.

(** ** Disconnecting *)

(** The record [_sendControlAngleToGimbal_msg] is assigned by the
    constructor only: no parser writes it, so it never leaves its class
    defaults. *)
Lemma dispatch_keeps_control_angle_record (s s' : SIYISDK) (val : decoded) :
  dispatch s val = Ok s' ->
  _sendControlAngleToGimbal_msg s' = _sendControlAngleToGimbal_msg s.
Proof.
  destruct val as [[[data data_len] cmd_id] seq]. unfold dispatch.
  intros H.
  repeat match type of H with
  | (if ?c then _ else _) = _ => destruct c
  end;
  try discriminate H; injection H as <-; try reflexivity.
  unfold parseGimbalConfigurationInfoMsg. cbv zeta.
  destruct (attempt _ _ _) as [[[r m] d] ok]. reflexivity.
Qed.

(** C7: [disconnect] sets the stop flag, puts every record that the decode
    path writes back to its class defaults, and a second call changes
    nothing.  The one record left alone is the one nothing ever writes. *)
Theorem disconnect_resets_and_idempotent (s : SIYISDK) :
  _stop (disconnect s) = true
  /\ _connected (disconnect s) = false
  /\ cached_records (disconnect s) = sentinel_records
  /\ cached_records (disconnect s) = cached_records (SIYISDK_init (_socket s))
  /\ _sendControlAngleToGimbal_msg (disconnect s)
     = _sendControlAngleToGimbal_msg s
  /\ disconnect (disconnect s) = disconnect s.
Proof. repeat split. Qed.

(** ** The reassembly scan *)

Lemma bufferCallback_loop_S (fuel : nat) (s : SIYISDK) (buff_str : str)
  (frames : list decoded) :
  bufferCallback_loop (S fuel) s buff_str frames =
  if (length buff_str <? MINIMUM_DATA_LENGTH)%nat
  then mkRun Returned s buff_str frames
  else if negb (str_eqb (slice 0 4 buff_str) HEADER)
  then bufferCallback_loop fuel s (skipn 1 buff_str) frames
  else
    match int0x (slice 8 10 buff_str ++ slice 6 8 buff_str) with
    | Raised e => mkRun (Uncaught e) s buff_str frames
    | Ok data_len =>
        let char_len := Z.to_nat (data_len * 2) in
        if (length buff_str <? MINIMUM_DATA_LENGTH + char_len)%nat
        then mkRun Returned s [] frames
        else
          let packet := slice 0 (MINIMUM_DATA_LENGTH + char_len) buff_str in
          let rest := skipn (MINIMUM_DATA_LENGTH + char_len) buff_str in
          match decodeMsg (_in_msg s) packet with
          | Raised e => mkRun (Uncaught e) s rest frames
          | Ok (m, None) =>
              bufferCallback_loop fuel (set_in_msg s m) rest frames
          | Ok (m, Some val) =>
              match dispatch (set_in_msg s m) val with
              | Raised e =>
                  mkRun (Uncaught e) (set_in_msg s m) rest (frames ++ [val])
              | Ok s' => bufferCallback_loop fuel s' rest (frames ++ [val])
              end
          end
    end.
Proof. reflexivity. Qed.

(** A leading mismatch costs one character of text, that is half a
    byte. *)
Lemma scan_drops_one_character (fuel : nat) (s : SIYISDK) (c : ascii)
  (rest : str) (frames : list decoded) :
  (MINIMUM_DATA_LENGTH <= length (c :: rest))%nat ->
  slice 0 4 (c :: rest) <> HEADER ->
  bufferCallback_loop (S fuel) s (c :: rest) frames =
  bufferCallback_loop fuel s rest frames.
Proof.
  intros Hlen Hhd. rewrite bufferCallback_loop_S.
  destruct (Nat.ltb_spec (length (c :: rest)) MINIMUM_DATA_LENGTH); [lia|].
  destruct (str_eqb (slice 0 4 (c :: rest)) HEADER) eqn:E.
  - apply str_eqb_eq in E. contradiction.
  - reflexivity.
Qed.

Lemma scan_partial_frame (fuel : nat) (s : SIYISDK) (buff_str : str)
  (frames : list decoded) (data_len : Z) :
  (MINIMUM_DATA_LENGTH <= length buff_str)%nat ->
  slice 0 4 buff_str = HEADER ->
  int_hex (slice 8 10 buff_str ++ slice 6 8 buff_str) = Some data_len ->
  (length buff_str < MINIMUM_DATA_LENGTH + Z.to_nat (data_len * 2))%nat ->
  bufferCallback_loop (S fuel) s buff_str frames = mkRun Returned s [] frames.
Proof.
  intros Hlen Hhd Hdl Hshort. rewrite bufferCallback_loop_S.
  destruct (Nat.ltb_spec (length buff_str) MINIMUM_DATA_LENGTH); [lia|].
  rewrite Hhd, str_eqb_refl. cbn [negb].
  unfold int0x. rewrite Hdl. cbv zeta.
  destruct (Nat.ltb_spec (length buff_str)
              (MINIMUM_DATA_LENGTH + Z.to_nat (data_len * 2))); [|lia].
  reflexivity.
Qed.

(** What a successful [decodeMsg] says about the text it was given. *)
Lemma decodeMsg_Some_inv (m m' : SIYIMESSAGE) (msg : str) (val : decoded) :
  decodeMsg m msg = Ok (m', Some val) ->
  (MINIMUM_DATA_LENGTH <= length msg)%nat
  /\ int_hex (slice 8 10 msg ++ slice 6 8 msg) = Some (snd (fst (fst val)))
  /\ crc16_str_swap (drop_last 4 msg) = Some (last_chars 4 msg)
  /\ snd (fst val) = slice 14 16 msg.
Proof.
  unfold decodeMsg. intros H.
  destruct (Nat.ltb_spec (length msg) MINIMUM_DATA_LENGTH) as [Hlt | Hge];
    [discriminate|].
  unfold int0x in H.
  destruct (int_hex (slice 8 10 msg ++ slice 6 8 msg)) as [dl|] eqn:Edl;
    [|discriminate].
  cbn [bind] in H.
  destruct (opt_str_eqb (crc16_str_swap (drop_last 4 msg))
              (Some (last_chars 4 msg))) eqn:Ecrc;
    cbn [negb] in H; [|discriminate].
  destruct (int_hex (slice 12 14 msg ++ slice 10 12 msg)) as [sq|] eqn:Esq;
    [|discriminate].
  cbn [bind] in H. injection H as _ Hval. subst val. cbn [fst snd].
  repeat split; try assumption.
  destruct (crc16_str_swap (drop_last 4 msg)) as [c|]; [|discriminate].
  cbn [opt_str_eqb] in Ecrc. apply str_eqb_eq in Ecrc. now subst c.
Qed.

(** A buffer that is exactly one frame: the frame is decoded and handed to
    its parser, and the scan ends with nothing left. *)
Lemma scan_one_frame (fuel : nat) (s : SIYISDK) (hf : str)
  (frames : list decoded) (m' : SIYIMESSAGE) (val : decoded) :
  slice 0 4 hf = HEADER ->
  decodeMsg (_in_msg s) hf = Ok (m', Some val) ->
  length hf = (MINIMUM_DATA_LENGTH + Z.to_nat (snd (fst (fst val)) * 2))%nat ->
  bufferCallback_loop (S (S fuel)) s hf frames =
  match dispatch (set_in_msg s m') val with
  | Raised e => mkRun (Uncaught e) (set_in_msg s m') [] (frames ++ [val])
  | Ok s' => mkRun Returned s' [] (frames ++ [val])
  end.
Proof.
  intros Hhd Hdec Hlen.
  destruct (decodeMsg_Some_inv _ _ _ _ Hdec) as (Hmin & Hdl & _ & _).
  rewrite bufferCallback_loop_S.
  destruct (Nat.ltb_spec (length hf) MINIMUM_DATA_LENGTH); [lia|].
  rewrite Hhd, str_eqb_refl. cbn [negb].
  unfold int0x. rewrite Hdl. cbv zeta.
  rewrite <- Hlen. rewrite Nat.ltb_irrefl.
  unfold slice. rewrite Nat.sub_0_r. cbn [skipn].
  rewrite firstn_all, skipn_all, Hdec.
  destruct (dispatch (set_in_msg s m') val) as [s'|e]; reflexivity.
Qed.

Lemma has_header_cons (c : ascii) (t : str) :
  has_header (c :: t) = false ->
  str_eqb (slice 0 4 (c :: t)) HEADER = false /\ has_header t = false.
Proof. cbn [has_header]. intros H. now apply orb_false_iff in H. Qed.

(** The marker cannot start inside the garbage and end inside the frame's
    own marker. *)
Lemma no_header_across (c : ascii) (t rest : str) :
  str_eqb (slice 0 4 (c :: t)) HEADER = false ->
  slice 0 4 (c :: t ++ HEADER ++ rest) <> HEADER.
Proof.
  intros Hno Heq.
  destruct t as [|a [|b [|d t]]].
  - cbv in Heq. congruence.
  - cbv in Heq. congruence.
  - cbv in Heq. congruence.
  - assert (Hs : slice 0 4 (c :: (a :: b :: d :: t) ++ HEADER ++ rest)
                 = slice 0 4 (c :: a :: b :: d :: t)) by reflexivity.
    rewrite Hs in Heq. rewrite Heq, str_eqb_refl in Hno. discriminate.
Qed.

Lemma scan_skips_garbage (hg : str) :
  forall fuel s rest frames,
    has_header hg = false ->
    (16 <= length rest)%nat ->
    bufferCallback_loop (length hg + fuel) s (hg ++ HEADER ++ rest) frames =
    bufferCallback_loop fuel s (HEADER ++ rest) frames.
Proof.
  induction hg as [|c t IH]; intros fuel s rest frames Hno Hlen;
    [reflexivity|].
  apply has_header_cons in Hno as [Hc Ht].
  cbn [length Nat.add app]. rewrite scan_drops_one_character.
  - now apply IH.
  - cbn [length]. rewrite !length_app. cbn [HEADER lit length
      list_ascii_of_string]. unfold MINIMUM_DATA_LENGTH. lia.
  - now apply no_header_across.
Qed.

Lemma header_prefix (hf : str) :
  slice 0 4 hf = HEADER -> hf = HEADER ++ skipn 4 hf.
Proof.
  intros H. rewrite <- H. unfold slice. cbn [Nat.sub skipn].
  symmetry. apply (firstn_skipn 4 hf).
Qed.

Lemma scan_short_buffer (fuel : nat) (s : SIYISDK) (buff_str : str)
  (frames : list decoded) :
  (length buff_str < MINIMUM_DATA_LENGTH)%nat ->
  bufferCallback_loop (S fuel) s buff_str frames =
  mkRun Returned s buff_str frames.
Proof.
  intros H. rewrite bufferCallback_loop_S.
  destruct (Nat.ltb_spec (length buff_str) MINIMUM_DATA_LENGTH); [|lia].
  reflexivity.
Qed.

(** Garbage free of the marker text, then one frame. *)
Lemma scan_garbage_then_frame (s : SIYISDK) (hg hf : str)
  (m' : SIYIMESSAGE) (val : decoded) :
  has_header hg = false ->
  slice 0 4 hf = HEADER ->
  decodeMsg (_in_msg s) hf = Ok (m', Some val) ->
  length hf = (MINIMUM_DATA_LENGTH + Z.to_nat (snd (fst (fst val)) * 2))%nat ->
  bufferCallback_loop (S (length (hg ++ hf))) s (hg ++ hf) [] =
  match dispatch (set_in_msg s m') val with
  | Raised e => mkRun (Uncaught e) (set_in_msg s m') [] [val]
  | Ok s' => mkRun Returned s' [] [val]
  end.
Proof.
  intros Hno Hhd Hdec Hlen.
  assert (Hmin : (MINIMUM_DATA_LENGTH <= length hf)%nat) by lia.
  unfold MINIMUM_DATA_LENGTH in Hmin.
  rewrite length_app.
  replace (S (length hg + length hf))
    with (length hg + S (S (length hf - 1)))%nat by lia.
  pose proof (header_prefix hf Hhd) as Hsplit.
  assert (Hrest : (16 <= length (skipn 4 hf))%nat)
    by (rewrite length_skipn; lia).
  transitivity
    (bufferCallback_loop (length hg + S (S (length hf - 1))) s
       (hg ++ HEADER ++ skipn 4 hf) []).
  { now rewrite <- Hsplit. }
  rewrite scan_skips_garbage by assumption.
  rewrite <- Hsplit.
  apply (scan_one_frame _ s hf [] m' val Hhd Hdec Hlen).
Qed.

Lemma frame_text_length (frame : list byte) (data_len : Z) :
  (MINIMUM_DATA_LENGTH <= length (hex_of_bytes frame))%nat ->
  Z.of_nat (length frame) = 10 + data_len ->
  length (hex_of_bytes frame) =
  (MINIMUM_DATA_LENGTH + Z.to_nat (data_len * 2))%nat.
Proof.
  rewrite hex_of_bytes_length. unfold MINIMUM_DATA_LENGTH. lia.
Qed.

(** *** Where the scan can end *)

(** The fuel [bufferCallback] starts with is never used up: every pass
    shortens the text. *)
Lemma bufferCallback_loop_fuel (fuel : nat) :
  forall s buff_str frames,
    (length buff_str < fuel)%nat ->
    run_status (bufferCallback_loop fuel s buff_str frames) <> OutOfFuel.
Proof.
  induction fuel as [|fuel IH]; intros s buff_str frames Hlen; [lia|].
  rewrite bufferCallback_loop_S.
  destruct (Nat.ltb_spec (length buff_str) MINIMUM_DATA_LENGTH) as [|Hmin];
    [discriminate|].
  unfold MINIMUM_DATA_LENGTH in Hmin.
  destruct (negb (str_eqb (slice 0 4 buff_str) HEADER)).
  { apply IH. rewrite length_skipn. lia. }
  destruct (int0x (slice 8 10 buff_str ++ slice 6 8 buff_str))
    as [data_len|e]; [|discriminate].
  cbv zeta.
  destruct (Nat.ltb_spec (length buff_str)
              (MINIMUM_DATA_LENGTH + Z.to_nat (data_len * 2)));
    [discriminate|].
  assert (Hrest : (length (skipn (MINIMUM_DATA_LENGTH
                                  + Z.to_nat (data_len * 2)) buff_str)
                   < fuel)%nat).
  { rewrite length_skipn. unfold MINIMUM_DATA_LENGTH. lia. }
  destruct (decodeMsg (_in_msg s) _) as [[m [val|]]|e]; [| |discriminate].
  - destruct (dispatch (set_in_msg s m) val); [|discriminate].
    now apply IH.
  - now apply IH.
Qed.

Lemma bufferCallback_terminates (s : SIYISDK) (buff : list byte) :
  run_status (bufferCallback s buff) <> OutOfFuel.
Proof. apply bufferCallback_loop_fuel. lia. Qed.

(** The parsers with a [try] never raise; the two stubs always do. *)
Lemma dispatch_raises_only_from_stubs (s : SIYISDK) (data cmd_id : str)
  (data_len seq : Z) (e : exn) :
  dispatch s (data, data_len, cmd_id, seq) = Raised e ->
  e = TypeError
  /\ (cmd_id = COMMAND.PHOTO_AND_RECORD
      \/ cmd_id = COMMAND.REQUEST_GIMBAL_CAMERA_PRESENT_WORKING_MODE).
Proof.
  unfold dispatch. intros H.
  repeat match type of H with
  | (if str_eqb cmd_id ?c then _ else _) = _ =>
      let E := fresh "E" in
      destruct (str_eqb cmd_id c) eqn:E;
      [first
         [discriminate H
         |apply str_eqb_eq in E;
          cbn [bind parsePhotoAndRecordMsg
                 parseRequestPresentWorkingModeMsg] in H;
          injection H as <-; split; [reflexivity | tauto]] |]
  end.
  discriminate H.
Qed.

Lemma is_hex_firstn (n : nat) (s : str) :
  is_hex s = true -> is_hex (firstn n s) = true.
Proof.
  revert s; induction n as [|n IH]; intros [|c s] H; try reflexivity.
  cbn [is_hex forallb firstn] in *.
  apply andb_true_iff in H as [Hc Hs]. rewrite Hc. now apply IH.
Qed.

Lemma is_hex_skipn (n : nat) (s : str) :
  is_hex s = true -> is_hex (skipn n s) = true.
Proof.
  revert s; induction n as [|n IH]; intros [|c s] H; try assumption.
  cbn [is_hex forallb skipn] in *.
  apply andb_true_iff in H as [_ Hs]. now apply IH.
Qed.

Lemma is_hex_slice (a b : nat) (s : str) :
  is_hex s = true -> is_hex (slice a b s) = true.
Proof. intros H. unfold slice. now apply is_hex_firstn, is_hex_skipn. Qed.

Lemma is_hex_of_bytes (b : list byte) : is_hex (hex_of_bytes b) = true.
Proof.
  induction b as [|c b IH]; [reflexivity|].
  rewrite hex_of_bytes_cons. cbn [is_hex forallb].
  now rewrite !is_hex_char_digit.
Qed.

Lemma int_from_hex (t : str) :
  is_hex t = true -> forall acc, exists v, int_from acc t = Some v.
Proof.
  induction t as [|c t IH]; intros H acc; [now exists acc|].
  cbn [is_hex forallb] in H. apply andb_true_iff in H as [Hc Ht].
  unfold is_hex_char in Hc. cbn [int_from].
  destruct (hex_val c); [now apply IH | discriminate].
Qed.

(** On hexadecimal text of frame size the two-byte fields always read. *)
Lemma int0x_field (a b c d : nat) (msg : str) :
  is_hex msg = true -> (a < b)%nat -> (b <= length msg)%nat ->
  exists v, int0x (slice a b msg ++ slice c d msg) = Ok v.
Proof.
  intros Hhex Hab Hlen. unfold int0x, int_hex.
  assert (Hne : slice a b msg ++ slice c d msg <> []).
  { intros Hnil. apply app_eq_nil in Hnil as [Hnil _].
    apply (f_equal (@length ascii)) in Hnil. unfold slice in Hnil.
    rewrite length_firstn, length_skipn in Hnil. cbn in Hnil. lia. }
  destruct (int_from_hex (slice a b msg ++ slice c d msg)) with (acc := 0)
    as [v Hv].
  { rewrite is_hex_app. now rewrite !is_hex_slice. }
  destruct (slice a b msg ++ slice c d msg); [congruence|].
  rewrite Hv. now exists v.
Qed.

Lemma decodeMsg_hex_returns (m : SIYIMESSAGE) (msg : str) :
  is_hex msg = true -> exists r, decodeMsg m msg = Ok r.
Proof.
  intros Hhex. unfold decodeMsg.
  destruct (Nat.ltb_spec (length msg) MINIMUM_DATA_LENGTH) as [|Hmin];
    [now eexists|].
  unfold MINIMUM_DATA_LENGTH in Hmin.
  destruct (int0x_field 8 10 6 8 msg Hhex) as [dl Hdl]; [lia | lia |].
  rewrite Hdl. cbn [bind].
  destruct (negb _); [now eexists|].
  destruct (int0x_field 12 14 10 12 msg Hhex) as [sq Hsq]; [lia | lia |].
  rewrite Hsq. cbn [bind]. now eexists.
Qed.

(** On the text of a datagram the only exception that leaves the scan is
    the [TypeError] of the two stubs. *)
Lemma bufferCallback_loop_uncaught (fuel : nat) :
  forall s buff_str frames e,
    is_hex buff_str = true ->
    run_status (bufferCallback_loop fuel s buff_str frames) = Uncaught e ->
    e = TypeError.
Proof.
  induction fuel as [|fuel IH]; intros s buff_str frames e Hhex;
    [discriminate|].
  rewrite bufferCallback_loop_S.
  destruct (Nat.ltb_spec (length buff_str) MINIMUM_DATA_LENGTH) as [|Hmin];
    [discriminate|].
  unfold MINIMUM_DATA_LENGTH in Hmin.
  destruct (negb (str_eqb (slice 0 4 buff_str) HEADER)).
  { apply IH. now apply is_hex_skipn. }
  destruct (int0x_field 8 10 6 8 buff_str Hhex) as [dl Hdl]; [lia | lia |].
  rewrite Hdl. cbv zeta.
  destruct (Nat.ltb_spec (length buff_str)
              (MINIMUM_DATA_LENGTH + Z.to_nat (dl * 2)));
    [discriminate|].
  destruct (decodeMsg_hex_returns (_in_msg s)
              (slice 0 (MINIMUM_DATA_LENGTH + Z.to_nat (dl * 2)) buff_str))
    as [[m [val|]] Hdec]; [now apply is_hex_slice | |]; rewrite Hdec.
  - destruct val as [[[data data_len] cmd_id] seq].
    destruct (dispatch (set_in_msg s m) (data, data_len, cmd_id, seq))
      eqn:Ed.
    + apply IH. now apply is_hex_skipn.
    + cbn [run_status]. intros Hrun. injection Hrun as <-.
      now apply dispatch_raises_only_from_stubs in Ed.
  - apply IH. now apply is_hex_skipn.
Qed.

Lemma bufferCallback_uncaught_is_TypeError (s : SIYISDK) (buff : list byte)
  (e : exn) :
  run_status (bufferCallback s buff) = Uncaught e -> e = TypeError.
Proof. apply bufferCallback_loop_uncaught, is_hex_of_bytes. Qed.
(** *** The claims about the scan *)

(** C2 (amended): a buffer that starts with the marker and declares more
    payload than it holds yields no frame and leaves the session as it
    was; the data is not kept: once the 10-byte minimum is present the
    buffer is emptied. *)
Theorem partial_frame_is_dropped (s : SIYISDK) (ctrl lo hi : byte)
  (rest : list byte) :
  let buff := x55 :: x66 :: ctrl :: lo :: hi :: rest in
  Z.of_nat (length buff) < 10 + (byte_val hi * 256 + byte_val lo) ->
  run_status (bufferCallback s buff) = Returned
  /\ run_frames (bufferCallback s buff) = []
  /\ run_st (bufferCallback s buff) = s
  /\ ((10 <= length buff)%nat -> run_buff (bufferCallback s buff) = []).
Proof.
  intros buff Hshort. unfold bufferCallback.
  destruct (Nat.lt_ge_cases (length (hex_of_bytes buff))
              MINIMUM_DATA_LENGTH) as [Hlt | Hge].
  - rewrite scan_short_buffer by exact Hlt. cbn [run_status run_frames
      run_st run_buff]. repeat split.
    rewrite hex_of_bytes_length in Hlt. unfold MINIMUM_DATA_LENGTH in Hlt.
    lia.
  - rewrite (scan_partial_frame _ s (hex_of_bytes buff) []
               (byte_val hi * 256 + byte_val lo)).
    + repeat split.
    + exact Hge.
    + reflexivity.
    + subst buff. rewrite !hex_of_bytes_cons.
      change (int_hex (hex_digit (byte_val hi / 16)
                       :: hex_digit (byte_val hi mod 16)
                       :: hex_digit (byte_val lo / 16)
                       :: hex_digit (byte_val lo mod 16) :: [])
              = Some (byte_val hi * 256 + byte_val lo)).
      unfold int_hex.
      rewrite !int_from_byte by apply byte_val_range.
      reflexivity.
    + rewrite hex_of_bytes_length. unfold MINIMUM_DATA_LENGTH.
      pose proof (byte_val_range hi). pose proof (byte_val_range lo). lia.
Qed.

(** C4: a well-formed frame whose command id is PHOTO_AND_RECORD or
    REQUEST_GIMBAL_CAMERA_PRESENT_WORKING_MODE makes [bufferCallback] end
    with an uncaught [TypeError]. *)
Theorem unimplemented_parsers_raise_out_of_bufferCallback (s : SIYISDK)
  (frame : list byte) (m' : SIYIMESSAGE) (data cmd_id : str)
  (data_len seq : Z) :
  slice 0 4 (hex_of_bytes frame) = HEADER ->
  decodeMsg (_in_msg s) (hex_of_bytes frame) =
    Ok (m', Some (data, data_len, cmd_id, seq)) ->
  Z.of_nat (length frame) = 10 + data_len ->
  cmd_id = COMMAND.PHOTO_AND_RECORD
  \/ cmd_id = COMMAND.REQUEST_GIMBAL_CAMERA_PRESENT_WORKING_MODE ->
  run_status (bufferCallback s frame) = Uncaught TypeError.
Proof.
  intros Hhd Hdec Hlen Hcmd. unfold bufferCallback.
  destruct (decodeMsg_Some_inv _ _ _ _ Hdec) as (Hmin & _).
  pose proof (frame_text_length frame data_len Hmin Hlen) as Htl.
  pose proof (scan_garbage_then_frame s [] (hex_of_bytes frame) m' _
                eq_refl Hhd Hdec Htl) as Hrun.
  cbn [app] in Hrun. rewrite Hrun.
  destruct Hcmd as [-> | ->]; reflexivity.
Qed.

(** C5 (amended): on a mismatch the scan drops one character of the
    hexadecimal text, that is half a byte, and retries.  When the text of
    the garbage contains the marker ["5566"] at no character offset, the
    scan reaches the frame that follows and decodes exactly that frame,
    leaving nothing behind. *)
Theorem resync_skips_marker_free_garbage (s : SIYISDK)
  (garbage frame : list byte) (m' : SIYIMESSAGE) (val : decoded) :
  has_header (hex_of_bytes garbage) = false ->
  slice 0 4 (hex_of_bytes frame) = HEADER ->
  decodeMsg (_in_msg s) (hex_of_bytes frame) = Ok (m', Some val) ->
  Z.of_nat (length frame) = 10 + snd (fst (fst val)) ->
  run_frames (bufferCallback s (garbage ++ frame)) = [val]
  /\ run_buff (bufferCallback s (garbage ++ frame)) = []
  /\ run_status (bufferCallback s (garbage ++ frame)) <> OutOfFuel
  /\ (forall fuel c rest frames,
        (MINIMUM_DATA_LENGTH <= length (c :: rest))%nat ->
        slice 0 4 (c :: rest) <> HEADER ->
        bufferCallback_loop (S fuel) s (c :: rest) frames =
        bufferCallback_loop fuel s rest frames).
Proof.
  intros Hno Hhd Hdec Hlen.
  pose proof (bufferCallback_terminates s (garbage ++ frame)) as Hterm.
  unfold bufferCallback in *.
  destruct (decodeMsg_Some_inv _ _ _ _ Hdec) as (Hmin & _).
  pose proof (frame_text_length frame _ Hmin Hlen) as Htl.
  rewrite hex_of_bytes_app in *.
  rewrite (scan_garbage_then_frame s _ _ m' val Hno Hhd Hdec Htl).
  split; [|split; [|split]].
  - destruct (dispatch (set_in_msg s m') val); reflexivity.
  - destruct (dispatch (set_in_msg s m') val); reflexivity.
  - destruct (dispatch (set_in_msg s m') val); discriminate.
  - intros fuel c rest frames. apply scan_drops_one_character.
Qed.


(** ** Sending *)

Lemma send_encoded (s : SIYISDK) (data cmd_id c : str) (b : list byte) :
  crc16_str_swap (msg_front data cmd_id) = Some c ->
  fromhex (msg_front data cmd_id ++ c) = Some b ->
  (let '(m, msg) := encodeMsg (_out_msg s) data cmd_id in
   sendMsg (set_out_msg s m) msg) = Ok (after_send s b).
Proof.
  intros Hc Hb. rewrite (encodeMsg_frame _ data cmd_id c Hc).
  unfold sendMsg, after_send. rewrite Hb. cbn [_socket set_out_msg].
  destruct (sendto_fails (_socket s)); reflexivity.
Qed.

(** Under the checksum contract every fixed request goes out. *)
Lemma encoded_request_bytes (data cmd_id : str) :
  crc_contract crc16_str_swap ->
  is_hex (msg_front data cmd_id) = true ->
  Nat.even (length (msg_front data cmd_id)) = true ->
  exists c b,
    crc16_str_swap (msg_front data cmd_id) = Some c
    /\ fromhex (msg_front data cmd_id ++ c) = Some b
    /\ forall m, snd (encodeMsg m data cmd_id) = msg_front data cmd_id ++ c.
Proof.
  intros Hcontract Hhex Hev.
  destruct (Hcontract _ Hhex Hev) as (c & Hc & Hch & Hc4).
  destruct (fromhex_total (msg_front data cmd_id ++ c)) as [b Hb].
  - now rewrite is_hex_app, Hhex, Hch.
  - rewrite length_app, Hc4, Nat.add_comm. exact Hev.
  - exists c, b. repeat split; try assumption.
    intros m. now rewrite (encodeMsg_frame m data cmd_id c Hc).
Qed.

Lemma after_send_sent (s : SIYISDK) (b : list byte) :
  sent (_socket (fst (after_send s b))) =
  if sendto_fails (_socket s) then sent (_socket s)
  else sent (_socket s) ++ [b].
Proof. unfold after_send. now destruct (sendto_fails (_socket s)). Qed.

Lemma after_send_fails (s : SIYISDK) (b : list byte) :
  sendto_fails (_socket (fst (after_send s b))) = sendto_fails (_socket s).
Proof.
  unfold after_send. now destruct (sendto_fails (_socket s)) eqn:E.
Qed.

Lemma after_send_att (s : SIYISDK) (b : list byte) :
  _att_msg (fst (after_send s b)) = _att_msg s
  /\ _last_att_seq (fst (after_send s b)) = _last_att_seq s.
Proof. unfold after_send. now destruct (sendto_fails (_socket s)). Qed.

(** ** The rotation controller *)

(** The two fixed frames of the loop, as text before the checksum:
    marker 5566, control byte 01, payload length (two bytes, low byte
    first), sequence 0000, command id, payload.  The attitude request is
    command 0d with no payload; the speed command with both speeds zero
    is command 07 with the payload 0000. *)
Lemma attitude_request_frame :
  crc_contract crc16_str_swap ->
  exists c b,
    crc16_str_swap (lit "556601000000000d") = Some c
    /\ fromhex (lit "556601000000000d" ++ c) = Some b
    /\ forall s, requestGimbalAttitude s = Ok (after_send s b).
Proof.
  intros Hcontract.
  destruct (encoded_request_bytes [] COMMAND.REQUEST_GIMBAL_ATTITUDE
              Hcontract eq_refl eq_refl) as (c & b & Hc & Hb & _).
  exists c, b. split; [exact Hc|]. split; [exact Hb|].
  intros s. apply (send_encoded s _ _ c b Hc Hb).
Qed.


(** The center command is command 08 with the payload 01. *)
Lemma center_frame :
  crc_contract crc16_str_swap ->
  exists c b,
    crc16_str_swap (lit "556601010000000801") = Some c
    /\ fromhex (lit "556601010000000801" ++ c) = Some b
    /\ forall s, requestCenterGimbal s = Ok (after_send s b).
Proof.
  intros Hcontract.
  destruct (encoded_request_bytes (lit "01") COMMAND.CENTER
              Hcontract eq_refl eq_refl) as (c & b & Hc & Hb & _).
  exists c, b. split; [exact Hc|]. split; [exact Hb|].
  intros s. unfold requestCenterGimbal, centerGimbalMsg.
  apply (send_encoded s _ _ c b Hc Hb).
Qed.


(** A float that compares equal to zero passes both range tests. *)
Lemma zero_passes_the_range_tests (x : float) :
  (x =? 0)%float = true ->
  ((25 <? x) || (x <? -90))%float = false
  /\ ((270 <? x) || (x <? -270))%float = false.
Proof.
  intros H. rewrite FloatAxioms.eqb_spec in H.
  assert (Hz : exists sign, Prim2SF x = S754_zero sign).
  { replace (Prim2SF 0) with (S754_zero false) in H
      by (vm_compute; reflexivity).
    destruct (Prim2SF x) as [sign | sign | | sign m e].
    - now exists sign.
    - destruct sign; discriminate H.
    - discriminate H.
    - destruct sign; discriminate H. }
  destruct Hz as [sign Hz]. rewrite !ltb_spec, Hz.
  destruct sign; vm_compute; split; reflexivity.
Qed.

(** C9: a target whose pitch or yaw fails the range test is rejected:
    the call returns with the session untouched, so nothing is sent and
    the loop is not entered.  A target equal to (0, 0) makes the call
    send one datagram, the center command (command 08, payload 01), and
    return, again without the loop. *)
Theorem setGimbalRotation_guards (s : SIYISDK)
  (yaw pitch err_thresh kp : float) :
  (((25 <? pitch) || (pitch <? -90) || (270 <? yaw) || (yaw <? -270))%float
   = true ->
   exists e,
     (e = RejectedPitch \/ e = RejectedYaw)
     /\ forall fuel world,
          setGimbalRotation fuel world s yaw pitch err_thresh kp =
          Ok (s, e))
  /\ (crc_contract crc16_str_swap ->
      (yaw =? 0)%float = true -> (pitch =? 0)%float = true ->
      exists s' c b,
        (forall fuel world,
           setGimbalRotation fuel world s yaw pitch err_thresh kp =
           Ok (s', Centered))
        /\ requestCenterGimbal s = Ok (s', negb (sendto_fails (_socket s)))
        /\ crc16_str_swap (lit "556601010000000801") = Some c
        /\ fromhex (lit "556601010000000801" ++ c) = Some b
        /\ sent (_socket s') =
           (if sendto_fails (_socket s) then sent (_socket s)
            else sent (_socket s) ++ [b])).
Proof.
  split.
  - intros Hout. unfold setGimbalRotation.
    destruct ((25 <? pitch) || (pitch <? -90))%float eqn:Ep.
    + exists RejectedPitch. split; [now left | reflexivity].
    + exists RejectedYaw. split; [now right|]. intros fuel world.
      cbn [orb] in Hout. now rewrite Hout.
  - intros Hcontract Hyaw Hpitch.
    destruct (center_frame Hcontract) as (c & b & Hc & Hb & Hreq).
    exists (fst (after_send s b)), c, b.
    split.
    { intros fuel world. unfold setGimbalRotation.
      rewrite (proj1 (zero_passes_the_range_tests pitch Hpitch)).
      rewrite (proj2 (zero_passes_the_range_tests yaw Hyaw)).
      rewrite Hyaw, Hpitch. cbn [andb]. rewrite Hreq. reflexivity. }
    split.
    { rewrite Hreq. unfold after_send.
      now destruct (sendto_fails (_socket s)). }
    split; [exact Hc|]. split; [exact Hb|].
    apply after_send_sent.
Qed.

(** * Further properties of the code *)

(** ** utils.py: widths and wrap-around *)

Lemma format_x_aux_length_ge (fuel : nat) :
  forall k n acc, 16 ^ Z.of_nat k <= n < 2 ^ Z.of_nat fuel ->
    (k + 1 + length acc <= length (format_x_aux fuel n acc))%nat.
Proof.
  induction fuel as [|fuel IH]; intros k n acc [Hlo Hhi].
  - pose proof (Z.pow_pos_nonneg 16 (Z.of_nat k) ltac:(lia) ltac:(lia)).
    change (2 ^ Z.of_nat 0) with 1 in Hhi. lia.
  - cbn [format_x_aux].
    assert (Hpos : 0 < 16 ^ Z.of_nat k)
      by (apply Z.pow_pos_nonneg; lia).
    rewrite Nat2Z.inj_succ, Z.pow_succ_r in Hhi by lia.
    destruct (Z.eqb_spec (n / 16) 0) as [Hz | Hnz].
    + assert (n < 16).
      { pose proof (Z.div_mod n 16 ltac:(lia)).
        pose proof (Z.mod_pos_bound n 16 ltac:(lia)). lia. }
      destruct k as [|k]; [cbn [length]; lia|].
      rewrite Nat2Z.inj_succ, Z.pow_succ_r in Hlo by lia.
      pose proof (Z.pow_pos_nonneg 16 (Z.of_nat k) ltac:(lia) ltac:(lia)).
      lia.
    + assert (Hq : 0 <= n / 16) by (apply Z.div_pos; lia).
      assert (Hqhi : n / 16 < 2 ^ Z.of_nat fuel)
        by (apply Z.div_lt_upper_bound; lia).
      destruct k as [|k].
      * specialize (IH O (n / 16) (hex_digit (n mod 16) :: acc)).
        cbn [length] in IH. change (16 ^ Z.of_nat 0) with 1 in IH.
        specialize (IH ltac:(lia)). lia.
      * specialize (IH k (n / 16) (hex_digit (n mod 16) :: acc)).
        cbn [length] in IH.
        rewrite Nat2Z.inj_succ, Z.pow_succ_r in Hlo by lia.
        assert (16 ^ Z.of_nat k <= n / 16)
          by (apply Z.div_le_lower_bound; lia).
        specialize (IH ltac:(lia)). lia.
Qed.

(** The number of digits [format(n, 'x')] writes. *)
Lemma format_x_digits (k : nat) (n : Z) :
  16 ^ Z.of_nat k <= n < 16 ^ Z.of_nat (S k) ->
  length (format_x n) = S k.
Proof.
  intros [Hlo Hhi].
  assert (Hpos : 0 < 16 ^ Z.of_nat k) by (apply Z.pow_pos_nonneg; lia).
  pose proof (format_x_length (S k) n ltac:(lia) ltac:(lia)) as Hle.
  assert (Hfuel : n < 2 ^ Z.of_nat (S (Z.to_nat (Z.log2 n)))).
  { rewrite Nat2Z.inj_succ, Z2Nat.id by apply Z.log2_nonneg.
    apply Z.log2_spec; lia. }
  pose proof (format_x_aux_length_ge (S (Z.to_nat (Z.log2 n))) k n []
                (conj Hlo Hfuel)) as Hge.
  cbn [length] in Hge. unfold format_x in *. lia.
Qed.

Lemma format_x_one_digit (n : Z) :
  0 <= n < 16 -> length (format_x n) = 1%nat.
Proof.
  intros Hn. pose proof (format_x_length 1 n ltac:(lia)) as H.
  change (16 ^ Z.of_nat 1) with 16 in H. specialize (H Hn). lia.
Qed.

Lemma is_hex_toHex (v nbits : Z) : is_hex (toHex v nbits) = true.
Proof.
  unfold toHex.
  pose proof (is_hex_format_x ((v + Z.shiftl 1 nbits) mod Z.shiftl 1 nbits))
    as H.
  repeat match goal with
  | |- context [if ?c then _ else _] => destruct c
  end; try exact H; rewrite is_hex_app, H; reflexivity.
Qed.

Lemma toHex_8_length (v : Z) : length (toHex v 8) = 2%nat.
Proof.
  unfold toHex. change (Z.shiftl 1 8) with 256.
  set (u := (v + 256) mod 256).
  assert (Hu : 0 <= u < 256) by (apply Z.mod_pos_bound; lia).
  destruct (Z_lt_le_dec u 16) as [Hs | Hb].
  - pose proof (format_x_one_digit u ltac:(lia)) as Hd.
    remember (format_x u) as h. rewrite Hd. cbn. now rewrite Hd.
  - assert (Hd : length (format_x u) = 2%nat).
    { apply (format_x_digits 1 u). change (16 ^ Z.of_nat 1) with 16.
      change (16 ^ Z.of_nat 2) with 256. lia. }
    remember (format_x u) as h. rewrite Hd. cbn. exact Hd.
Qed.

Lemma toHex_16_length (v : Z) : length (toHex v 16) = 4%nat.
Proof.
  unfold toHex. change (Z.shiftl 1 16) with 65536.
  set (u := (v + 65536) mod 65536).
  assert (Hu : 0 <= u < 65536) by (apply Z.mod_pos_bound; lia).
  destruct (Z_lt_le_dec u 16) as [H1 | H1].
  { pose proof (format_x_one_digit u ltac:(lia)) as Hd.
    remember (format_x u) as h. rewrite Hd. cbn. now rewrite Hd. }
  destruct (Z_lt_le_dec u 256) as [H2 | H2].
  { assert (Hd : length (format_x u) = 2%nat).
    { apply (format_x_digits 1 u). change (16 ^ Z.of_nat 1) with 16.
      change (16 ^ Z.of_nat 2) with 256. lia. }
    remember (format_x u) as h. rewrite Hd. cbn. now rewrite Hd. }
  destruct (Z_lt_le_dec u 4096) as [H3 | H3].
  { assert (Hd : length (format_x u) = 3%nat).
    { apply (format_x_digits 2 u). change (16 ^ Z.of_nat 2) with 256.
      change (16 ^ Z.of_nat 3) with 4096. lia. }
    remember (format_x u) as h. rewrite Hd. cbn. now rewrite Hd. }
  assert (Hd : length (format_x u) = 4%nat).
  { apply (format_x_digits 3 u). change (16 ^ Z.of_nat 3) with 4096.
    change (16 ^ Z.of_nat 4) with 65536. lia. }
  remember (format_x u) as h. rewrite Hd. cbn. exact Hd.
Qed.

(** X1: whatever the integer, [toHex] writes exactly two hexadecimal
    characters for 8 bits and exactly four for 16 bits. *)
Theorem toHex_fixed_width (v : Z) :
  length (toHex v 8) = 2%nat /\ is_hex (toHex v 8) = true
  /\ length (toHex v 16) = 4%nat /\ is_hex (toHex v 16) = true.
Proof.
  repeat split;
    auto using toHex_8_length, toHex_16_length, is_hex_toHex.
Qed.

(** X2: [toInt] reads the 8-bit text of [toHex] as an unsigned byte: a
    negative speed such as -100 comes back as 156, never as -100. *)
Theorem toInt_toHex_8_is_unsigned (v : Z) :
  toInt (toHex v 8) = Some ((v + 256) mod 256)
  /\ 0 <= (v + 256) mod 256 < 256.
Proof.
  assert (Hu : 0 <= (v + 256) mod 256 < 256)
    by (apply Z.mod_pos_bound; lia).
  split; [|exact Hu]. unfold toInt.
  rewrite int_hex_toHex by lia. change (2 ^ 8) with 256.
  change (Z.shiftl 1 (16 - 1)) with 32768.
  rewrite land_bit15 by lia.
  destruct (Z.ltb_spec ((v + 256) mod 256) 32768); [reflexivity | lia].
Qed.

(** X3: for every integer, in range or not, reading back the 16-bit text
    of [toHex] gives the value wrapped into [-32768, 32767]. *)
Theorem toInt_toHex_16_wraps (v : Z) :
  toInt (toHex v 16) = Some ((v + 32768) mod 65536 - 32768).
Proof.
  unfold toInt. rewrite int_hex_toHex by lia.
  change (2 ^ 16) with 65536. change (Z.shiftl 1 (16 - 1)) with 32768.
  change (Z.shiftl 1 16) with 65536.
  set (u := (v + 65536) mod 65536). set (w := (v + 32768) mod 65536).
  assert (Hu : 0 <= u < 65536) by (apply Z.mod_pos_bound; lia).
  assert (Hw : 0 <= w < 65536) by (apply Z.mod_pos_bound; lia).
  pose proof (Z.div_mod (v + 65536) 65536 ltac:(lia)) as Eu.
  pose proof (Z.div_mod (v + 32768) 65536 ltac:(lia)) as Ew.
  fold u in Eu. fold w in Ew.
  rewrite land_bit15 by exact Hu.
  destruct (Z.ltb_spec u 32768); cbn [negb]; f_equal; lia.
Qed.

(** ** siyi_message.py: the length field, the counter, decoding *)

Lemma computeDataLen_odd_pad (data : str) :
  Nat.even (length data) = false ->
  computeDataLen data = computeDataLen ("0"%char :: data).
Proof.
  intros Hodd. unfold computeDataLen.
  assert (H1 : (length data mod 2 =? 0)%nat = false).
  { apply Nat.eqb_neq. intros H0.
    assert (Nat.even (length data) = true); [|congruence].
    apply Nat.even_spec. exists (length data / 2)%nat.
    pose proof (Nat.div_mod_eq (length data) 2). lia. }
  assert (H2 : (length ("0"%char :: data) mod 2 =? 0)%nat = true).
  { apply Nat.eqb_eq. cbn [length].
    assert (Hev : Nat.even (S (length data)) = true)
      by (rewrite Nat.even_succ, <- Nat.negb_even, Hodd; reflexivity).
    apply Nat.even_spec in Hev as [k Hk]. rewrite Hk.
    rewrite Nat.mul_comm. apply Nat.Div0.mod_mul. }
  rewrite H1, H2. reflexivity.
Qed.

Lemma half_up_even (n : nat) :
  Nat.even n = true -> ((n + 1) / 2 = n / 2)%nat.
Proof.
  intros Hev. apply Nat.even_spec in Hev as [k ->].
  replace (2 * k + 1)%nat with (1 + k * 2)%nat by lia.
  rewrite Nat.div_add by lia. rewrite Nat.mul_comm, Nat.div_mul by lia.
  reflexivity.
Qed.

Lemma half_up_odd (n : nat) :
  Nat.even n = false -> ((n + 1) / 2 = S n / 2)%nat.
Proof. intros _. now rewrite Nat.add_1_r. Qed.

(** X4: below 4096 bytes the length field holds the number of payload
    bytes, low byte first, an odd count of characters being rounded up as
    if a ["0"] had been put in front. *)
Theorem computeDataLen_reads_back (data : str) :
  Z.of_nat (length data) < 8191 ->
  exists a b c d,
    computeDataLen data = [c; d; a; b]
    /\ is_hex [a; b; c; d] = true
    /\ int_hex [a; b; c; d] = Some (Z.of_nat ((length data + 1) / 2)).
Proof.
  intros Hlen. destruct (Nat.even (length data)) eqn:Hev.
  - destruct (computeDataLen_even data Hev ltac:(lia))
      as (a & b & c & d & H1 & H2 & H3).
    exists a, b, c, d. rewrite half_up_even by exact Hev. auto.
  - rewrite computeDataLen_odd_pad by exact Hev.
    assert (Hev' : Nat.even (length ("0"%char :: data)) = true).
    { cbn [length]. now rewrite Nat.even_succ, <- Nat.negb_even, Hev. }
    destruct (computeDataLen_even ("0"%char :: data) Hev')
      as (a & b & c & d & H1 & H2 & H3).
    { cbn [length]. lia. }
    exists a, b, c, d. rewrite half_up_odd by exact Hev. auto.
Qed.

(** X5: from 4096 payload bytes on the length field is written as
    ["0000"]: a length of four hexadecimal digits falls through the three
    padding cases. *)
Theorem computeDataLen_overflow (data : str) :
  8191 <= Z.of_nat (length data) ->
  computeDataLen data = lit "0000".
Proof.
  intros Hlen.
  assert (Hgen : forall d : str,
            Nat.even (length d) = true -> 8192 <= Z.of_nat (length d) ->
            computeDataLen d = lit "0000").
  { intros d Hev Hd. unfold computeDataLen.
    assert (Hmod : (length d mod 2 =? 0)%nat = true).
    { apply Nat.even_spec in Hev as [k Hk]. rewrite Hk.
      rewrite Nat.mul_comm, Nat.Div0.mod_mul. reflexivity. }
    rewrite Hmod. cbv zeta.
    set (L := Z.of_nat (length d / 2)).
    assert (HL : 4096 <= L).
    { subst L. rewrite Nat2Z.inj_div. change (Z.of_nat 2) with 2.
      apply Z.div_le_lower_bound; lia. }
    change (skipn 2 (hex L)) with (format_x L).
    assert (Hfuel : L < 2 ^ Z.of_nat (S (Z.to_nat (Z.log2 L)))).
    { rewrite Nat2Z.inj_succ, Z2Nat.id by apply Z.log2_nonneg.
      apply Z.log2_spec; lia. }
    pose proof (format_x_aux_length_ge (S (Z.to_nat (Z.log2 L))) 3 L []
                  (conj HL Hfuel)) as Hge.
    cbn [length] in Hge. fold (format_x L) in Hge.
    remember (format_x L) as h.
    destruct (Nat.eqb_spec (length h) 3); [lia|].
    destruct (Nat.eqb_spec (length h) 1); [lia|].
    destruct (Nat.eqb_spec (length h) 2); [lia|].
    reflexivity. }
  destruct (Nat.even (length data)) eqn:Hev.
  - apply Hgen; [exact Hev|].
    assert (Z.of_nat (length data) <> 8191); [|lia].
    intros H. apply Nat.even_spec in Hev as [k Hk]. lia.
  - rewrite computeDataLen_odd_pad by exact Hev. apply Hgen.
    + cbn [length]. now rewrite Nat.even_succ, <- Nat.negb_even, Hev.
    + cbn [length]. lia.
Qed.

Lemma encodeMsg_counter (m : SIYIMESSAGE) (data cmd_id : str) :
  fst (encodeMsg m data cmd_id) = fst (incrementSEQ m (_seq m)).
Proof.
  unfold encodeMsg. destruct (incrementSEQ m (_seq m)) as [m1 seq].
  cbv zeta. now destruct (crc16_str_swap _).
Qed.

(** X6: every call of [encodeMsg], whether the checksum succeeds or not,
    moves the counter one step around a cycle of 65537 values: 0, 1, ...,
    65535, 65536, 0.  The other attributes are not touched. *)
Theorem encodeMsg_counter_cycle (m : SIYIMESSAGE) (data cmd_id : str) :
  0 <= _seq m <= 65536 ->
  fst (encodeMsg m data cmd_id) = set_seq m ((_seq m + 1) mod 65537)
  /\ 0 <= _seq (fst (encodeMsg m data cmd_id)) <= 65536.
Proof.
  intros Hm. rewrite encodeMsg_counter. unfold incrementSEQ.
  destruct (Z.gtb_spec (_seq m) 65535) as [Hgt | Hle].
  - assert (Hs : _seq m = 65536) by lia. rewrite Hs.
    cbn [fst]. change ((65536 + 1) mod 65537) with 0.
    split; [reflexivity | cbn; lia].
  - destruct (Z.ltb_spec (_seq m) 0) as [Hlt | Hge]; [lia|].
    cbn [fst]. rewrite Z.mod_small by lia.
    split; [reflexivity | cbn; lia].
Qed.

Lemma is_hex_char_val (c : ascii) :
  is_hex_char c = true -> exists x, hex_val c = Some x /\ 0 <= x < 16.
Proof.
  unfold is_hex_char. destruct (hex_val c) as [x|] eqn:E; [|discriminate].
  intros _. exists x. split; [reflexivity|]. now apply hex_val_range in E.
Qed.

(** X7: for a counter below 65535 the text [incrementSEQ] returns is four
    characters, the new counter low byte first, unless the new counter
    has two hexadecimal digits (16 to 255): then both bytes of the text
    are the counter, and the text reads as 257 times the counter. *)
Theorem incrementSEQ_text (m : SIYIMESSAGE) (val : Z) :
  0 <= val <= 65534 ->
  exists a b c d,
    snd (incrementSEQ m val) = [c; d; a; b]
    /\ int_hex [a; b; c; d] =
       Some (if (16 <=? val + 1) && (val + 1 <=? 255)
             then 257 * (val + 1) else val + 1).
Proof.
  intros Hv. unfold incrementSEQ.
  destruct (Z.gtb_spec val 65535); [lia|].
  destruct (Z.ltb_spec val 0); [lia|].
  cbv zeta. cbn [snd].
  change (skipn 2 (hex (val + 1))) with (format_x (val + 1)).
  set (n := val + 1) in *.
  assert (Hn : 1 <= n <= 65535) by lia.
  pose proof (int_hex_format_x n ltac:(lia)) as Hval.
  pose proof (is_hex_format_x n) as Hhex.
  destruct (Z_lt_le_dec n 16) as [H1 | H1].
  { pose proof (format_x_one_digit n ltac:(lia)) as Hd.
    destruct (Z.leb_spec 16 n); [lia|]. cbn [andb].
    destruct (format_x n) as [|x [|? ?]]; try discriminate.
    exists "0"%char, "0"%char, "0"%char, x. split; [reflexivity|].
    exact Hval. }
  destruct (Z_lt_le_dec n 256) as [H2 | H2].
  { assert (Hd : length (format_x n) = 2%nat).
    { apply (format_x_digits 1 n). change (16 ^ Z.of_nat 1) with 16.
      change (16 ^ Z.of_nat 2) with 256. lia. }
    destruct (Z.leb_spec 16 n); [|lia].
    destruct (Z.leb_spec n 255); [|lia]. cbn [andb].
    destruct (format_x n) as [|x [|y [|? ?]]]; try discriminate.
    exists x, y, x, y. split; [reflexivity|].
    cbn [is_hex forallb] in Hhex.
    apply andb_true_iff in Hhex as [Hx Hhex].
    apply andb_true_iff in Hhex as [Hy _].
    destruct (is_hex_char_val x Hx) as (vx & Ex & Hvx).
    destruct (is_hex_char_val y Hy) as (vy & Ey & Hvy).
    unfold int_hex in *. cbn [int_from] in *.
    rewrite Ex, Ey in *. injection Hval as Hval. f_equal. lia. }
  assert (Hc : (16 <=? n) && (n <=? 255) = false).
  { destruct (Z.leb_spec 16 n); [|lia].
    destruct (Z.leb_spec n 255); [lia | reflexivity]. }
  rewrite Hc.
  destruct (Z_lt_le_dec n 4096) as [H3 | H3].
  { assert (Hd : length (format_x n) = 3%nat).
    { apply (format_x_digits 2 n). change (16 ^ Z.of_nat 2) with 256.
      change (16 ^ Z.of_nat 3) with 4096. lia. }
    destruct (format_x n) as [|x [|y [|z [|? ?]]]]; try discriminate.
    exists "0"%char, x, y, z. split; [reflexivity | exact Hval]. }
  assert (Hd : length (format_x n) = 4%nat).
  { apply (format_x_digits 3 n). change (16 ^ Z.of_nat 3) with 4096.
    change (16 ^ Z.of_nat 4) with 65536. lia. }
  destruct (format_x n) as [|x [|y [|z [|w [|? ?]]]]]; try discriminate.
  exists x, y, z, w. split; [reflexivity | exact Hval].
Qed.

Lemma int_hex_4_bound (t : str) (v : Z) :
  length t = 4%nat -> int_hex t = Some v -> 0 <= v < 65536.
Proof.
  intros Hlen Hv.
  destruct t as [|a [|b [|c [|d [|? ?]]]]]; try discriminate.
  unfold int_hex in Hv. cbn [int_from] in Hv.
  destruct (hex_val a) as [va|] eqn:Ea; [|discriminate].
  destruct (hex_val b) as [vb|] eqn:Eb; [|discriminate].
  destruct (hex_val c) as [vc|] eqn:Ec; [|discriminate].
  destruct (hex_val d) as [vd|] eqn:Ed; [|discriminate].
  apply hex_val_range in Ea, Eb, Ec, Ed. injection Hv as <-. lia.
Qed.

Lemma slice_pair_length (a b c d : nat) (msg : str) :
  (a + 2 = b)%nat -> (c + 2 = d)%nat ->
  (b <= length msg)%nat -> (d <= length msg)%nat ->
  length (slice a b msg ++ slice c d msg) = 4%nat.
Proof.
  intros. unfold slice.
  rewrite length_app, !length_firstn, !length_skipn. lia.
Qed.

Lemma decodeMsg_hex_cases (m : SIYIMESSAGE) (msg : str) :
  is_hex msg = true ->
  decodeMsg m msg = Ok (m, None)
  \/ exists data data_len cmd_id seq,
       decodeMsg m msg =
       Ok (mkMESSAGE (_seq m) cmd_id data_len data (_crc16 m),
           Some (data, data_len, cmd_id, seq))
       /\ (MINIMUM_DATA_LENGTH <= length msg)%nat
       /\ crc16_str_swap (drop_last 4 msg) = Some (last_chars 4 msg)
       /\ 0 <= data_len < 65536
       /\ 0 <= seq < 65536
       /\ cmd_id = slice 14 16 msg
       /\ data = (if data_len >? 0
                  then slice 16 (16 + Z.to_nat (data_len * 2)) msg else []).
Proof.
  intros Hhex. unfold decodeMsg.
  destruct (Nat.ltb_spec (length msg) MINIMUM_DATA_LENGTH) as [|Hmin];
    [now left|].
  pose proof Hmin as Hmin'. unfold MINIMUM_DATA_LENGTH in Hmin'.
  destruct (int0x_field 8 10 6 8 msg Hhex) as [dl Hdl]; [lia | lia |].
  destruct (int0x_field 12 14 10 12 msg Hhex) as [sq Hsq]; [lia | lia |].
  rewrite Hdl. cbn [bind].
  destruct (opt_str_eqb (crc16_str_swap (drop_last 4 msg))
              (Some (last_chars 4 msg))) eqn:Ecrc; cbn [negb];
    [|now left].
  rewrite Hsq. cbn [bind]. right.
  exists (if dl >? 0 then slice 16 (16 + Z.to_nat (dl * 2)) msg else []),
    dl, (slice 14 16 msg), sq.
  unfold int0x in Hdl, Hsq.
  destruct (int_hex (slice 8 10 msg ++ slice 6 8 msg)) as [dl'|] eqn:E1;
    [|discriminate].
  destruct (int_hex (slice 12 14 msg ++ slice 10 12 msg)) as [sq'|] eqn:E2;
    [|discriminate].
  injection Hdl as ->. injection Hsq as ->.
  apply int_hex_4_bound in E1; [|apply slice_pair_length; lia].
  apply int_hex_4_bound in E2; [|apply slice_pair_length; lia].
  repeat split; try lia; try reflexivity.
  destruct (crc16_str_swap (drop_last 4 msg)) as [c|]; [|discriminate].
  cbn [opt_str_eqb] in Ecrc. apply str_eqb_eq in Ecrc. now subst c.
Qed.

(** X8: on hexadecimal text [decodeMsg] never raises.  Either it returns
    [None] and leaves the object as it was, or the text has at least 20
    characters, its last four are the checksum of what precedes them, and
    the result holds a length and a sequence number below 65536 and the
    two characters of the command id; the counter [_seq] is not touched. *)
Theorem decodeMsg_on_hex_text (m : SIYIMESSAGE) (msg : str) :
  is_hex msg = true ->
  decodeMsg m msg = Ok (m, None)
  \/ exists data data_len cmd_id seq,
       decodeMsg m msg =
       Ok (mkMESSAGE (_seq m) cmd_id data_len data (_crc16 m),
           Some (data, data_len, cmd_id, seq))
       /\ (MINIMUM_DATA_LENGTH <= length msg)%nat
       /\ crc16_str_swap (drop_last 4 msg) = Some (last_chars 4 msg)
       /\ 0 <= data_len < 65536
       /\ 0 <= seq < 65536
       /\ cmd_id = slice 14 16 msg
       /\ data = (if data_len >? 0
                  then slice 16 (16 + Z.to_nat (data_len * 2)) msg else []).
Proof. apply decodeMsg_hex_cases. Qed.

(** ** siyi_sdk.py: more about the reassembly scan *)

Lemma slice_app_l (a b : nat) (x y : str) :
  (b <= length x)%nat -> slice a b (x ++ y) = slice a b x.
Proof.
  intros Hb. unfold slice. rewrite skipn_app, firstn_app, length_skipn.
  replace (b - a - (length x - a))%nat with 0%nat by lia.
  cbn [firstn]. now rewrite app_nil_r.
Qed.

Lemma slice_firstn (a b k : nat) (x : str) :
  (b <= k)%nat -> slice a b (firstn k x) = slice a b x.
Proof.
  intros Hb. rewrite <- (firstn_skipn k x) at 2.
  destruct (Nat.le_gt_cases b (length (firstn k x))) as [Hle | Hgt].
  - now rewrite slice_app_l.
  - rewrite length_firstn in Hgt.
    assert (Hx : (length x < k)%nat) by lia.
    rewrite (firstn_all2 x) by lia.
    rewrite (skipn_all2 x) by lia. now rewrite app_nil_r.
Qed.

(** Whether [decodeMsg] accepts a text does not depend on the object. *)
Lemma decodeMsg_any_object (m m2 m' : SIYIMESSAGE) (msg : str)
  (val : decoded) :
  decodeMsg m msg = Ok (m', Some val) ->
  exists m2', decodeMsg m2 msg = Ok (m2', Some val).
Proof.
  unfold decodeMsg. intros H.
  destruct (length msg <? MINIMUM_DATA_LENGTH)%nat; [discriminate|].
  destruct (int0x (slice 8 10 msg ++ slice 6 8 msg)) as [dl|];
    [|discriminate].
  cbn [bind] in *.
  destruct (negb _); [discriminate|].
  destruct (int0x (slice 12 14 msg ++ slice 10 12 msg)) as [sq|];
    [|discriminate].
  cbn [bind] in *. injection H as _ <-. now eexists.
Qed.

(** One frame at the head of the buffer, anything behind it. *)
Lemma scan_frame_then_rest (fuel : nat) (s : SIYISDK) (hf rest : str)
  (frames : list decoded) (m' : SIYIMESSAGE) (val : decoded) :
  slice 0 4 hf = HEADER ->
  decodeMsg (_in_msg s) hf = Ok (m', Some val) ->
  length hf = (MINIMUM_DATA_LENGTH + Z.to_nat (snd (fst (fst val)) * 2))%nat ->
  bufferCallback_loop (S fuel) s (hf ++ rest) frames =
  match dispatch (set_in_msg s m') val with
  | Raised e => mkRun (Uncaught e) (set_in_msg s m') rest (frames ++ [val])
  | Ok s' => bufferCallback_loop fuel s' rest (frames ++ [val])
  end.
Proof.
  intros Hhd Hdec Hlen.
  destruct (decodeMsg_Some_inv _ _ _ _ Hdec) as (Hmin & Hdl & _ & _).
  pose proof Hmin as Hmin'. unfold MINIMUM_DATA_LENGTH in Hmin'.
  rewrite bufferCallback_loop_S.
  destruct (Nat.ltb_spec (length (hf ++ rest)) MINIMUM_DATA_LENGTH) as [H|_].
  { rewrite length_app in H. lia. }
  rewrite !slice_app_l by lia.
  rewrite Hhd, str_eqb_refl. cbn [negb].
  unfold int0x. rewrite Hdl. cbv zeta.
  destruct (Nat.ltb_spec (length (hf ++ rest))
              (MINIMUM_DATA_LENGTH
               + Z.to_nat (snd (fst (fst val)) * 2))) as [H|_].
  { rewrite length_app in H. lia. }
  rewrite <- Hlen.
  assert (Hp : slice 0 (length hf) (hf ++ rest) = hf).
  { unfold slice. rewrite Nat.sub_0_r. cbn [skipn].
    rewrite firstn_app, firstn_all, Nat.sub_diag. cbn [firstn].
    apply app_nil_r. }
  assert (Hr : skipn (length hf) (hf ++ rest) = rest).
  { rewrite skipn_app, skipn_all, Nat.sub_diag. reflexivity. }
  rewrite Hp, Hr, Hdec. reflexivity.
Qed.

(** A frame-sized piece that [decodeMsg] turns down is passed over. *)
Lemma scan_rejected_then_rest (fuel : nat) (s : SIYISDK) (hf rest : str)
  (frames : list decoded) (m' : SIYIMESSAGE) (data_len : Z) :
  slice 0 4 hf = HEADER ->
  int_hex (slice 8 10 hf ++ slice 6 8 hf) = Some data_len ->
  length hf = (MINIMUM_DATA_LENGTH + Z.to_nat (data_len * 2))%nat ->
  decodeMsg (_in_msg s) hf = Ok (m', None) ->
  bufferCallback_loop (S fuel) s (hf ++ rest) frames =
  bufferCallback_loop fuel (set_in_msg s m') rest frames.
Proof.
  intros Hhd Hdl Hlen Hdec.
  assert (Hmin : (20 <= length hf)%nat)
    by (unfold MINIMUM_DATA_LENGTH in Hlen; lia).
  rewrite bufferCallback_loop_S.
  destruct (Nat.ltb_spec (length (hf ++ rest)) MINIMUM_DATA_LENGTH) as [H|_].
  { rewrite length_app in H. unfold MINIMUM_DATA_LENGTH in H. lia. }
  rewrite !slice_app_l by lia.
  rewrite Hhd, str_eqb_refl. cbn [negb].
  unfold int0x. rewrite Hdl. cbv zeta.
  destruct (Nat.ltb_spec (length (hf ++ rest))
              (MINIMUM_DATA_LENGTH + Z.to_nat (data_len * 2))) as [H|_].
  { rewrite length_app in H. lia. }
  rewrite <- Hlen.
  assert (Hp : slice 0 (length hf) (hf ++ rest) = hf).
  { unfold slice. rewrite Nat.sub_0_r. cbn [skipn].
    rewrite firstn_app, firstn_all, Nat.sub_diag. cbn [firstn].
    apply app_nil_r. }
  assert (Hr : skipn (length hf) (hf ++ rest) = rest).
  { rewrite skipn_app, skipn_all, Nat.sub_diag. reflexivity. }
  rewrite Hp, Hr, Hdec. reflexivity.
Qed.

Lemma well_formed_text (s : SIYISDK) (frame : list byte) (val : decoded) :
  well_formed frame val ->
  slice 0 4 (hex_of_bytes frame) = HEADER
  /\ (exists m', decodeMsg (_in_msg s) (hex_of_bytes frame)
                 = Ok (m', Some val))
  /\ length (hex_of_bytes frame) =
     (MINIMUM_DATA_LENGTH + Z.to_nat (snd (fst (fst val)) * 2))%nat.
Proof.
  intros (Hhd & Hlen & m0 & Hdec). split; [exact Hhd|]. split.
  - apply (decodeMsg_any_object _ (_in_msg s) _ _ _ Hdec).
  - destruct (decodeMsg_Some_inv _ _ _ _ Hdec) as (Hmin & _).
    now apply frame_text_length.
Qed.

Lemma dispatch_returns_off_stubs (s : SIYISDK) (val : decoded) :
  ~ In (snd (fst val)) stub_commands -> exists s', dispatch s val = Ok s'.
Proof.
  intros Hno. destruct val as [[[data data_len] cmd_id] seq].
  destruct (dispatch s (data, data_len, cmd_id, seq)) as [s'|e] eqn:E;
    [now exists s'|].
  apply dispatch_raises_only_from_stubs in E as [_ Hc].
  exfalso. apply Hno. cbn [snd fst stub_commands In].
  destruct Hc as [-> | ->]; auto.
Qed.

(** X9: two well-formed frames in one datagram, the first not for a stub
    parser, are both decoded and handed to their parsers, in order, and
    nothing stays in the buffer. *)
Theorem two_frames_in_one_datagram (s : SIYISDK) (f1 f2 : list byte)
  (v1 v2 : decoded) :
  well_formed f1 v1 -> well_formed f2 v2 ->
  ~ In (snd (fst v1)) stub_commands ->
  run_frames (bufferCallback s (f1 ++ f2)) = [v1; v2]
  /\ run_buff (bufferCallback s (f1 ++ f2)) = []
  /\ run_status (bufferCallback s (f1 ++ f2)) <> OutOfFuel.
Proof.
  intros Hw1 Hw2 Hstub.
  pose proof (bufferCallback_terminates s (f1 ++ f2)) as Hterm.
  unfold bufferCallback in *. rewrite hex_of_bytes_app in *.
  destruct (well_formed_text s f1 v1 Hw1) as (Hhd1 & (m1 & Hdec1) & Hlen1).
  destruct (dispatch_returns_off_stubs (set_in_msg s m1) v1 Hstub)
    as [s1 Hs1].
  destruct (well_formed_text s1 f2 v2 Hw2) as (Hhd2 & (m2 & Hdec2) & Hlen2).
  rewrite length_app in *.
  rewrite (scan_frame_then_rest _ s _ _ [] m1 v1 Hhd1 Hdec1 Hlen1) in *.
  rewrite Hs1 in *.
  assert (Hmin : (MINIMUM_DATA_LENGTH <= length (hex_of_bytes f1))%nat)
    by lia.
  unfold MINIMUM_DATA_LENGTH in Hmin.
  replace (length (hex_of_bytes f1) + length (hex_of_bytes f2))%nat
    with (S (S (length (hex_of_bytes f1) + length (hex_of_bytes f2) - 2)))
    in * by lia.
  rewrite (scan_one_frame _ s1 _ _ m2 v2 Hhd2 Hdec2 Hlen2) in *.
  destruct (dispatch (set_in_msg s1 m2) v2); repeat split;
    try reflexivity; discriminate.
Qed.

Lemma byte_header_fields (ctrl lo hi : byte) (rest : list byte) :
  let text := hex_of_bytes (x55 :: x66 :: ctrl :: lo :: hi :: rest) in
  slice 0 4 text = HEADER
  /\ int_hex (slice 8 10 text ++ slice 6 8 text)
     = Some (byte_val hi * 256 + byte_val lo).
Proof.
  cbv zeta. split; [reflexivity|].
  rewrite !hex_of_bytes_cons.
  change (int_hex (hex_digit (byte_val hi / 16)
                   :: hex_digit (byte_val hi mod 16)
                   :: hex_digit (byte_val lo / 16)
                   :: hex_digit (byte_val lo mod 16) :: [])
          = Some (byte_val hi * 256 + byte_val lo)).
  unfold int_hex. rewrite !int_from_byte by apply byte_val_range.
  reflexivity.
Qed.

(** X10: a frame-sized piece with the marker and a consistent length but
    a wrong checksum is dropped without a trace, and the well-formed
    frame behind it is decoded. *)
Theorem bad_checksum_is_skipped (s : SIYISDK) (ctrl lo hi : byte)
  (rest f2 : list byte) (v2 : decoded) :
  let f1 := x55 :: x66 :: ctrl :: lo :: hi :: rest in
  Z.of_nat (length f1) = 10 + (byte_val hi * 256 + byte_val lo) ->
  crc16_str_swap (drop_last 4 (hex_of_bytes f1))
    <> Some (last_chars 4 (hex_of_bytes f1)) ->
  well_formed f2 v2 ->
  run_frames (bufferCallback s (f1 ++ f2)) = [v2]
  /\ run_buff (bufferCallback s (f1 ++ f2)) = []
  /\ run_status (bufferCallback s (f1 ++ f2)) <> OutOfFuel.
Proof.
  intros f1 Hlen1 Hcrc Hw2.
  pose proof (bufferCallback_terminates s (f1 ++ f2)) as Hterm.
  unfold bufferCallback in *. rewrite hex_of_bytes_app in *.
  destruct (byte_header_fields ctrl lo hi rest) as [Hhd1 Hdl1].
  fold f1 in Hhd1, Hdl1.
  assert (Htl : length (hex_of_bytes f1) =
                (MINIMUM_DATA_LENGTH
                 + Z.to_nat ((byte_val hi * 256 + byte_val lo) * 2))%nat).
  { rewrite hex_of_bytes_length. unfold MINIMUM_DATA_LENGTH.
    pose proof (byte_val_range hi). pose proof (byte_val_range lo). lia. }
  assert (Hdec1 : decodeMsg (_in_msg s) (hex_of_bytes f1)
                  = Ok (_in_msg s, None)).
  { unfold decodeMsg.
    destruct (Nat.ltb_spec (length (hex_of_bytes f1)) MINIMUM_DATA_LENGTH);
      [reflexivity|].
    unfold int0x at 1. rewrite Hdl1. cbn [bind].
    destruct (opt_str_eqb _ _) eqn:E; [|reflexivity].
    exfalso. apply Hcrc.
    destruct (crc16_str_swap (drop_last 4 (hex_of_bytes f1))) as [c|];
      [|discriminate].
    cbn [opt_str_eqb] in E. apply str_eqb_eq in E. now subst c. }
  set (s1 := set_in_msg s (_in_msg s)) in *.
  destruct (well_formed_text s1 f2 v2 Hw2) as (Hhd2 & (m2 & Hdec2) & Hlen2).
  rewrite length_app in *.
  rewrite (scan_rejected_then_rest _ s _ _ [] _ _ Hhd1 Hdl1 Htl Hdec1) in *.
  fold s1 in Hterm |- *.
  assert (Hmin : (20 <= length (hex_of_bytes f1))%nat)
    by (unfold MINIMUM_DATA_LENGTH in Htl; lia).
  replace (length (hex_of_bytes f1) + length (hex_of_bytes f2))%nat
    with (S (S (length (hex_of_bytes f1) + length (hex_of_bytes f2) - 2)))
    in * by lia.
  rewrite (scan_one_frame _ s1 _ _ m2 v2 Hhd2 Hdec2 Hlen2) in *.
  destruct (dispatch (set_in_msg s1 m2) v2); repeat split;
    try reflexivity; discriminate.
Qed.

Lemma slice_0_firstn (k : nat) (x : str) : slice 0 k x = firstn k x.
Proof. unfold slice. now rewrite Nat.sub_0_r. Qed.

(** The frame cut out of the buffer, once decoded, is consistent. *)
Lemma decoded_packet_ok (m m' : SIYIMESSAGE) (text : str) (dl : Z)
  (val : decoded) :
  is_hex text = true ->
  int_hex (slice 8 10 text ++ slice 6 8 text) = Some dl ->
  (MINIMUM_DATA_LENGTH + Z.to_nat (dl * 2) <= length text)%nat ->
  decodeMsg m (slice 0 (MINIMUM_DATA_LENGTH + Z.to_nat (dl * 2)) text)
    = Ok (m', Some val) ->
  frame_ok val.
Proof.
  intros Hhex Hdl Hlen Hdec. rewrite slice_0_firstn in Hdec.
  set (k := (MINIMUM_DATA_LENGTH + Z.to_nat (dl * 2))%nat) in *.
  set (packet := firstn k text) in *.
  assert (Hk : (20 <= k)%nat) by (subst k; unfold MINIMUM_DATA_LENGTH; lia).
  assert (Hpl : length packet = k)
    by (subst packet; rewrite length_firstn; lia).
  assert (Hph : is_hex packet = true) by now apply is_hex_firstn.
  destruct (decodeMsg_hex_cases m packet Hph)
    as [Hnone | (data & dl' & cmd & sq & Hsome & _ & _ & Hb1 & Hb2 & Hcmd
                 & Hdata)].
  { rewrite Hnone in Hdec. discriminate. }
  rewrite Hsome in Hdec. injection Hdec as _ <-.
  destruct (decodeMsg_Some_inv _ _ _ _ Hsome) as (_ & Hdl' & _ & _).
  cbn [fst snd] in Hdl'. subst packet.
  rewrite !slice_firstn in Hdl' by lia.
  rewrite Hdl in Hdl'. injection Hdl' as <-.
  cbn [frame_ok]. repeat split; try lia.
  - subst data. destruct (Z.gtb_spec dl 0) as [Hpos | Hz].
    + unfold slice. rewrite length_firstn, length_skipn, length_firstn.
      subst k. unfold MINIMUM_DATA_LENGTH in *. lia.
    + cbn [length]. lia.
  - subst data. destruct (dl >? 0); [|reflexivity].
    now apply is_hex_slice, is_hex_firstn.
  - subst cmd. unfold slice.
    rewrite length_firstn, length_skipn, length_firstn. lia.
Qed.

Lemma bufferCallback_loop_frames_ok (fuel : nat) :
  forall s buff_str frames,
    is_hex buff_str = true -> Forall frame_ok frames ->
    Forall frame_ok
      (run_frames (bufferCallback_loop fuel s buff_str frames)).
Proof.
  induction fuel as [|fuel IH]; intros s buff_str frames Hhex Hok;
    [exact Hok|].
  rewrite bufferCallback_loop_S.
  destruct (Nat.ltb_spec (length buff_str) MINIMUM_DATA_LENGTH) as [|Hmin];
    [exact Hok|].
  pose proof Hmin as Hmin'. unfold MINIMUM_DATA_LENGTH in Hmin'.
  destruct (negb (str_eqb (slice 0 4 buff_str) HEADER)).
  { apply IH; [now apply is_hex_skipn | exact Hok]. }
  destruct (int0x_field 8 10 6 8 buff_str Hhex) as [dl Hdl]; [lia | lia |].
  rewrite Hdl. cbv zeta.
  destruct (Nat.ltb_spec (length buff_str)
              (MINIMUM_DATA_LENGTH + Z.to_nat (dl * 2))) as [|Hfull];
    [exact Hok|].
  unfold int0x in Hdl.
  destruct (int_hex (slice 8 10 buff_str ++ slice 6 8 buff_str)) as [dl0|]
    eqn:Edl; [|discriminate].
  injection Hdl as ->.
  destruct (decodeMsg (_in_msg s) _) as [[m [val|]]|e] eqn:Hdec.
  - assert (Hval : frame_ok val)
      by (apply (decoded_packet_ok _ _ _ _ _ Hhex Edl Hfull Hdec)).
    assert (Hok' : Forall frame_ok (frames ++ [val])).
    { apply Forall_app. split; [exact Hok | now constructor]. }
    destruct (dispatch (set_in_msg s m) val); [|exact Hok'].
    apply IH; [now apply is_hex_skipn | exact Hok'].
  - apply IH; [now apply is_hex_skipn | exact Hok].
  - exact Hok.
Qed.

(** X11: whatever the datagram, every frame [bufferCallback] hands to a
    parser has a payload of exactly as many bytes as its length field
    says, made of hexadecimal digits, a length and a sequence number
    below 65536 and a command id of two characters. *)
Theorem bufferCallback_frames_are_consistent (s : SIYISDK)
  (buff : list byte) :
  Forall frame_ok (run_frames (bufferCallback s buff)).
Proof.
  apply bufferCallback_loop_frames_ok; [apply is_hex_of_bytes | constructor].
Qed.

Lemma bufferCallback_loop_ends (fuel : nat) :
  forall s buff_str frames,
    is_hex buff_str = true -> (length buff_str < fuel)%nat ->
    let r := bufferCallback_loop fuel s buff_str frames in
    run_status r = Returned
    \/ (run_status r = Uncaught TypeError
        /\ exists before data data_len cmd_id seq,
             run_frames r = before ++ [(data, data_len, cmd_id, seq)]
             /\ In cmd_id stub_commands).
Proof.
  induction fuel as [|fuel IH]; intros s buff_str frames Hhex Hlen; [lia|].
  cbv zeta. rewrite bufferCallback_loop_S.
  destruct (Nat.ltb_spec (length buff_str) MINIMUM_DATA_LENGTH) as [|Hmin];
    [now left|].
  pose proof Hmin as Hmin'. unfold MINIMUM_DATA_LENGTH in Hmin'.
  destruct (negb (str_eqb (slice 0 4 buff_str) HEADER)).
  { apply IH; [now apply is_hex_skipn | rewrite length_skipn; lia]. }
  destruct (int0x_field 8 10 6 8 buff_str Hhex) as [dl Hdl]; [lia | lia |].
  rewrite Hdl. cbv zeta.
  destruct (Nat.ltb_spec (length buff_str)
              (MINIMUM_DATA_LENGTH + Z.to_nat (dl * 2))) as [|Hfull];
    [now left|].
  assert (Hrest : (length (skipn (MINIMUM_DATA_LENGTH + Z.to_nat (dl * 2))
                             buff_str) < fuel)%nat).
  { rewrite length_skipn. unfold MINIMUM_DATA_LENGTH. lia. }
  destruct (decodeMsg_hex_returns (_in_msg s)
              (slice 0 (MINIMUM_DATA_LENGTH + Z.to_nat (dl * 2)) buff_str))
    as [[m [val|]] Hdec]; [now apply is_hex_slice | |]; rewrite Hdec.
  - destruct val as [[[data data_len] cmd_id] seq].
    destruct (dispatch (set_in_msg s m) (data, data_len, cmd_id, seq))
      eqn:Ed.
    + apply IH; [now apply is_hex_skipn | exact Hrest].
    + apply dispatch_raises_only_from_stubs in Ed as [-> Hc].
      right. split; [reflexivity|].
      exists frames, data, data_len, cmd_id, seq. split; [reflexivity|].
      cbn [stub_commands In]. destruct Hc as [-> | ->]; auto.
  - apply IH; [now apply is_hex_skipn | exact Hrest].
Qed.

(** X12: on every datagram the scan comes to an end.  It returns, or it
    is cut short by the [TypeError] of a stub parser, and then the last
    frame decoded is one with command id 0x0c or 0x19.  No other
    exception leaves [bufferCallback]. *)
Theorem bufferCallback_ends (s : SIYISDK) (buff : list byte) :
  run_status (bufferCallback s buff) = Returned
  \/ (run_status (bufferCallback s buff) = Uncaught TypeError
      /\ exists before data data_len cmd_id seq,
           run_frames (bufferCallback s buff)
           = before ++ [(data, data_len, cmd_id, seq)]
           /\ In cmd_id stub_commands).
Proof.
  apply bufferCallback_loop_ends; [apply is_hex_of_bytes|].
  unfold bufferCallback. lia.
Qed.

Lemma dispatch_unknown (s : SIYISDK) (data cmd_id : str) (data_len seq : Z) :
  ~ In cmd_id known_commands ->
  dispatch s (data, data_len, cmd_id, seq) = Ok s.
Proof.
  intros Hno. unfold dispatch.
  repeat match goal with
  | |- (if str_eqb cmd_id ?c then _ else _) = _ =>
      let E := fresh "E" in
      destruct (str_eqb cmd_id c) eqn:E;
      [apply str_eqb_eq in E; exfalso; apply Hno; rewrite E;
       cbn [known_commands In]; tauto |]
  end.
  reflexivity.
Qed.

(** X13: a well-formed frame whose command id has no branch in
    [bufferCallback] is decoded and then dropped: the call returns, and
    of the whole session only the decoder's own scratch attributes
    ([_data], [_data_len], [_cmd_id] of [_in_msg]) have changed. *)
Theorem unknown_command_is_dropped (s : SIYISDK) (frame : list byte)
  (data cmd_id : str) (data_len seq : Z) :
  well_formed frame (data, data_len, cmd_id, seq) ->
  ~ In cmd_id known_commands ->
  bufferCallback s frame =
  mkRun Returned
    (set_in_msg s (mkMESSAGE (_seq (_in_msg s)) cmd_id data_len data
                     (_crc16 (_in_msg s))))
    [] [(data, data_len, cmd_id, seq)].
Proof.
  intros Hw Hno. unfold bufferCallback.
  destruct (well_formed_text s frame _ Hw) as (Hhd & (m' & Hdec) & Hlen).
  assert (Hm' : m' = mkMESSAGE (_seq (_in_msg s)) cmd_id data_len data
                       (_crc16 (_in_msg s))).
  { destruct (decodeMsg_hex_cases (_in_msg s) (hex_of_bytes frame)
                (is_hex_of_bytes frame))
      as [Hnone | (d & l & c & q & Hsome & _)].
    - rewrite Hnone in Hdec. discriminate.
    - rewrite Hsome in Hdec. inversion Hdec. reflexivity. }
  subst m'.
  assert (Hmin : (MINIMUM_DATA_LENGTH <= length (hex_of_bytes frame))%nat)
    by lia.
  unfold MINIMUM_DATA_LENGTH in Hmin.
  replace (S (length (hex_of_bytes frame)))
    with (S (S (length (hex_of_bytes frame) - 1))) by lia.
  rewrite (scan_one_frame _ s _ [] _ _ Hhd Hdec Hlen).
  now rewrite dispatch_unknown.
Qed.

(** X14: the branch for SEND_CONTROL_ANGLE_TO_GIMBAL passes the command
    id where the parser expects the sequence number.  After such a frame
    the attitude record's sequence is the text ["0e"], equal to no
    integer, so it compares unequal to any integer last-seen value. *)
Theorem control_angle_answer_stores_command_id (s : SIYISDK)
  (frame : list byte) (data : str) (data_len seq : Z) :
  well_formed frame
    (data, data_len, COMMAND.SEND_CONTROL_ANGLE_TO_GIMBAL, seq) ->
  run_status (bufferCallback s frame) = Returned
  /\ AttitdueMsg.seq (_att_msg (run_st (bufferCallback s frame)))
     = SeqStr (lit "0e")
  /\ forall z,
       pyseq_eqb (AttitdueMsg.seq (_att_msg (run_st (bufferCallback s frame))))
         (SeqInt z) = false.
Proof.
  intros Hw. unfold bufferCallback.
  destruct (well_formed_text s frame _ Hw) as (Hhd & (m' & Hdec) & Hlen).
  assert (Hmin : (MINIMUM_DATA_LENGTH <= length (hex_of_bytes frame))%nat)
    by lia.
  unfold MINIMUM_DATA_LENGTH in Hmin.
  replace (S (length (hex_of_bytes frame)))
    with (S (S (length (hex_of_bytes frame) - 1))) by lia.
  rewrite (scan_one_frame _ s _ [] _ _ Hhd Hdec Hlen).
  assert (Hd : dispatch (set_in_msg s m')
                 (data, data_len, COMMAND.SEND_CONTROL_ANGLE_TO_GIMBAL, seq)
               = Ok (fst (parseSendControlAngleToGimbalMsg
                            (set_in_msg s m') data
                            (SeqStr COMMAND.SEND_CONTROL_ANGLE_TO_GIMBAL))))
    by reflexivity.
  rewrite Hd. cbn [run_status run_st].
  assert (Hseq : forall x : AttitdueMsg.t * bool,
            AttitdueMsg.seq (fst x) = SeqStr (lit "0e") ->
            forall v upd,
              (forall z r, AttitdueMsg.seq (upd z r) = AttitdueMsg.seq r) ->
              AttitdueMsg.seq (fst (attempt x v upd)) = SeqStr (lit "0e")).
  { intros [r [|]] Hr v upd Hupd; cbn [attempt fst] in *; [|exact Hr].
    destruct v; cbn [fst]; [now rewrite Hupd | exact Hr]. }
  assert (Hres : AttitdueMsg.seq
                   (_att_msg (fst (parseSendControlAngleToGimbalMsg
                                     (set_in_msg s m') data
                                     (SeqStr
                                        COMMAND.SEND_CONTROL_ANGLE_TO_GIMBAL))))
                 = SeqStr (lit "0e")).
  { unfold parseSendControlAngleToGimbalMsg. cbv zeta.
    cbn [fst _att_msg set_att_msg].
    apply Hseq; [apply Hseq; [reflexivity|] |]; reflexivity. }
  rewrite Hres. repeat split.
Qed.

(** ** siyi_sdk.py: parsers and encoders together *)

Lemma le16_empty (i : nat) (msg : str) :
  (length msg <= i)%nat -> toInt (le16 i msg) = None.
Proof.
  intros H. unfold le16, slice.
  rewrite (skipn_all2 msg) by lia. rewrite (skipn_all2 msg) by lia.
  now rewrite !firstn_nil.
Qed.

Lemma le16_reads (i : nat) (msg : str) :
  is_hex msg = true -> (i < length msg)%nat ->
  exists v, toInt (le16 i msg) = Some v.
Proof.
  intros Hhex Hi. unfold toInt, int_hex.
  assert (Hne : le16 i msg <> []).
  { unfold le16. intros Hnil. apply app_eq_nil in Hnil as [_ Hnil].
    apply (f_equal (@length ascii)) in Hnil. unfold slice in Hnil.
    rewrite length_firstn, length_skipn in Hnil. cbn in Hnil. lia. }
  destruct (int_from_hex (le16 i msg)) with (acc := 0) as [v Hv].
  { unfold le16. now rewrite is_hex_app, !is_hex_slice. }
  destruct (le16 i msg); [congruence|]. rewrite Hv.
  destruct (negb _); now eexists.
Qed.

Lemma attempt_none {R : Type} (x : R * bool) (upd : Z -> R -> R) :
  snd (attempt x None upd) = false.
Proof. now destruct x as [r [|]]. Qed.

Lemma attempt_some {R : Type} (r : R) (z : Z) (upd : Z -> R -> R) :
  attempt (r, true) (Some z) upd = (upd z r, true).
Proof. reflexivity. Qed.

Lemma attempt_keeps {R A : Type} (f : R -> A) (x : R * bool)
  (v : option Z) (upd : Z -> R -> R) :
  (forall z r, f (upd z r) = f r) -> f (fst (attempt x v upd)) = f (fst x).
Proof.
  intros Hupd. destruct x as [r [|]]; [|reflexivity].
  destruct v; cbn [attempt fst]; [apply Hupd | reflexivity].
Qed.

(** X15: on a hexadecimal payload the attitude parser succeeds exactly
    when the payload has more than 20 characters.  It stores the sequence
    number before reading anything, so the sequence number advances even
    when the parse fails, and a non-empty payload overwrites the yaw even
    when a later field is missing. *)
Theorem attitude_parser_acceptance (s : SIYISDK) (msg : str) (seq : Z) :
  is_hex msg = true ->
  let r := parseRequestGimbalAttitudeMsg s msg seq in
  snd r = (20 <? length msg)%nat
  /\ AttitdueMsg.seq (_att_msg (fst r)) = SeqInt seq
  /\ ((0 < length msg)%nat ->
      exists v, toInt (le16 0 msg) = Some v
                /\ AttitdueMsg.yaw (_att_msg (fst r)) = v # 10)
  /\ (msg = [] ->
      fst r = set_att_msg s (att_set_seq (SeqInt seq) (_att_msg s))).
Proof.
  intros Hhex. cbv zeta. unfold parseRequestGimbalAttitudeMsg. cbv zeta.
  cbn [fst snd _att_msg set_att_msg].
  split; [|split; [|split]].
  - destruct (Nat.ltb_spec 20 (length msg)) as [Hlong | Hshort].
    + destruct (le16_reads 0 msg Hhex ltac:(lia)) as [v0 E0].
      destruct (le16_reads 4 msg Hhex ltac:(lia)) as [v1 E1].
      destruct (le16_reads 8 msg Hhex ltac:(lia)) as [v2 E2].
      destruct (le16_reads 12 msg Hhex ltac:(lia)) as [v3 E3].
      destruct (le16_reads 16 msg Hhex ltac:(lia)) as [v4 E4].
      destruct (le16_reads 20 msg Hhex ltac:(lia)) as [v5 E5].
      rewrite E0, E1, E2, E3, E4, E5. reflexivity.
    + rewrite (le16_empty 20 msg) by lia. apply attempt_none.
  - rewrite !(attempt_keeps AttitdueMsg.seq) by reflexivity. reflexivity.
  - intros Hpos. destruct (le16_reads 0 msg Hhex Hpos) as [v0 E0].
    exists v0. split; [exact E0|].
    rewrite !(attempt_keeps AttitdueMsg.yaw) by reflexivity.
    rewrite E0. reflexivity.
  - intros ->. reflexivity.
Qed.

Lemma slice_left (a b : str) (k : nat) :
  length a = k -> slice 0 k (a ++ b) = a.
Proof.
  intros <-. rewrite slice_0_firstn, firstn_app, firstn_all, Nat.sub_diag.
  cbn [firstn]. apply app_nil_r.
Qed.

Lemma slice_right (a b : str) (k e : nat) :
  length a = k -> (e = k + length b)%nat -> slice k e (a ++ b) = b.
Proof.
  intros <- ->. unfold slice.
  rewrite skipn_app, skipn_all, Nat.sub_diag. cbn [skipn app].
  replace (length a + length b - length a)%nat with (length b) by lia.
  apply firstn_all.
Qed.

Lemma int_hex_toHex_8 (v : Z) :
  0 <= v < 256 -> int_hex (toHex v 8) = Some v.
Proof.
  intros Hv. rewrite int_hex_toHex by lia. change (2 ^ 8) with 256.
  f_equal. symmetry. apply Z.mod_unique with (q := 1); lia.
Qed.

(** X16: the current-zoom parser reads back what the absolute-zoom
    encoder writes: for a zoom in range the payload built by
    [absoluteZoomMsg] parses to the same integer part and to a tenth of
    the fractional digit. *)
Theorem zoom_payload_round_trip (s : SIYISDK) (zoom frac seq : Z) :
  1 <= zoom <= 30 -> 0 <= frac <= 9 ->
  parseRequestCurrentZoomValueMsg s (absoluteZoomMsg_data zoom frac) seq =
  (set_currentZoomValue_msg s (CurrentZoomValueMsg.mk seq zoom (frac # 10)),
   true).
Proof.
  intros Hz Hf. rewrite absoluteZoomMsg_data_in_range by exact Hf.
  assert (Hc : clamp 1 30 zoom = zoom) by (unfold clamp; lia).
  rewrite Hc. unfold parseRequestCurrentZoomValueMsg. cbv zeta.
  rewrite (slice_left (toHex zoom 8) (toHex frac 8) 2)
    by apply toHex_8_length.
  rewrite (slice_right (toHex zoom 8) (toHex frac 8) 2 4)
    by (rewrite ?toHex_8_length; reflexivity).
  rewrite !int_hex_toHex_8 by lia. reflexivity.
Qed.

(** X17: whatever speeds are asked for, the payload of [gimbalSpeedMsg]
    is four hexadecimal characters, two bytes that hold the speeds
    clamped into [-100, 100] in two's complement. *)
Theorem gimbalSpeedMsg_payload (yaw_speed pitch_speed : Z) :
  let data := gimbalSpeedMsg_data yaw_speed pitch_speed in
  length data = 4%nat
  /\ is_hex data = true
  /\ int_hex (slice 0 2 data)
     = Some ((clamp (-100) 100 yaw_speed + 256) mod 256)
  /\ int_hex (slice 2 4 data)
     = Some ((clamp (-100) 100 pitch_speed + 256) mod 256)
  /\ -100 <= clamp (-100) 100 yaw_speed <= 100
  /\ -100 <= clamp (-100) 100 pitch_speed <= 100.
Proof.
  cbv zeta. rewrite gimbalSpeedMsg_data_clamps.
  set (y := clamp (-100) 100 yaw_speed).
  set (p := clamp (-100) 100 pitch_speed).
  rewrite (slice_left (toHex y 8) (toHex p 8) 2) by apply toHex_8_length.
  rewrite (slice_right (toHex y 8) (toHex p 8) 2 4)
    by (rewrite ?toHex_8_length; reflexivity).
  rewrite length_app, !toHex_8_length, is_hex_app, !is_hex_toHex.
  rewrite !int_hex_toHex by lia. change (2 ^ 8) with 256.
  unfold y, p, clamp. repeat split; lia.
Qed.

Lemma msg_front_shape (data cmd_id : str) :
  is_hex data = true -> Nat.even (length data) = true ->
  Z.of_nat (length data) < 8192 ->
  is_hex cmd_id = true -> length cmd_id = 2%nat ->
  is_hex (msg_front data cmd_id) = true
  /\ length (msg_front data cmd_id) = (16 + length data)%nat.
Proof.
  intros Hdata Hev Hlen Hcmd Hcmd2.
  destruct (computeDataLen_even data Hev Hlen)
    as (a & b & c & d & Hcdl & _ & Hhex).
  unfold msg_front. rewrite Hcdl. split.
  - rewrite !is_hex_app, Hcmd, Hdata.
    cbn [is_hex forallb] in Hhex |- *.
    destruct (is_hex_char a), (is_hex_char b), (is_hex_char c),
      (is_hex_char d); try discriminate. reflexivity.
  - rewrite !length_app, Hcmd2. reflexivity.
Qed.

(** With a checksum that meets the contract, any hexadecimal payload of
    whole bytes goes out as a datagram. *)
Lemma encoded_payload_bytes (data cmd_id : str) :
  crc_contract crc16_str_swap ->
  is_hex data = true -> Nat.even (length data) = true ->
  Z.of_nat (length data) < 8192 ->
  is_hex cmd_id = true -> length cmd_id = 2%nat ->
  exists c b,
    crc16_str_swap (msg_front data cmd_id) = Some c
    /\ is_hex c = true /\ length c = 4%nat
    /\ fromhex (msg_front data cmd_id ++ c) = Some b
    /\ forall m, snd (encodeMsg m data cmd_id) = msg_front data cmd_id ++ c.
Proof.
  intros Hcontract Hdata Hev Hlen Hcmd Hcmd2.
  destruct (msg_front_shape data cmd_id Hdata Hev Hlen Hcmd Hcmd2)
    as [Hfh Hfl].
  assert (Hfe : Nat.even (length (msg_front data cmd_id)) = true)
    by (rewrite Hfl; exact Hev).
  destruct (Hcontract _ Hfh Hfe) as (c & Hc & Hch & Hc4).
  destruct (fromhex_total (msg_front data cmd_id ++ c)) as [b Hb].
  - now rewrite is_hex_app, Hfh, Hch.
  - rewrite length_app, Hc4, Nat.add_comm. exact Hfe.
  - exists c, b. repeat split; try assumption.
    intros m. now rewrite (encodeMsg_frame m data cmd_id c Hc).
Qed.


(** X19: when the checksum function gives [None], [encodeMsg] returns
    the empty text, and the request functions, which do not look at it,
    hand an empty datagram to the socket and answer [True]; the counter
    has moved all the same. *)
Theorem failed_checksum_sends_empty_datagram (s : SIYISDK)
  (data cmd_id : str) :
  crc16_str_swap (msg_front data cmd_id) = None ->
  encodeMsg (_out_msg s) data cmd_id
  = (fst (incrementSEQ (_out_msg s) (_seq (_out_msg s))), [])
  /\ (let '(m, msg) := encodeMsg (_out_msg s) data cmd_id in
      sendMsg (set_out_msg s m) msg) = Ok (after_send s []).
Proof.
  intros Hnone.
  assert (He : encodeMsg (_out_msg s) data cmd_id
               = (fst (incrementSEQ (_out_msg s) (_seq (_out_msg s))), [])).
  { unfold encodeMsg.
    destruct (incrementSEQ (_out_msg s) (_seq (_out_msg s))) as [m1 sq].
    cbv zeta. fold (msg_front data cmd_id). now rewrite Hnone. }
  split; [exact He|]. rewrite He.
  unfold sendMsg, after_send. cbn [fromhex _socket set_out_msg].
  now destruct (sendto_fails (_socket s)).
Qed.

(** X20: each of the 21 builders without a parameter is [encodeMsg] on
    the payload and command id its body names, and its frame is well
    formed: ten bytes longer than the payload, and decoded back to that
    payload and command id, with sequence number 0. *)
Theorem fixed_builders_frames (m m0 : SIYIMESSAGE) :
  crc_contract crc16_str_swap ->
  Forall
    (fun entry =>
       let '(build, (data, cmd_id)) := entry in
       build m = encodeMsg m data cmd_id
       /\ length (snd (build m)) = (20 + length data)%nat
       /\ exists m',
            decodeMsg m0 (snd (build m)) =
            Ok (m', Some (data, Z.of_nat (length data / 2), cmd_id, 0)))
    fixed_builders.
Proof.
  intros Hcontract.
  assert (Hgen : forall data k1 k2,
            is_hex data = true -> Nat.even (length data) = true ->
            Z.of_nat (length data) < 8192 ->
            is_hex [k1; k2] = true ->
            length (snd (encodeMsg m data [k1; k2])) = (20 + length data)%nat
            /\ exists m',
                 decodeMsg m0 (snd (encodeMsg m data [k1; k2])) =
                 Ok (m', Some (data, Z.of_nat (length data / 2),
                               [k1; k2], 0))).
  { intros data k1 k2 Hdata Hev Hlen Hcmd.
    destruct (encoded_payload_bytes data [k1; k2] Hcontract Hdata Hev Hlen
                Hcmd eq_refl) as (c & b & Hcrc & _ & Hc4 & _ & Hfr).
    destruct (msg_front_shape data [k1; k2] Hdata Hev Hlen Hcmd eq_refl)
      as [_ Hfl].
    destruct (computeDataLen_even data Hev Hlen)
      as (x & y & z & w & Hcdl & Hval & _).
    rewrite Hfr. split.
    - rewrite length_app, Hfl, Hc4. lia.
    - assert (Hfront : msg_front data [k1; k2] =
                       lit "556601" ++ [z; w; x; y] ++ lit "0000"
                       ++ [k1; k2] ++ data)
        by (unfold msg_front; rewrite Hcdl; reflexivity).
      eexists. rewrite Hfront, <- !app_assoc.
      apply decodeMsg_of_encoded; try assumption.
      rewrite <- Hc4.
      replace (lit "556601" ++ [z; w; x; y] ++ lit "0000" ++ [k1; k2]
               ++ data ++ c)
        with ((lit "556601" ++ [z; w; x; y] ++ lit "0000" ++ [k1; k2]
               ++ data) ++ c) by (now rewrite <- !app_assoc).
      rewrite drop_last_app. now rewrite <- Hfront. }
  unfold fixed_builders.
  repeat (constructor;
          [split; [reflexivity | apply Hgen; reflexivity] |]).
  constructor.
Qed.

(** ** siyi_sdk.py: liveness, pollers and the control loop *)

(** Sending changes the outbound counter and the socket, nothing else. *)
Lemma after_send_frame (s : SIYISDK) (b : list byte) :
  let s' := fst (after_send s b) in
  _connected s' = _connected s /\ _stop s' = _stop s
  /\ _fw_msg s' = _fw_msg s /\ _last_fw_seq s' = _last_fw_seq s
  /\ cached_records s' = cached_records s
  /\ _in_msg s' = _in_msg s.
Proof. cbv zeta. unfold after_send. now destruct (sendto_fails (_socket s)). Qed.


Lemma request_firmware_sends (s : SIYISDK) :
  crc_contract crc16_str_swap ->
  exists b, requestGimbalCameraFirmwareVersion s = Ok (after_send s b).
Proof.
  intros Hcontract.
  destruct (encoded_request_bytes [] COMMAND.REQUEST_GIMBAL_CAMERA_FIRMWARE
              Hcontract eq_refl eq_refl) as (c & b & Hc & Hb & _).
  exists b. apply (send_encoded s _ _ c b Hc Hb).
Qed.

(** X21: a probe that reports the camera alive records the firmware
    sequence number it saw.  If no firmware answer is stored before the
    next probe has finished waiting, that probe reports the session
    disconnected. *)
Theorem silent_probe_disconnects (d1 d2 : SIYISDK -> SIYISDK)
  (s s1 : SIYISDK) :
  crc_contract crc16_str_swap ->
  (forall x, _fw_msg (d2 x) = _fw_msg x
             /\ _last_fw_seq (d2 x) = _last_fw_seq x) ->
  checkConnection d1 s = Ok s1 ->
  _connected s1 = true ->
  FirmwareMsg.seq (_fw_msg s1) = _last_fw_seq s1
  /\ FirmwareMsg.gimbal_firmware_ver (_fw_msg s1) <> []
  /\ exists s2, checkConnection d2 s1 = Ok s2 /\ _connected s2 = false.
Proof.
  intros Hcontract Hd2 Hc1 Hconn.
  unfold checkConnection in Hc1.
  destruct (requestGimbalCameraFirmwareVersion s) as [r|e];
    [|discriminate].
  cbn [bind] in Hc1.
  set (x := d1 (fst r)) in *.
  destruct (negb (FirmwareMsg.seq (_fw_msg x) =? _last_fw_seq x)
            && (0 <? length (FirmwareMsg.gimbal_firmware_ver (_fw_msg x)))%nat)
    eqn:Etest.
  2:{ injection Hc1 as <-. cbn in Hconn. discriminate. }
  injection Hc1 as <-.
  apply andb_true_iff in Etest as [_ Hver]. apply Nat.ltb_lt in Hver.
  set (s1 := set_last_fw_seq (set_connected x true)
               (FirmwareMsg.seq (_fw_msg x))) in *.
  assert (Hseq : FirmwareMsg.seq (_fw_msg s1) = _last_fw_seq s1)
    by reflexivity.
  split; [exact Hseq|]. split.
  { intros Hnil. change (_fw_msg s1) with (_fw_msg x) in Hnil.
    rewrite Hnil in Hver. cbn in Hver. lia. }
  destruct (request_firmware_sends s1 Hcontract) as [b Hreq].
  unfold checkConnection. rewrite Hreq. cbn [bind].
  destruct (after_send_frame s1 b) as (_ & _ & Hfw & Hlast & _).
  destruct (Hd2 (fst (after_send s1 b))) as [Hfw2 Hlast2].
  rewrite Hfw2, Hlast2, Hfw, Hlast, Hseq, Z.eqb_refl. cbn [negb andb].
  eexists. split; reflexivity.
Qed.

(** X22: after [disconnect] each of the four background loops ends at
    its next pass without sending anything, and leaves the session as
    [disconnect] left it. *)
Theorem disconnect_stops_the_loops (fuel n : nat)
  (world : nat -> SIYISDK -> SIYISDK) (s : SIYISDK) :
  connectionLoop (S fuel) n world (disconnect s) = Ok (disconnect s, Exited)
  /\ gimbalInfoLoop (S fuel) n world (disconnect s)
     = Ok (disconnect s, Exited)
  /\ gimbalAttLoop (S fuel) n world (disconnect s)
     = Ok (disconnect s, Exited)
  /\ gimbalZoomLoop (S fuel) n world (disconnect s)
     = Ok (disconnect s, Exited).
Proof. repeat split. Qed.


Lemma computeDataLen_two_bytes (data : str) :
  length data = 4%nat -> computeDataLen data = lit "0200".
Proof.
  intros H.
  destruct data as [|a0 [|a1 [|a2 [|a3 [|a4 data]]]]]; try discriminate H.
  reflexivity.
Qed.

(** The speed command is command 07 with the two speeds as its payload,
    one byte each. *)
Lemma speed_command_frame (y p : Z) :
  crc_contract crc16_str_swap ->
  -100 <= y <= 100 -> -100 <= p <= 100 ->
  exists c b,
    crc16_str_swap (lit "5566010200000007" ++ toHex y 8 ++ toHex p 8)
    = Some c
    /\ fromhex (lit "5566010200000007" ++ toHex y 8 ++ toHex p 8 ++ c)
       = Some b
    /\ forall s, requestGimbalSpeed s y p = Ok (after_send s b).
Proof.
  intros Hcontract Hy Hp.
  assert (Hdata : gimbalSpeedMsg_data y p = toHex y 8 ++ toHex p 8).
  { rewrite gimbalSpeedMsg_data_clamps. unfold clamp.
    now rewrite !Z.min_r, !Z.max_r by lia. }
  assert (Hl : length (toHex y 8 ++ toHex p 8) = 4%nat)
    by now rewrite length_app, !toHex_8_length.
  assert (Hfront : msg_front (toHex y 8 ++ toHex p 8)
                     COMMAND.GIMBAL_ROTATION_SPEED
                   = lit "5566010200000007" ++ toHex y 8 ++ toHex p 8).
  { unfold msg_front. now rewrite (computeDataLen_two_bytes _ Hl). }
  destruct (encoded_payload_bytes (toHex y 8 ++ toHex p 8)
              COMMAND.GIMBAL_ROTATION_SPEED Hcontract)
    as (c & b & Hc & _ & _ & Hb & _); try reflexivity.
  - now rewrite is_hex_app, !is_hex_toHex.
  - now rewrite Hl.
  - rewrite Hl. cbn. lia.
  - exists c, b. split; [now rewrite <- Hfront|]. split.
    + rewrite <- Hb, Hfront. now rewrite <- !app_assoc.
    + intros s. unfold requestGimbalSpeed, gimbalSpeedMsg.
      rewrite Hdata. apply (send_encoded s _ _ c b Hc Hb).
Qed.



(** [int()] raises on an infinity and on a NaN, and on nothing else. *)
Lemma int_of_float_raises (x : float) (e : exn) :
  int_of_float x = Raised e ->
  (e = OverflowError /\ exists sign, Prim2SF x = S754_infinity sign)
  \/ (e = ValueError /\ Prim2SF x = S754_nan).
Proof.
  unfold int_of_float.
  destruct (Prim2SF x) as [sign | sign | | sign m ex]; try discriminate.
  - intros H. injection H as <-. left. split; [reflexivity | now exists sign].
  - intros H. injection H as <-. right. now split.
Qed.

(** A pass that finds a new attitude message. *)
Lemma fresh_pass_result (yaw pitch th gain : float) (s : SIYISDK) :
  crc_contract crc16_str_swap ->
  pyseq_eqb (AttitdueMsg.seq (_att_msg s)) (_last_att_seq s) = false ->
  let yaw_err :=
    (- yaw + float_of_Q (AttitdueMsg.yaw (_att_msg s)))%float in
  let pitch_err :=
    (pitch - float_of_Q (AttitdueMsg.pitch (_att_msg s)))%float in
  (exists e,
     setGimbalRotation_body yaw pitch th gain s = Raised e
     /\ (int_of_float (gain * yaw_err) = Raised e
         \/ int_of_float (gain * pitch_err) = Raised e))
  \/ exists c1 b1 c2 b2 y p ctl,
       let s1 := set_last_att_seq (fst (after_send s b1))
                   (AttitdueMsg.seq (_att_msg s)) in
       setGimbalRotation_body yaw pitch th gain s =
         Ok (fst (after_send s1 b2), ctl)
       /\ (ctl = Break \/ ctl = Sleep)
       /\ (ctl = Break -> y = 0 /\ p = 0)
       /\ -100 <= y <= 100 /\ -100 <= p <= 100
       /\ crc16_str_swap (lit "556601000000000d") = Some c1
       /\ fromhex (lit "556601000000000d" ++ c1) = Some b1
       /\ crc16_str_swap (lit "5566010200000007" ++ toHex y 8 ++ toHex p 8)
          = Some c2
       /\ fromhex (lit "5566010200000007" ++ toHex y 8 ++ toHex p 8 ++ c2)
          = Some b2.
Proof.
  intros Hcontract Hfresh. cbv zeta.
  destruct (attitude_request_frame Hcontract) as (c1 & b1 & Hc1 & Hb1 & Hr1).
  destruct (after_send_att s b1) as [Hatt Hlast].
  set (s1 := set_last_att_seq (fst (after_send s b1))
               (AttitdueMsg.seq (_att_msg s))).
  unfold setGimbalRotation_body. rewrite Hr1. cbn [bind].
  rewrite Hatt, Hlast, Hfresh. fold s1.
  assert (Ha1 : _att_msg s1 = _att_msg s) by (subst s1; cbn; exact Hatt).
  rewrite Ha1.
  set (yaw_err := (- yaw + float_of_Q (AttitdueMsg.yaw (_att_msg s)))%float).
  set (pitch_err :=
         (pitch - float_of_Q (AttitdueMsg.pitch (_att_msg s)))%float).
  destruct ((abs yaw_err <=? th) && (abs pitch_err <=? th))%float.
  - destruct (speed_command_frame 0 0 Hcontract ltac:(lia) ltac:(lia))
      as (c2 & b2 & Hc2 & Hb2 & Hr2).
    right. exists c1, b1, c2, b2, 0, 0, Break. rewrite Hr2.
    repeat split; auto; lia.
  - destruct (int_of_float (gain * yaw_err)) as [y0 | e] eqn:Ey.
    2:{ left. exists e. split; [reflexivity | now left]. }
    destruct (int_of_float (gain * pitch_err)) as [p0 | e] eqn:Ep.
    2:{ left. exists e. split; [reflexivity | now right]. }
    cbn [bind].
    set (y := Z.max (Z.min 100 y0) (-100)).
    set (p := Z.max (Z.min 100 p0) (-100)).
    destruct (speed_command_frame y p Hcontract) as (c2 & b2 & Hc2 & Hb2 & Hr2);
      [subst y; lia | subst p; lia |].
    right. exists c1, b1, c2, b2, y, p, Sleep. rewrite Hr2.
    repeat split; auto; try discriminate; subst y p; lia.
Qed.

(** X23: a pass of the control loop that finds a new attitude message
    either raises, because [int()] met an infinite or NaN product
    ([OverflowError], [ValueError]), or it records the sequence number
    and sends two datagrams: the attitude request and one speed command
    (command 07) whose two speeds lie in [-100, 100].  Such a pass ends
    in [break], and then both speeds are zero, or in the sleep before
    the next pass. *)
Theorem fresh_pass_speed_is_bounded (yaw pitch th gain : float)
  (s : SIYISDK) :
  crc_contract crc16_str_swap ->
  pyseq_eqb (AttitdueMsg.seq (_att_msg s)) (_last_att_seq s) = false ->
  let yaw_err :=
    (- yaw + float_of_Q (AttitdueMsg.yaw (_att_msg s)))%float in
  let pitch_err :=
    (pitch - float_of_Q (AttitdueMsg.pitch (_att_msg s)))%float in
  (exists e,
     setGimbalRotation_body yaw pitch th gain s = Raised e
     /\ (e = OverflowError \/ e = ValueError)
     /\ (int_of_float (gain * yaw_err) = Raised e
         \/ int_of_float (gain * pitch_err) = Raised e))
  \/ exists s' ctl y p c_att b_att c_speed b_speed,
       setGimbalRotation_body yaw pitch th gain s = Ok (s', ctl)
       /\ (ctl = Break \/ ctl = Sleep)
       /\ (ctl = Break -> y = 0 /\ p = 0)
       /\ -100 <= y <= 100 /\ -100 <= p <= 100
       /\ _last_att_seq s' = AttitdueMsg.seq (_att_msg s)
       /\ _att_msg s' = _att_msg s
       /\ crc16_str_swap (lit "556601000000000d") = Some c_att
       /\ fromhex (lit "556601000000000d" ++ c_att) = Some b_att
       /\ crc16_str_swap
            (lit "5566010200000007" ++ toHex y 8 ++ toHex p 8)
          = Some c_speed
       /\ fromhex (lit "5566010200000007" ++ toHex y 8 ++ toHex p 8
                   ++ c_speed) = Some b_speed
       /\ sent (_socket s') =
          (if sendto_fails (_socket s) then sent (_socket s)
           else sent (_socket s) ++ [b_att; b_speed]).
Proof.
  intros Hcontract Hfresh.
  destruct (fresh_pass_result yaw pitch th gain s Hcontract Hfresh)
    as [(e & Hbody & Hint)
       | (c1 & b1 & c2 & b2 & y & p & ctl & Hbody & Hctl & Hbrk & Hy & Hp
          & Hc1 & Hb1 & Hc2 & Hb2)]; cbv zeta.
  - left. exists e. split; [exact Hbody|]. split; [|exact Hint].
    destruct Hint as [H | H]; apply int_of_float_raises in H;
      destruct H as [[-> _] | [-> _]]; auto.
  - right. cbv zeta in Hbody.
    set (s1 := set_last_att_seq (fst (after_send s b1))
                 (AttitdueMsg.seq (_att_msg s))) in *.
    exists (fst (after_send s1 b2)), ctl, y, p, c1, b1, c2, b2.
    destruct (after_send_att s b1) as [Hatt Hlast].
    destruct (after_send_att s1 b2) as [Hatt2 Hlast2].
    split; [exact Hbody|]. split; [exact Hctl|]. split; [exact Hbrk|].
    split; [exact Hy|]. split; [exact Hp|].
    split; [now rewrite Hlast2|].
    split; [rewrite Hatt2; exact Hatt|].
    split; [exact Hc1|]. split; [exact Hb1|].
    split; [exact Hc2|]. split; [exact Hb2|].
    rewrite after_send_sent.
    assert (Hs1 : _socket s1 = _socket (fst (after_send s b1)))
      by reflexivity.
    rewrite Hs1, after_send_fails, after_send_sent.
    destruct (sendto_fails (_socket s)); [reflexivity|].
    now rewrite <- app_assoc.
Qed.







End Driver.

(** ** The checksum instance meets the contract *)

Lemma crc16_xmodem_contract : crc_contract crc16_xmodem.
Proof.
  intros s Hhex Hev.
  destruct (fromhex_total s Hhex Hev) as [b Hb].
  unfold crc16_xmodem. rewrite Hb. eexists. split; [reflexivity|].
  split; [|reflexivity].
  unfold hex4, slice. cbn [Nat.sub skipn firstn app is_hex forallb].
  now rewrite !is_hex_char_digit.
Qed.

(** ** Closed instances *)

(** From 4096 bytes on, the length field is written as zero: a
    four-digit length matches none of the three padding cases. *)
Example computeDataLen_4096_bytes :
  computeDataLen (repeat "0"%char (2 * 4095)) = lit "ff0f"
  /\ computeDataLen (repeat "0"%char (2 * 4096)) = lit "0000".
Proof. split; vm_compute; reflexivity. Qed.

(** The center command as it goes on the wire, whatever the counter. *)
Example centerGimbalMsg_frame :
  snd (centerGimbalMsg crc16_xmodem SIYIMESSAGE_init)
  = lit "556601010000000801d112"
  /\ snd (centerGimbalMsg crc16_xmodem (set_seq SIYIMESSAGE_init 41))
     = lit "556601010000000801d112".
Proof. split; reflexivity. Qed.

Lemma encode_decode_sequence_is_zero_witness :
  (exists m',
     decodeMsg crc16_xmodem SIYIMESSAGE_init
       (snd (encodeMsg crc16_xmodem SIYIMESSAGE_init (lit "01")
               COMMAND.CENTER)) =
     Ok (m', Some (lit "01", 1, COMMAND.CENTER, 0)))
  /\ _seq (fst (encodeMsg crc16_xmodem SIYIMESSAGE_init (lit "01")
                  COMMAND.CENTER)) = 1
  /\ _seq (fst (encodeMsg crc16_xmodem SIYIMESSAGE_init (lit "01")
                  COMMAND.CENTER)) <> 0.
Proof.
  apply (encode_decode_sequence_is_zero crc16_xmodem SIYIMESSAGE_init
           SIYIMESSAGE_init (lit "01") COMMAND.CENTER
           crc16_xmodem_contract);
    try reflexivity; vm_compute; split; discriminate.
Defined.

Lemma partial_frame_is_dropped_witness :
  run_status (bufferCallback crc16_xmodem fresh_session
                [x55; x66; x02; x02; x00; x05; x00; x08; x01; x00; xab])
  = Returned
  /\ run_frames (bufferCallback crc16_xmodem fresh_session
                   [x55; x66; x02; x02; x00; x05; x00; x08; x01; x00; xab])
     = []
  /\ run_st (bufferCallback crc16_xmodem fresh_session
               [x55; x66; x02; x02; x00; x05; x00; x08; x01; x00; xab])
     = fresh_session
  /\ ((10 <= 11)%nat ->
      run_buff (bufferCallback crc16_xmodem fresh_session
                  [x55; x66; x02; x02; x00; x05; x00; x08; x01; x00; xab])
      = []).
Proof.
  apply (partial_frame_is_dropped crc16_xmodem fresh_session x02 x02 x00
           [x05; x00; x08; x01; x00; xab]).
  vm_compute. reflexivity.
Defined.

(** C2, as stated, fails: eleven bytes that start with the marker and
    declare a two-byte payload need a twelfth; after the call the buffer
    is empty, the eleven bytes are not kept. *)
Lemma partial_frame_kept_pending_counterexample :
  let buff := [x55; x66; x02; x02; x00; x05; x00; x08; x01; x00; xab] in
  let r := bufferCallback crc16_xmodem fresh_session buff in
  slice 0 4 (hex_of_bytes buff) = HEADER
  /\ Z.of_nat (length buff) < 10 + (byte_val x00 * 256 + byte_val x02)
  /\ run_buff r = []
  /\ ~ (run_frames r = [] /\ run_buff r = hex_of_bytes buff).
Proof.
  vm_compute. repeat split. intros [_ H]. discriminate H.
Qed.

Lemma unimplemented_parsers_raise_witness :
  run_status (bufferCallback crc16_xmodem fresh_session working_mode_ack)
  = Uncaught TypeError.
Proof.
  apply (unimplemented_parsers_raise_out_of_bufferCallback crc16_xmodem
           fresh_session working_mode_ack
           (mkMESSAGE 0 (lit "19") 1 (lit "01") (lit "0000"))
           (lit "01") (lit "19") 1 5);
    [reflexivity | reflexivity | reflexivity | right; reflexivity].
Defined.

(** The same with command id PHOTO_AND_RECORD; a frame of any other kind
    that follows in the same datagram is never looked at. *)
Example photo_frame_stops_the_scan :
  let r := bufferCallback crc16_xmodem fresh_session
             (photo_ack ++ center_ack) in
  run_status r = Uncaught TypeError
  /\ run_buff r = hex_of_bytes center_ack
  /\ _center_msg (run_st r) = CenterMsg.init.
Proof. vm_compute. repeat split. Qed.

Lemma resync_skips_marker_free_garbage_witness :
  run_frames (bufferCallback crc16_xmodem fresh_session
                ([x01; x02; xff] ++ center_ack))
  = [(lit "01", 1, lit "08", 5)]
  /\ run_buff (bufferCallback crc16_xmodem fresh_session
                ([x01; x02; xff] ++ center_ack)) = [].
Proof.
  destruct (resync_skips_marker_free_garbage crc16_xmodem fresh_session
              [x01; x02; xff] center_ack
              (mkMESSAGE 0 (lit "08") 1 (lit "01") (lit "0000"))
              (lit "01", 1, lit "08", 5)
              eq_refl eq_refl eq_refl eq_refl) as (Hf & Hb & _ & _).
  split; assumption.
Defined.

(** C5, as stated, fails: the garbage bytes 05 56 6f hold no marker, in
    fact no byte 0x55 at all, yet their text "05566f" holds "5566" from
    its second character on.  The scan drops one character, not one byte,
    takes that text for a frame start, reads a payload length of 0x6056
    and empties the buffer; the valid frame behind the garbage is lost. *)
Lemma resync_byte_garbage_counterexample :
  let garbage := [x05; x56; x6f] in
  let text := hex_of_bytes (garbage ++ center_ack) in
  ~ In x55 garbage
  /\ run_frames (bufferCallback crc16_xmodem fresh_session center_ack)
     = [(lit "01", 1, lit "08", 5)]
  /\ run_buff (bufferCallback_loop crc16_xmodem 1 fresh_session text [])
     = skipn 1 text
  /\ skipn 1 text <> hex_of_bytes (skipn 1 (garbage ++ center_ack))
  /\ run_frames (bufferCallback crc16_xmodem fresh_session
                   (garbage ++ center_ack)) = []
  /\ run_frames (bufferCallback crc16_xmodem fresh_session
                   (garbage ++ center_ack))
     <> [(lit "01", 1, lit "08", 5)].
Proof.
  cbv zeta. split; [|split; [|split; [|split; [|split]]]].
  - intros [H | [H | [H | []]]]; discriminate H.
  - vm_compute. reflexivity.
  - vm_compute. reflexivity.
  - vm_compute. discriminate.
  - vm_compute. reflexivity.
  - vm_compute. discriminate.
Qed.

Lemma absoluteZoomMsg_data_frac_above_9_witness :
  9 < 12 /\ absoluteZoomMsg_data 5 12 = lit "090c".
Proof.
  split; [lia|].
  rewrite (absoluteZoomMsg_data_frac_above_9 5 12); [reflexivity | lia].
Defined.



Lemma setGimbalRotation_guards_witness :
  (exists e,
     (e = RejectedPitch \/ e = RejectedYaw)
     /\ forall fuel world,
          setGimbalRotation crc16_xmodem fuel world fresh_session
            10 30 1 4 = Ok (fresh_session, e))
  /\ (exists s' c b,
        (forall fuel world,
           setGimbalRotation crc16_xmodem fuel world fresh_session
             0 0 1 4 = Ok (s', Centered))
        /\ requestCenterGimbal crc16_xmodem fresh_session =
           Ok (s', negb (sendto_fails (_socket fresh_session)))
        /\ crc16_xmodem (lit "556601010000000801") = Some c
        /\ fromhex (lit "556601010000000801" ++ c) = Some b
        /\ sent (_socket s') =
           (if sendto_fails (_socket fresh_session)
            then sent (_socket fresh_session)
            else sent (_socket fresh_session) ++ [b])).
Proof.
  split.
  - apply (proj1 (setGimbalRotation_guards crc16_xmodem fresh_session
                    10 30 1 4)).
    reflexivity.
  - apply (proj2 (setGimbalRotation_guards crc16_xmodem fresh_session
                    0 0 1 4)); [exact crc16_xmodem_contract | |];
      reflexivity.
Defined.

(** ** Closed instances of the further properties *)

Lemma computeDataLen_reads_back_witness :
  exists a b c d,
    computeDataLen (lit "010203") = [c; d; a; b]
    /\ is_hex [a; b; c; d] = true
    /\ int_hex [a; b; c; d]
       = Some (Z.of_nat ((length (lit "010203") + 1) / 2)).
Proof.
  apply (computeDataLen_reads_back (lit "010203")). vm_compute. reflexivity.
Defined.

Lemma computeDataLen_overflow_witness :
  computeDataLen (repeat "a"%char (2 * 4096)) = lit "0000".
Proof.
  apply (computeDataLen_overflow (repeat "a"%char (2 * 4096))).
  vm_compute. discriminate.
Defined.

Lemma encodeMsg_counter_cycle_witness :
  fst (encodeMsg crc16_xmodem (set_seq SIYIMESSAGE_init 65536) (lit "01")
         COMMAND.CENTER)
  = set_seq (set_seq SIYIMESSAGE_init 65536)
      ((_seq (set_seq SIYIMESSAGE_init 65536) + 1) mod 65537)
  /\ 0 <= _seq (fst (encodeMsg crc16_xmodem
                       (set_seq SIYIMESSAGE_init 65536) (lit "01")
                       COMMAND.CENTER)) <= 65536.
Proof.
  apply (encodeMsg_counter_cycle crc16_xmodem
           (set_seq SIYIMESSAGE_init 65536) (lit "01") COMMAND.CENTER).
  cbn. lia.
Defined.

Lemma incrementSEQ_text_witness :
  exists a b c d,
    snd (incrementSEQ SIYIMESSAGE_init 15) = [c; d; a; b]
    /\ int_hex [a; b; c; d] =
       Some (if (16 <=? 15 + 1) && (15 + 1 <=? 255)
             then 257 * (15 + 1) else 15 + 1).
Proof. apply (incrementSEQ_text SIYIMESSAGE_init 15). lia. Defined.

Lemma decodeMsg_on_hex_text_witness :
  let m := SIYIMESSAGE_init in
  let msg := hex_of_bytes center_ack in
  decodeMsg crc16_xmodem m msg = Ok (m, None)
  \/ exists data data_len cmd_id seq,
       decodeMsg crc16_xmodem m msg =
       Ok (mkMESSAGE (_seq m) cmd_id data_len data (_crc16 m),
           Some (data, data_len, cmd_id, seq))
       /\ (MINIMUM_DATA_LENGTH <= length msg)%nat
       /\ crc16_xmodem (drop_last 4 msg) = Some (last_chars 4 msg)
       /\ 0 <= data_len < 65536
       /\ 0 <= seq < 65536
       /\ cmd_id = slice 14 16 msg
       /\ data = (if data_len >? 0
                  then slice 16 (16 + Z.to_nat (data_len * 2)) msg else []).
Proof.
  apply (decodeMsg_on_hex_text crc16_xmodem SIYIMESSAGE_init
           (hex_of_bytes center_ack)).
  reflexivity.
Defined.

Lemma two_frames_in_one_datagram_witness :
  let buff := center_ack ++ [x55; x66; x02; x00; x00; x05; x00; xff;
                             xa5; xef] in
  run_frames (bufferCallback crc16_xmodem fresh_session buff)
  = [(lit "01", 1, lit "08", 5); ([], 0, lit "ff", 5)]
  /\ run_buff (bufferCallback crc16_xmodem fresh_session buff) = []
  /\ run_status (bufferCallback crc16_xmodem fresh_session buff)
     <> OutOfFuel.
Proof.
  apply (two_frames_in_one_datagram crc16_xmodem fresh_session center_ack
           [x55; x66; x02; x00; x00; x05; x00; xff; xa5; xef]
           (lit "01", 1, lit "08", 5) ([], 0, lit "ff", 5)).
  - split; [reflexivity | split; [reflexivity |]].
    exists (mkMESSAGE 0 (lit "08") 1 (lit "01") (lit "0000")).
    vm_compute. reflexivity.
  - split; [reflexivity | split; [reflexivity |]].
    exists (mkMESSAGE 0 (lit "ff") 0 [] (lit "0000")).
    vm_compute. reflexivity.
  - intros [H | [H | []]]; discriminate H.
Defined.

Lemma bad_checksum_is_skipped_witness :
  let buff := [x55; x66; x02; x01; x00; x05; x00; x08; x01; x00; x00]
              ++ center_ack in
  run_frames (bufferCallback crc16_xmodem fresh_session buff)
  = [(lit "01", 1, lit "08", 5)]
  /\ run_buff (bufferCallback crc16_xmodem fresh_session buff) = []
  /\ run_status (bufferCallback crc16_xmodem fresh_session buff)
     <> OutOfFuel.
Proof.
  apply (bad_checksum_is_skipped crc16_xmodem fresh_session x02 x01 x00
           [x05; x00; x08; x01; x00; x00] center_ack
           (lit "01", 1, lit "08", 5)).
  - reflexivity.
  - vm_compute. discriminate.
  - split; [reflexivity | split; [reflexivity |]].
    exists (mkMESSAGE 0 (lit "08") 1 (lit "01") (lit "0000")).
    vm_compute. reflexivity.
Defined.

Lemma unknown_command_is_dropped_witness :
  bufferCallback crc16_xmodem fresh_session
    [x55; x66; x02; x00; x00; x05; x00; xff; xa5; xef] =
  mkRun Returned
    (set_in_msg fresh_session
       (mkMESSAGE (_seq (_in_msg fresh_session)) (lit "ff") 0 []
          (_crc16 (_in_msg fresh_session))))
    [] [([], 0, lit "ff", 5)].
Proof.
  apply (unknown_command_is_dropped crc16_xmodem fresh_session
           [x55; x66; x02; x00; x00; x05; x00; xff; xa5; xef]
           [] (lit "ff") 0 5).
  - split; [reflexivity | split; [reflexivity |]].
    exists (mkMESSAGE 0 (lit "ff") 0 [] (lit "0000")).
    vm_compute. reflexivity.
  - vm_compute. intuition discriminate.
Defined.

Lemma control_angle_answer_stores_command_id_witness :
  let r := bufferCallback crc16_xmodem fresh_session
             [x55; x66; x02; x00; x00; x05; x00; x0e; x9b; x10] in
  run_status r = Returned
  /\ AttitdueMsg.seq (_att_msg (run_st r)) = SeqStr (lit "0e")
  /\ forall z,
       pyseq_eqb (AttitdueMsg.seq (_att_msg (run_st r))) (SeqInt z) = false.
Proof.
  apply (control_angle_answer_stores_command_id crc16_xmodem fresh_session
           [x55; x66; x02; x00; x00; x05; x00; x0e; x9b; x10] [] 0 5).
  - split; [reflexivity | split; [reflexivity |]].
    exists (mkMESSAGE 0 (lit "0e") 0 [] (lit "0000")).
    vm_compute. reflexivity.
Defined.

Lemma attitude_parser_acceptance_witness :
  let msg := lit "0a00f6ff" in
  let r := parseRequestGimbalAttitudeMsg fresh_session msg 7 in
  snd r = (20 <? length msg)%nat
  /\ AttitdueMsg.seq (_att_msg (fst r)) = SeqInt 7
  /\ ((0 < length msg)%nat ->
      exists v, toInt (le16 0 msg) = Some v
                /\ AttitdueMsg.yaw (_att_msg (fst r)) = v # 10)
  /\ (msg = [] ->
      fst r = set_att_msg fresh_session
                (att_set_seq (SeqInt 7) (_att_msg fresh_session))).
Proof.
  apply (attitude_parser_acceptance fresh_session (lit "0a00f6ff") 7).
  reflexivity.
Defined.

Lemma zoom_payload_round_trip_witness :
  parseRequestCurrentZoomValueMsg fresh_session (absoluteZoomMsg_data 5 3) 9
  = (set_currentZoomValue_msg fresh_session
       (CurrentZoomValueMsg.mk 9 5 (3 # 10)), true).
Proof.
  apply (zoom_payload_round_trip fresh_session 5 3 9); lia.
Defined.


Lemma failed_checksum_sends_empty_datagram_witness :
  encodeMsg (fun _ => None) (_out_msg fresh_session) (lit "01")
    COMMAND.CENTER
  = (fst (incrementSEQ (_out_msg fresh_session)
            (_seq (_out_msg fresh_session))), [])
  /\ (let '(m, msg) := encodeMsg (fun _ => None) (_out_msg fresh_session)
                         (lit "01") COMMAND.CENTER in
      sendMsg (set_out_msg fresh_session m) msg)
     = Ok (after_send fresh_session []).
Proof.
  apply (failed_checksum_sends_empty_datagram (fun _ => None) fresh_session
           (lit "01") COMMAND.CENTER).
  reflexivity.
Defined.

Lemma fixed_builders_frames_witness :
  Forall
    (fun entry =>
       let '(build, (data, cmd_id)) := entry in
       build SIYIMESSAGE_init = encodeMsg crc16_xmodem SIYIMESSAGE_init
                                  data cmd_id
       /\ length (snd (build SIYIMESSAGE_init)) = (20 + length data)%nat
       /\ exists m',
            decodeMsg crc16_xmodem SIYIMESSAGE_init
              (snd (build SIYIMESSAGE_init)) =
            Ok (m', Some (data, Z.of_nat (length data / 2), cmd_id, 0)))
    (fixed_builders crc16_xmodem).
Proof.
  apply (fixed_builders_frames crc16_xmodem SIYIMESSAGE_init
           SIYIMESSAGE_init crc16_xmodem_contract).
Defined.

Lemma silent_probe_disconnects_witness :
  let answered x :=
    set_fw_msg x (FirmwareMsg.mk 7 [] (lit "1.2.3") []) in
  exists s1,
    checkConnection crc16_xmodem answered fresh_session = Ok s1
    /\ _connected s1 = true
    /\ FirmwareMsg.seq (_fw_msg s1) = _last_fw_seq s1
    /\ FirmwareMsg.gimbal_firmware_ver (_fw_msg s1) <> []
    /\ exists s2, checkConnection crc16_xmodem (fun x => x) s1 = Ok s2
                  /\ _connected s2 = false.
Proof.
  cbv zeta. eexists. split; [vm_compute; reflexivity|].
  split; [reflexivity|].
  apply (silent_probe_disconnects crc16_xmodem
           (fun x => set_fw_msg x (FirmwareMsg.mk 7 [] (lit "1.2.3") []))
           (fun x => x) fresh_session _ crc16_xmodem_contract).
  - intros x. split; reflexivity.
  - vm_compute. reflexivity.
  - reflexivity.
Defined.

Lemma fresh_pass_speed_is_bounded_witness :
  let s := fresh_session in
  let yaw_err :=
    (- 40 + float_of_Q (AttitdueMsg.yaw (_att_msg s)))%float in
  let pitch_err :=
    (-10 - float_of_Q (AttitdueMsg.pitch (_att_msg s)))%float in
  (exists e,
     setGimbalRotation_body crc16_xmodem 40 (-10) 1 4 s = Raised e
     /\ (e = OverflowError \/ e = ValueError)
     /\ (int_of_float (4 * yaw_err) = Raised e
         \/ int_of_float (4 * pitch_err) = Raised e))
  \/ exists s' ctl y p c_att b_att c_speed b_speed,
       setGimbalRotation_body crc16_xmodem 40 (-10) 1 4 s = Ok (s', ctl)
       /\ (ctl = Break \/ ctl = Sleep)
       /\ (ctl = Break -> y = 0 /\ p = 0)
       /\ -100 <= y <= 100 /\ -100 <= p <= 100
       /\ _last_att_seq s' = AttitdueMsg.seq (_att_msg s)
       /\ _att_msg s' = _att_msg s
       /\ crc16_xmodem (lit "556601000000000d") = Some c_att
       /\ fromhex (lit "556601000000000d" ++ c_att) = Some b_att
       /\ crc16_xmodem
            (lit "5566010200000007" ++ toHex y 8 ++ toHex p 8)
          = Some c_speed
       /\ fromhex (lit "5566010200000007" ++ toHex y 8 ++ toHex p 8
                   ++ c_speed) = Some b_speed
       /\ sent (_socket s') =
          (if sendto_fails (_socket s) then sent (_socket s)
           else sent (_socket s) ++ [b_att; b_speed]).
Proof.
  apply (fresh_pass_speed_is_bounded crc16_xmodem 40 (-10) 1 4
           fresh_session crc16_xmodem_contract).
  reflexivity.
Defined.




